(** * fetch_economic_data.py: the fund and development-bank adapters, the
      request helper and the cleaner, as Rocq functions.

    The Python program is embedded shallowly:
    - a decoded JSON document is a [pyval]; a [dict] is an association list
      in insertion order (the order [.items()] iterates in);
    - a Python exception is a constructor of [exn]; code that can raise
      lives in the monad [SE S A := S -> res A * S], whose state survives
      a raise (a list appended to before the exception keeps its items);
    - the network is an oracle in the [world]: the outcome of the n-th
      [requests.get]; [time.sleep] is logged there;
    - a [float] is kept as the exact rational its decimal text denotes:
      binary64 rounding is not modelled, overflow to infinity is;
    - [int()] and [float()] recognise ASCII white space and digits only,
      and the limit of [int()] on the number of digits is left out;
    - progress lines written by [print] are dropped, the table lookups
      inside their f-strings are kept (they can raise [KeyError]);
    - a pandas DataFrame is the list of its rows and always has the eight
      columns; a cell of the two coerced columns is [CNone], a number or a
      text; integers are unbounded (the widths of the dtypes are left out)
      and which texts pandas reads as numbers is a parameter. *)

From Stdlib Require Import ZArith QArith String Ascii List Bool Lia.
From Stdlib Require Import Permutation Sorted DecimalString.
From Stdlib Require OrderedTypeEx.
Import ListNotations.

Local Open Scope string_scope.
Local Open Scope Z_scope.

(* ====================================================================== *)
(** ** Exceptions and the state-and-exception monad *)

Inductive exn : Type :=
| ValueError
| TypeError
| KeyError
| AttributeError
| OverflowError.

Definition exn_eqb (a b : exn) : bool :=
  match a, b with
  | ValueError, ValueError | TypeError, TypeError | KeyError, KeyError
  | AttributeError, AttributeError | OverflowError, OverflowError => true
  | _, _ => false
  end.

Inductive res (A : Type) : Type :=
| Ok (a : A)
| Raise (e : exn).
Arguments Ok {A} a.
Arguments Raise {A} e.

Definition res_bind {A B} (r : res A) (k : A -> res B) : res B :=
  match r with
  | Ok a => k a
  | Raise e => Raise e
  end.

Definition SE (S A : Type) : Type := S -> res A * S.

Definition ret {S A} (a : A) : SE S A := fun s => (Ok a, s).

Definition bind {S A B} (m : SE S A) (k : A -> SE S B) : SE S B :=
  fun s =>
    match m s with
    | (Ok a, s') => k a s'
    | (Raise e, s') => (Raise e, s')
    end.

(** An expression that may raise, evaluated inside a statement sequence. *)
Definition lift {S A} (r : res A) : SE S A := fun s => (r, s).

Definition modify {S} (f : S -> S) : SE S unit := fun s => (Ok tt, f s).

Declare Scope se_scope.
Delimit Scope se_scope with se.
Notation "x <- m ;; k" := (bind m (fun x => k))
  (at level 61, m at next level, right associativity) : se_scope.
Notation "m ;; k" := (bind m (fun _ => k))
  (at level 61, right associativity) : se_scope.
Notation "x <~ r ;; k" := (res_bind r (fun x => k))
  (at level 61, r at next level, right associativity).

(** [try: body except (handled...): handler]. *)
Definition try_except {S A} (handled : list exn) (body handler : SE S A)
  : SE S A :=
  fun s =>
    match body s with
    | (Raise e, s') =>
        if existsb (exn_eqb e) handled then handler s' else (Raise e, s')
    | ok => ok
    end.

(** [for x in xs: body x]. *)
Fixpoint for_each {S X} (xs : list X) (body : X -> SE S unit) : SE S unit :=
  match xs with
  | [] => ret tt
  | x :: rest => bind (body x) (fun _ => for_each rest body)
  end.

(* ====================================================================== *)
(** ** Python values *)

(** A float: the exact value of a finite one, an infinity, or nan. The
    rational is kept reduced, so equal numbers are equal terms. *)
Inductive pyfloat : Type :=
| Finite (q : Q)
| Infinity (negative : bool)
| NaN.

#[local] Unset Elimination Schemes.
Inductive pyval : Type :=
| PNone
| PBool (b : bool)
| PInt (z : Z)
| PFloat (f : pyfloat)
| PStr (s : string)
| PList (l : list pyval)
| PDict (d : list (string * pyval)).
#[local] Set Elimination Schemes.

(** [d.get(k)] on an association list: the first binding of [k]. *)
Fixpoint assoc {V} (k : string) (d : list (string * V)) : option V :=
  match d with
  | [] => None
  | (k', v) :: rest => if String.eqb k k' then Some v else assoc k rest
  end.

(** [d[k]]: [KeyError] when the key is absent. *)
Definition getitem {V} (d : list (string * V)) (k : string) : res V :=
  match assoc k d with
  | Some v => Ok v
  | None => Raise KeyError
  end.

Definition has_key {V} (k : string) (d : list (string * V)) : bool :=
  match assoc k d with Some _ => true | None => false end.

(** Truth value of an object, as [if x:] and [not x] take it. *)
Definition truthy (v : pyval) : bool :=
  match v with
  | PNone => false
  | PBool b => b
  | PInt z => negb (z =? 0)
  | PFloat (Finite q) => negb (Qnum q =? 0)
  | PFloat _ => true
  | PStr s => negb (String.eqb s "")
  | PList l => match l with [] => false | _ => true end
  | PDict d => match d with [] => false | _ => true end
  end.

Definition is_None (v : pyval) : bool :=
  match v with PNone => true | _ => false end.

(** [v != s] for a str [s]. *)
Definition ne_str (v : pyval) (s : string) : bool :=
  match v with
  | PStr s' => negb (String.eqb s' s)
  | _ => true
  end.

Fixpoint is_substring (needle hay : string) : bool :=
  String.prefix needle hay
  || match hay with
     | EmptyString => false
     | String _ hay' => is_substring needle hay'
     end.

(** [key in container] for a str key. *)
Definition py_contains (key : string) (container : pyval) : res bool :=
  match container with
  | PDict d => Ok (has_key key d)
  | PList l => Ok (existsb (fun x => negb (ne_str x key)) l)
  | PStr s => Ok (is_substring key s)
  | _ => Raise TypeError
  end.

(** [container[key]] for a str key. *)
Definition py_getitem (container : pyval) (key : string) : res pyval :=
  match container with
  | PDict d => getitem d key
  | _ => Raise TypeError
  end.

(** [obj.items()]: only a dict has the attribute. *)
Definition py_items (obj : pyval) : res (list (string * pyval)) :=
  match obj with
  | PDict d => Ok d
  | _ => Raise AttributeError
  end.

(** [obj.get(key, default)]. *)
Definition py_get (obj : pyval) (key : string) (default : pyval) : res pyval :=
  match obj with
  | PDict d => Ok (match assoc key d with Some v => v | None => default end)
  | _ => Raise AttributeError
  end.

Fixpoint chars (s : string) : list pyval :=
  match s with
  | EmptyString => []
  | String c s' => PStr (String c EmptyString) :: chars s'
  end.

(** The items [for x in obj] runs through. *)
Definition py_iter (obj : pyval) : res (list pyval) :=
  match obj with
  | PList l => Ok l
  | PDict d => Ok (map (fun kv => PStr (fst kv)) d)
  | PStr s => Ok (chars s)
  | _ => Raise TypeError
  end.

(* ====================================================================== *)
(** ** [int(x)] and [float(x)] *)

Definition code (c : ascii) : Z := Z.of_N (N_of_ascii c).

Definition is_space (c : ascii) : bool :=
  ((9 <=? code c) && (code c <=? 13)) || (code c =? 32).

Definition is_digit (c : ascii) : bool := (48 <=? code c) && (code c <=? 57).

Definition digit_value (c : ascii) : Z := code c - 48.

Definition lower (c : ascii) : ascii :=
  if (65 <=? code c) && (code c <=? 90)
  then ascii_of_N (N_of_ascii c + 32) else c.

Fixpoint lstrip (l : list ascii) : list ascii :=
  match l with
  | c :: l' => if is_space c then lstrip l' else l
  | [] => []
  end.

Definition strip (l : list ascii) : list ascii := rev (lstrip (rev (lstrip l))).

(** An optional sign: [true] for a minus. *)
Definition take_sign (l : list ascii) : bool * list ascii :=
  match l with
  | "+"%char :: l' => (false, l')
  | "-"%char :: l' => (true, l')
  | _ => (false, l)
  end.

(** The tail [(["_"] digit)*] of a digit part: the value read so far, the
    number of digits read so far, and what is left. *)
Fixpoint more_digits (l : list ascii) (acc : Z) (n : Z)
  : Z * Z * list ascii :=
  match l with
  | c :: l' =>
      if is_digit c then more_digits l' (10 * acc + digit_value c) (n + 1)
      else if Ascii.eqb c "_" then
        match l' with
        | d :: l'' =>
            if is_digit d
            then more_digits l'' (10 * acc + digit_value d) (n + 1)
            else (acc, n, l)
        | [] => (acc, n, l)
        end
      else (acc, n, l)
  | [] => (acc, n, [])
  end.

(** [digitpart ::= digit (["_"] digit)*]. *)
Definition digitpart (l : list ascii) : option (Z * Z * list ascii) :=
  match l with
  | c :: l' => if is_digit c then Some (more_digits l' (digit_value c) 1)
               else None
  | [] => None
  end.

Definition signed (negative : bool) (z : Z) : Z := if negative then - z else z.

(** [int(s)] for a str, base 10; [None] is [ValueError]. *)
Definition parse_int (s : string) : option Z :=
  let (negative, body) := take_sign (strip (list_ascii_of_string s)) in
  match digitpart body with
  | Some (z, _, []) => Some (signed negative z)
  | _ => None
  end.

(** The rational [m * 10^e]. *)
Definition decimal (m e : Z) : Q :=
  if 0 <=? e then (m * 10 ^ e) # 1 else m # Z.to_pos (10 ^ (- e)).

(** Magnitudes from [2^1024 - 2^970] on round to an infinity. *)
Definition float_overflows (q : Q) : bool :=
  (2 ^ 1024 - 2 ^ 970) * Zpos (Qden q) <=? Z.abs (Qnum q).

Definition to_float (q : Q) : pyfloat :=
  if float_overflows q then Infinity (Qnum q <? 0) else Finite (Qred q).

(** [exponent ::= ("e" | "E") [sign] digitpart], optional; then the end. *)
Definition parse_exponent (l : list ascii) : option Z :=
  match l with
  | [] => Some 0
  | c :: l' =>
      if Ascii.eqb (lower c) "e" then
        let (negative, body) := take_sign l' in
        match digitpart body with
        | Some (z, _, []) => Some (signed negative z)
        | _ => None
        end
      else None
  end.

(** [number ::= [digitpart] "." digitpart | digitpart ["."]]: the digits
    read as one integer, the number of digits after the point, the rest. *)
Definition parse_number (l : list ascii) : option (Z * Z * list ascii) :=
  match digitpart l with
  | Some (ip, _, "."%char :: rest) =>
      match digitpart rest with
      | Some (fp, nf, rest') => Some (ip * 10 ^ nf + fp, nf, rest')
      | None => Some (ip, 0, rest)
      end
  | Some (ip, _, rest) => Some (ip, 0, rest)
  | None =>
      match l with
      | "."%char :: rest =>
          match digitpart rest with
          | Some (fp, nf, rest') => Some (fp, nf, rest')
          | None => None
          end
      | _ => None
      end
  end.

(** [float(s)] for a str; [None] is [ValueError]. *)
Definition parse_float (s : string) : option pyfloat :=
  let (negative, body) := take_sign (strip (list_ascii_of_string s)) in
  let word := string_of_list_ascii (map lower body) in
  if String.eqb word "inf" || String.eqb word "infinity"
  then Some (Infinity negative)
  else if String.eqb word "nan" then Some NaN
  else
    match parse_number body with
    | Some (m, nf, rest) =>
        match parse_exponent rest with
        | Some e => Some (to_float (decimal (signed negative m) (e - nf)))
        | None => None
        end
    | None => None
    end.

Definition py_int (v : pyval) : res Z :=
  match v with
  | PInt z => Ok z
  | PBool b => Ok (if b then 1 else 0)
  | PFloat (Finite q) => Ok (Z.quot (Qnum q) (Zpos (Qden q)))
  | PFloat (Infinity _) => Raise OverflowError
  | PFloat NaN => Raise ValueError
  | PStr s =>
      match parse_int s with
      | Some z => Ok z
      | None => Raise ValueError
      end
  | PNone | PList _ | PDict _ => Raise TypeError
  end.

Definition py_float (v : pyval) : res pyfloat :=
  match v with
  | PFloat f => Ok f
  | PInt z =>
      if float_overflows (z # 1) then Raise OverflowError
      else Ok (Finite (z # 1))
  | PBool b => Ok (Finite ((if b then 1 else 0) # 1))
  | PStr s =>
      match parse_float s with
      | Some f => Ok f
      | None => Raise ValueError
      end
  | PNone | PList _ | PDict _ => Raise TypeError
  end.

(** [str(z)] for an int. *)
Definition py_str (z : Z) : string := NilZero.string_of_int (Z.to_int z).

(* ====================================================================== *)
(** ** Configuration *)

Definition IMF_BASE_URL : string :=
  "https://www.imf.org/external/datamapper/api/v1".

Definition WB_BASE_URL : string := "https://api.worldbank.org/v2".

Definition START_YEAR : Z := 2018.
Definition END_YEAR : Z := 2024.

Record country_info : Type := { name : string; region : string }.

Definition COUNTRIES : list (string * country_info) :=
  [ ("BRA", {| name := "Brazil"; region := "Latin America" |});
    ("MEX", {| name := "Mexico"; region := "Latin America" |});
    ("ARG", {| name := "Argentina"; region := "Latin America" |});
    ("COL", {| name := "Colombia"; region := "Latin America" |});
    ("CHL", {| name := "Chile"; region := "Latin America" |});
    ("PER", {| name := "Peru"; region := "Latin America" |});
    ("ZAF", {| name := "South Africa"; region := "Africa" |});
    ("NGA", {| name := "Nigeria"; region := "Africa" |});
    ("KEN", {| name := "Kenya"; region := "Africa" |});
    ("EGY", {| name := "Egypt"; region := "Africa" |});
    ("GHA", {| name := "Ghana"; region := "Africa" |});
    ("ETH", {| name := "Ethiopia"; region := "Africa" |});
    ("IND", {| name := "India"; region := "Asia" |});
    ("IDN", {| name := "Indonesia"; region := "Asia" |});
    ("PHL", {| name := "Philippines"; region := "Asia" |});
    ("VNM", {| name := "Vietnam"; region := "Asia" |});
    ("BGD", {| name := "Bangladesh"; region := "Asia" |});
    ("THA", {| name := "Thailand"; region := "Asia" |});
    ("MYS", {| name := "Malaysia"; region := "Asia" |});
    ("POL", {| name := "Poland"; region := "Europe" |});
    ("ROU", {| name := "Romania"; region := "Europe" |});
    ("TUR", {| name := "Turkey"; region := "Europe" |});
    ("UKR", {| name := "Ukraine"; region := "Europe" |});
    ("JOR", {| name := "Jordan"; region := "Middle East" |});
    ("LBN", {| name := "Lebanon"; region := "Middle East" |}) ].

Record indicator_info : Type :=
  { indicator_name : string; description : string }.

Definition IMF_INDICATORS : list (string * indicator_info) :=
  [ ("NGDP_RPCH",
     {| indicator_name := "GDP Growth Rate (Annual %)";
        description := "Real GDP growth rate, annual percentage change" |});
    ("PCPIPCH",
     {| indicator_name := "Inflation Rate (CPI)";
        description := "Consumer Price Index, annual percentage change" |});
    ("GGXWDG_NGDP",
     {| indicator_name := "Government Debt (% of GDP)";
        description :=
          "General government gross debt as percentage of GDP" |});
    ("GGXCNL_NGDP",
     {| indicator_name := "Fiscal Balance (% of GDP)";
        description :=
          "General government net lending/borrowing as percentage of GDP" |});
    ("GGR_NGDP",
     {| indicator_name := "Government Revenue (% of GDP)";
        description := "General government revenue as percentage of GDP" |});
    ("GGX_NGDP",
     {| indicator_name := "Government Expenditure (% of GDP)";
        description :=
          "General government total expenditure as percentage of GDP" |});
    ("BCA_NGDPD",
     {| indicator_name := "Current Account Balance (% of GDP)";
        description := "Current account balance as percentage of GDP" |});
    ("LUR",
     {| indicator_name := "Unemployment Rate";
        description := "Unemployment rate, percent" |}) ].

Definition WB_INDICATORS : list (string * indicator_info) :=
  [ ("SE.XPD.TOTL.GD.ZS",
     {| indicator_name := "Education Expenditure (% of GDP)";
        description :=
          "Government expenditure on education, total (% of GDP)" |});
    ("IS.RRS.TOTL.KM",
     {| indicator_name := "Railway Infrastructure";
        description := "Railways, total (route-km)" |});
    ("SP.POP.TOTL",
     {| indicator_name := "Population";
        description := "Population, total" |});
    ("NY.GNP.PCAP.CD",
     {| indicator_name := "GNI per Capita";
        description := "GNI per capita, Atlas method (current US$)" |});
    ("IE.PPI.ENGY.CD",
     {| indicator_name := "Infrastructure Investment (Energy)";
        description :=
          "Investment in energy with private participation (current US$)" |}) ].

(* ====================================================================== *)
(** ** The record both adapters emit *)

Record ObservationRecord : Type :=
  { Country_Code : string;
    Country : string;
    Region : string;
    Year : Z;
    Indicator_Name : string;
    Indicator_Code : string;
    Value : option pyfloat;
    Source : string }.

(* ====================================================================== *)
(** ** The network and [make_request] *)

Record request : Type := { url : string; params : list (string * string) }.

(** What one [requests.get] followed by [raise_for_status] and [.json()]
    comes to: a [RequestException], or the decoded document (an exception
    of another class is not modelled). *)
Inductive outcome : Type :=
| RequestException
| Json (v : pyval).

Record world : Type :=
  { net : request -> nat -> outcome;  (* the outcome of the n-th attempt *)
    attempts : nat;                   (* attempts made so far *)
    slept : list Z }.                 (* seconds slept, latest first *)

Definition requests_get (r : request) (w : world) : outcome * world :=
  (net w r (attempts w),
   {| net := net w; attempts := S (attempts w); slept := slept w |}).

Definition time_sleep (seconds : Z) (w : world) : world :=
  {| net := net w; attempts := attempts w; slept := seconds :: slept w |}.

(** The loop [for attempt in range(max_retries)] of [make_request], over
    the attempts still to run. *)
Fixpoint make_request_loop (r : request) (max_retries : Z)
  (todo : list nat) (w : world) : pyval * world :=
  match todo with
  | [] => (PNone, w)
  | attempt :: rest =>
      match requests_get r w with
      | (Json v, w1) => (v, w1)
      | (RequestException, w1) =>
          if Z.of_nat attempt <? max_retries - 1
          then make_request_loop r max_retries rest
                 (time_sleep (2 ^ Z.of_nat attempt) w1)
          else (PNone, w1)
      end
  end.

(** [make_request(url, params, max_retries)]: the document, or [None]. *)
Definition make_request (url : string) (params : list (string * string))
  (max_retries : nat) : SE world pyval :=
  fun w =>
    let (v, w') :=
      make_request_loop {| url := url; params := params |}
        (Z.of_nat max_retries) (seq 0 max_retries) w in
    (Ok v, w').

(** The default of the third argument. *)
Definition default_max_retries : nat := 3.

(** [range(a, b + 1)]. *)
Definition years_range (a b : Z) : list Z :=
  map (fun i => a + Z.of_nat i) (seq 0 (Z.to_nat (b + 1 - a))).

(** Runs a block on a local, initially empty [data_points] list and
    returns the list as it stands when the block ends normally. *)
Definition collecting {W} (block : SE (list ObservationRecord) unit)
  : SE W (list ObservationRecord) :=
  fun w =>
    match block [] with
    | (Ok _, data_points) => (Ok data_points, w)
    | (Raise e, _) => (Raise e, w)
    end.

Definition append (r : ObservationRecord) : SE (list ObservationRecord) unit :=
  modify (fun data_points => (data_points ++ [r])%list).

Local Open Scope se_scope.

(* ====================================================================== *)
(** ** [get_imf_data] *)

(** Lines 200-211, the body of the inner [try]. *)
Definition imf_point (indicator_code country_code year_str : string)
  (value : pyval) : SE (list ObservationRecord) unit :=
  year <- lift (py_int (PStr year_str)) ;;
  if (START_YEAR <=? year) && (year <=? END_YEAR) && negb (is_None value)
  then
    country <- lift (getitem COUNTRIES country_code) ;;
    indicator <- lift (getitem IMF_INDICATORS indicator_code) ;;
    v <- lift (if ne_str value ""
               then (f <~ py_float value ;; Ok (Some f))
               else Ok None) ;;
    append {| Country_Code := country_code;
              Country := name country;
              Region := region country;
              Year := year;
              Indicator_Name := indicator_name indicator;
              Indicator_Code := indicator_code;
              Value := v;
              Source := "IMF" |}
  else ret tt.

(** Lines 193-213, the loop over the requested countries. *)
Definition imf_country (indicator_code : string) (indicator_data : pyval)
  (country_code : string) : SE (list ObservationRecord) unit :=
  present <- lift (py_contains country_code indicator_data) ;;
  if present : bool then
    country_data <- lift (py_getitem indicator_data country_code) ;;
    items <- lift (py_items country_data) ;;
    for_each items (fun item =>
      try_except [ValueError; TypeError]
        (imf_point indicator_code country_code (fst item) (snd item))
        (ret tt))
  else ret tt.

(** Lines 189-215, the outer [try] and its handler. *)
Definition imf_parse (indicator_code : string) (country_codes : list string)
  (response : pyval) : SE (list ObservationRecord) unit :=
  try_except [KeyError; TypeError]
    (has_values <- lift (py_contains "values" response) ;;
     has_indicator <-
       lift (if has_values : bool
             then (values <~ py_getitem response "values" ;;
                   py_contains indicator_code values)
             else Ok false) ;;
     if has_indicator : bool then
       values <- lift (py_getitem response "values") ;;
       indicator_data <- lift (py_getitem values indicator_code) ;;
       for_each country_codes (imf_country indicator_code indicator_data)
     else ret tt)
    (ret tt).

Definition imf_request (indicator_code : string) (country_codes : list string)
  : request :=
  {| url := IMF_BASE_URL ++ "/" ++ indicator_code ++ "/"
            ++ String.concat "," country_codes;
     params := [("periods",
                 String.concat ","
                   (map py_str (years_range START_YEAR END_YEAR)))] |}.

Definition get_imf_data (indicator_code : string) (country_codes : list string)
  : SE world (list ObservationRecord) :=
  let r := imf_request indicator_code country_codes in
  _ <- lift (getitem IMF_INDICATORS indicator_code) ;;
  response <- make_request (url r) (params r) default_max_retries ;;
  if negb (truthy response) then ret []
  else collecting (imf_parse indicator_code country_codes response).

(* ====================================================================== *)
(** ** [get_world_bank_data] *)

(** Lines 262-273, the body of the inner [try]. *)
Definition wb_point (indicator_code country_code : string)
  (year value : pyval) : SE (list ObservationRecord) unit :=
  year_int <- lift (py_int year) ;;
  if (START_YEAR <=? year_int) && (year_int <=? END_YEAR)
  then
    country <- lift (getitem COUNTRIES country_code) ;;
    indicator <- lift (getitem WB_INDICATORS indicator_code) ;;
    f <- lift (py_float value) ;;
    append {| Country_Code := country_code;
              Country := name country;
              Region := region country;
              Year := year_int;
              Indicator_Name := indicator_name indicator;
              Indicator_Code := indicator_code;
              Value := Some f;
              Source := "World Bank" |}
  else ret tt.

(** Lines 254-277, one turn of the loop over the records. The test
    [country_code in COUNTRIES] hashes its left side: a list or a dict
    there is a [TypeError], anything else that is not a str is not a key. *)
Definition wb_record (indicator_code : string) (record : pyval)
  : SE (list ObservationRecord) unit :=
  try_except [KeyError; TypeError]
    (country_code <- lift (py_get record "countryiso3code" (PStr "")) ;;
     match country_code with
     | PStr code =>
         if has_key code COUNTRIES then
           year <- lift (py_get record "date" (PStr "")) ;;
           value <- lift (py_get record "value" PNone) ;;
           if truthy year && negb (is_None value) then
             try_except [ValueError; TypeError]
               (wb_point indicator_code code year value)
               (ret tt)
           else ret tt
         else ret tt
     | PList _ | PDict _ => lift (Raise TypeError)
     | _ => ret tt
     end)
    (ret tt).

Definition wb_request (indicator_code : string) (country_codes : list string)
  : request :=
  {| url := WB_BASE_URL ++ "/country/" ++ String.concat ";" country_codes
            ++ "/indicator/" ++ indicator_code;
     params := [("format", "json");
                ("date", py_str START_YEAR ++ ":" ++ py_str END_YEAR);
                ("per_page", py_str 10000)] |}.

Definition get_world_bank_data (indicator_code : string)
  (country_codes : list string) : SE world (list ObservationRecord) :=
  let r := wb_request indicator_code country_codes in
  _ <- lift (getitem WB_INDICATORS indicator_code) ;;
  response <- make_request (url r) (params r) default_max_retries ;;
  match response with
  | PList l =>
      if negb (truthy response) || (Z.of_nat (length l) <? 2) then ret []
      else
        let data := nth 1 l PNone in
        collecting (records <- lift (py_iter data) ;;
                    for_each records (wb_record indicator_code))
  | _ => ret []  (* falsy, or not a list *)
  end.

(* ====================================================================== *)
(** ** The fetch phase of [main] *)

(** [for indicator_code in codes: all_data.extend(adapter(...)); sleep(1)] *)
Fixpoint fetch_loop
  (adapter : string -> list string -> SE world (list ObservationRecord))
  (codes country_codes : list string) (all_data : list ObservationRecord)
  : SE world (list ObservationRecord) :=
  match codes with
  | [] => ret all_data
  | indicator_code :: rest =>
      data <- adapter indicator_code country_codes ;;
      modify (time_sleep 1) ;;
      fetch_loop adapter rest country_codes (all_data ++ data)%list
  end.

Definition fetch_all : SE world (list ObservationRecord) :=
  let country_codes := map fst COUNTRIES in
  all_data <- fetch_loop get_imf_data (map fst IMF_INDICATORS)
                country_codes [] ;;
  fetch_loop get_world_bank_data (map fst WB_INDICATORS)
    country_codes all_data.

Local Close Scope se_scope.

(* ====================================================================== *)
(** ** Data frames and [clean_data] *)

Inductive number : Type :=
| NInt (z : Z)
| NFloat (f : pyfloat).

(** A cell of a column [clean_data] coerces: missing ([None]), a number
    (a float nan is a missing value too), or a text. *)
Inductive cell : Type :=
| CNone
| CNum (n : number)
| CStr (s : string).

(** A row; the columns [clean_data] leaves alone hold a text or nothing. *)
Module FrameRow.
Record t : Type :=
  { Country_Code : option string;
    Country : option string;
    Region : option string;
    Year : cell;
    Indicator_Name : option string;
    Indicator_Code : option string;
    Value : cell;
    Source : option string }.

Definition set_Year (y : cell) (r : t) : t :=
  {| Country_Code := Country_Code r; Country := Country r;
     Region := Region r; Year := y;
     Indicator_Name := Indicator_Name r;
     Indicator_Code := Indicator_Code r; Value := Value r;
     Source := Source r |}.

Definition set_Value (v : cell) (r : t) : t :=
  {| Country_Code := Country_Code r; Country := Country r;
     Region := Region r; Year := Year r;
     Indicator_Name := Indicator_Name r;
     Indicator_Code := Indicator_Code r; Value := v;
     Source := Source r |}.
End FrameRow.

Definition DataFrame : Type := list FrameRow.t.

(** [pd.DataFrame(all_data)]. *)
Definition row_of_record (r : ObservationRecord) : FrameRow.t :=
  {| FrameRow.Country_Code := Some (Country_Code r);
     FrameRow.Country := Some (Country r);
     FrameRow.Region := Some (Region r);
     FrameRow.Year := CNum (NInt (Year r));
     FrameRow.Indicator_Name := Some (Indicator_Name r);
     FrameRow.Indicator_Code := Some (Indicator_Code r);
     FrameRow.Value := match Value r with
                  | Some f => CNum (NFloat f)
                  | None => CNone
                  end;
     FrameRow.Source := Some (Source r) |}.

Definition pd_DataFrame (all_data : list ObservationRecord) : DataFrame :=
  map row_of_record all_data.

Definition isna (c : cell) : bool :=
  match c with
  | CNone | CNum (NFloat NaN) => true
  | _ => false
  end.

Definition isna_text (c : option string) : bool :=
  match c with None => true | Some _ => false end.

(** None of ["Country"], ["Year"], ["Indicator_Name"] is missing. *)
Definition complete (r : FrameRow.t) : bool :=
  negb (isna_text (FrameRow.Country r))
  && negb (isna (FrameRow.Year r))
  && negb (isna_text (FrameRow.Indicator_Name r)).

(** [df.dropna(subset=["Country", "Year", "Indicator_Name"])]. *)
Definition dropna (df : DataFrame) : DataFrame := filter complete df.

(** The value of an Int64 cell: an integer, or [<NA>]. *)
Definition int64 (c : cell) : option Z :=
  match c with
  | CNum (NInt z) => Some z
  | _ => None
  end.

(** Comparison with missing values after all others ([na_position]
    defaults to last). *)
Definition na_last {A} (cmp : A -> A -> comparison) (a b : option A)
  : comparison :=
  match a, b with
  | Some x, Some y => cmp x y
  | Some _, None => Lt
  | None, Some _ => Gt
  | None, None => Eq
  end.

Definition lex (c1 c2 : comparison) : comparison :=
  match c1 with Eq => c2 | _ => c1 end.

(** The order of [sort_values(["Country", "Year", "Indicator_Name"])]. *)
Definition key_compare (r1 r2 : FrameRow.t) : comparison :=
  lex (na_last String.compare (FrameRow.Country r1) (FrameRow.Country r2))
    (lex (na_last Z.compare (int64 (FrameRow.Year r1)) (int64 (FrameRow.Year r2)))
       (na_last String.compare
          (FrameRow.Indicator_Name r1) (FrameRow.Indicator_Name r2))).

Definition key_leb (r1 r2 : FrameRow.t) : bool :=
  match key_compare r1 r2 with Gt => false | _ => true end.

(** [sort_values] on several columns is a stable sort: a row goes in
    front of the rows after it that have an equal key. *)
Fixpoint insert (r : FrameRow.t) (sorted : DataFrame) : DataFrame :=
  match sorted with
  | [] => [r]
  | r' :: rest => if key_leb r r' then r :: sorted else r' :: insert r rest
  end.

Definition sort_values (df : DataFrame) : DataFrame :=
  fold_right insert [] df.

Section Cleaner.

(** The numbers pandas reads texts as; the model does not fix which
    texts those are. *)
Variable numeric_text : string -> option number.

(** [pd.to_numeric(column, errors="coerce")], cell by cell: what does
    not convert becomes nan. *)
Definition to_numeric (c : cell) : cell :=
  match c with
  | CNone => CNum (NFloat NaN)
  | CNum n => CNum n
  | CStr s =>
      match numeric_text s with
      | Some n => CNum n
      | None => CNum (NFloat NaN)
      end
  end.

(** [.astype("Int64")] on a numeric cell: nan becomes [<NA>], a float
    that is not an integer cannot be cast. *)
Definition astype_Int64 (c : cell) : res cell :=
  match c with
  | CNum (NInt z) => Ok (CNum (NInt z))
  | CNum (NFloat (Finite q)) =>
      if Qnum q mod Zpos (Qden q) =? 0
      then Ok (CNum (NInt (Qnum q / Zpos (Qden q))))
      else Raise TypeError
  | CNum (NFloat NaN) => Ok CNone
  | CNum (NFloat (Infinity _)) => Raise TypeError
  | CNone => Ok CNone
  | CStr _ => Raise TypeError
  end.

(** Line 298, the assignment to the column ["Year"]. *)
Fixpoint coerce_Year (df : DataFrame) : res DataFrame :=
  match df with
  | [] => Ok []
  | r :: rest =>
      y <~ astype_Int64 (to_numeric (FrameRow.Year r)) ;;
      rest' <~ coerce_Year rest ;;
      Ok (FrameRow.set_Year y r :: rest')
  end.

(** Line 299, the assignment to the column ["Value"]. *)
Definition coerce_Value (df : DataFrame) : DataFrame :=
  map (fun r => FrameRow.set_Value (to_numeric (FrameRow.Value r)) r) df.

Definition clean_data (df : DataFrame) : res DataFrame :=
  let df_clean := dropna df in
  df_clean <~ coerce_Year df_clean ;;
  let df_clean := coerce_Value df_clean in
  let df_clean := sort_values df_clean in
  Ok df_clean.

(** [main] up to the cleaned frame; [None] when nothing was retrieved. *)
Definition main : SE world (option DataFrame) :=
  bind fetch_all (fun all_data =>
    let df := pd_DataFrame all_data in
    match df with
    | [] => ret None
    | _ => lift (df_clean <~ clean_data df ;; Ok (Some df_clean))
    end).

End Cleaner.

(* ====================================================================== *)
(** ** Vocabulary of the properties *)

Definition known_country (code : string) : bool := has_key code COUNTRIES.

Definition in_bounds (year : Z) : bool :=
  (START_YEAR <=? year) && (year <=? END_YEAR).

(** The entries [(year key, value)] a fund response holds at
    [values[indicator][country]]: empty unless all three levels are
    dicts. *)
Definition entries (response : pyval) (indicator_code country_code : string)
  : list (string * pyval) :=
  match response with
  | PDict d =>
      match assoc "values" d with
      | Some (PDict values) =>
          match assoc indicator_code values with
          | Some (PDict indicator_data) =>
              match assoc country_code indicator_data with
              | Some (PDict items) => items
              | _ => []
              end
          | _ => []
          end
      | _ => []
      end
  | _ => []
  end.

(** The record the fund adapter builds for a country and a year. *)
Definition imf_record (indicator_code country_code : string)
  (country : country_info) (indicator : indicator_info) (year : Z)
  (value : option pyfloat) : ObservationRecord :=
  {| Country_Code := country_code;
     Country := name country;
     Region := region country;
     Year := year;
     Indicator_Name := indicator_name indicator;
     Indicator_Code := indicator_code;
     Value := value;
     Source := "IMF" |}.

(** A fund record is backed by the response: it is the record of a known
    country and of the requested indicator, its year lies in the bounds,
    and it stems from an entry of that country whose key reads as that
    year and whose value is the empty string (then the record has no
    value) or converts to the float the record holds. *)
Definition imf_sound (response : pyval) (indicator_code : string)
  (r : ObservationRecord) : Prop :=
  exists country indicator k v,
    assoc (Country_Code r) COUNTRIES = Some country /\
    assoc indicator_code IMF_INDICATORS = Some indicator /\
    In (k, v) (entries response indicator_code (Country_Code r)) /\
    parse_int k = Some (Year r) /\
    in_bounds (Year r) = true /\
    v <> PNone /\
    ((v = PStr "" /\ Value r = None) \/
     (v <> PStr "" /\ exists f, py_float v = Ok f /\ Value r = Some f)) /\
    r = imf_record indicator_code (Country_Code r) country indicator
          (Year r) (Value r).

(** A development-bank record: a known country, the requested indicator,
    a year in the bounds, and a value that is a float. *)
Definition wb_sound (indicator_code : string) (r : ObservationRecord) : Prop :=
  exists country indicator f,
    assoc (Country_Code r) COUNTRIES = Some country /\
    assoc indicator_code WB_INDICATORS = Some indicator /\
    in_bounds (Year r) = true /\
    Value r = Some f /\
    r = {| Country_Code := Country_Code r;
           Country := name country;
           Region := region country;
           Year := Year r;
           Indicator_Name := indicator_name indicator;
           Indicator_Code := indicator_code;
           Value := Some f;
           Source := "World Bank" |}.

(** The document [make_request] hands to the adapter in a world. *)
Definition fetched (r : request) (w : world) : pyval :=
  fst (make_request_loop r (Z.of_nat default_max_retries)
         (seq 0 default_max_retries) w).

(** The world after that call. *)
Definition after_fetch (r : request) (w : world) : world :=
  snd (make_request_loop r (Z.of_nat default_max_retries)
         (seq 0 default_max_retries) w).

(** The state satisfies [P] after [m] whenever it did before, whether [m]
    ends normally or raises. *)
Definition preserves {St A} (P : St -> Prop) (m : SE St A) : Prop :=
  forall s, P s -> P (snd (m s)).

(* ---------------------------------------------------------------------- *)
(** *** The fund adapter on a well-formed response *)

(** [float(v)] does not overflow (the one exception of the conversion that
    neither [except] clause of the adapter catches). *)
Definition no_overflow (v : pyval) : bool :=
  match py_float v with
  | Raise OverflowError => false
  | _ => true
  end.

(** The years the keys of a country's entries read as. *)
Definition years_of (items : list (string * pyval)) : list Z :=
  flat_map (fun kv => match parse_int (fst kv) with
                      | Some y => [y]
                      | None => []
                      end) items.

Fixpoint distinct (l : list Z) : bool :=
  match l with
  | [] => true
  | x :: rest => negb (existsb (Z.eqb x) rest) && distinct rest
  end.

(** A requested country is well-formed in the indicator's data when it is
    absent, or is a key of [COUNTRIES] bound to a dict whose keys read as
    distinct years and whose values do not overflow [float()]. *)
Definition well_formed_country (indicator_data : list (string * pyval))
  (country_code : string) : bool :=
  match assoc country_code indicator_data with
  | None => true
  | Some (PDict items) =>
      known_country country_code
      && forallb (fun kv => no_overflow (snd kv)) items
      && distinct (years_of items)
  | Some _ => false
  end.

(** A response is well-formed for a request when it has the shape
    [values[indicator][country][year] = value] and every requested country
    is well-formed in it. *)
Definition well_formed (indicator_code : string) (country_codes : list string)
  (response : pyval) : bool :=
  match response with
  | PDict d =>
      match assoc "values" d with
      | Some (PDict values) =>
          match assoc indicator_code values with
          | Some (PDict indicator_data) =>
              forallb (well_formed_country indicator_data) country_codes
          | _ => false
          end
      | _ => false
      end
  | _ => false
  end.

(** The records of one entry. *)
Definition point_records (indicator_code country_code : string)
  (country : country_info) (indicator : indicator_info)
  (entry : string * pyval) : list ObservationRecord :=
  match parse_int (fst entry) with
  | Some year =>
      if in_bounds year && negb (is_None (snd entry)) then
        if ne_str (snd entry) "" then
          match py_float (snd entry) with
          | Ok f => [imf_record indicator_code country_code country indicator
                       year (Some f)]
          | Raise _ => []
          end
        else [imf_record indicator_code country_code country indicator
                year None]
      else []
  | None => []
  end.

(** The records of one requested country. *)
Definition country_records (indicator_code : string)
  (indicator : indicator_info) (indicator_data : list (string * pyval))
  (country_code : string) : list ObservationRecord :=
  match assoc country_code indicator_data, assoc country_code COUNTRIES with
  | Some (PDict items), Some country =>
      flat_map (point_records indicator_code country_code country indicator)
        items
  | _, _ => []
  end.

(** The records of a country and a year. *)
Definition of_country_year (country_code : string) (year : Z)
  (r : ObservationRecord) : bool :=
  String.eqb (Country_Code r) country_code && (Year r =? year).

(** The three attempts of a call of [make_request] in a world all fail. *)
Definition three_failures (r : request) (w : world) : Prop :=
  net w r (attempts w) = RequestException /\
  net w r (S (attempts w)) = RequestException /\
  net w r (S (S (attempts w))) = RequestException.

(** The world after them: three attempts made, one second and then two
    seconds slept. *)
Definition exhausted (w : world) : world :=
  {| net := net w;
     attempts := S (S (S (attempts w)));
     slept := 2 :: 1 :: slept w |}.

(** A response the development-bank adapter takes no record from: absent,
    not a list, or a list of fewer than two elements. *)
Definition unusable (response : pyval) : Prop :=
  response = PNone \/
  (forall l, response <> PList l) \/
  (exists l, response = PList l /\ (length l < 2)%nat).

Definition key_le (r1 r2 : FrameRow.t) : Prop := key_leb r1 r2 = true.

(** The order of the claim, in its own words: the tuples (country, year,
    indicator name) compared lexicographically, texts by their characters,
    a missing year after every year. *)
Definition text_lt (a b : string) : Prop := String.compare a b = Lt.

Definition year_lt (a b : option Z) : Prop :=
  match a, b with
  | Some x, Some y => x < y
  | Some _, None => True
  | None, _ => False
  end.

Definition tuple_le (r1 r2 : FrameRow.t) : Prop :=
  exists c1 i1 c2 i2,
    FrameRow.Country r1 = Some c1 /\ FrameRow.Indicator_Name r1 = Some i1 /\
    FrameRow.Country r2 = Some c2 /\ FrameRow.Indicator_Name r2 = Some i2 /\
    (text_lt c1 c2 \/
     (c1 = c2 /\
      (year_lt (int64 (FrameRow.Year r1)) (int64 (FrameRow.Year r2)) \/
       (int64 (FrameRow.Year r1) = int64 (FrameRow.Year r2) /\
        (text_lt i1 i2 \/ i1 = i2))))).

(* ====================================================================== *)
(** ** Vocabulary of the cleaner's properties *)

(** A reading of texts as numbers to run the cleaner with: an int as
    [int()] reads it, else a float as [float()] does. *)
Definition python_numeric_text (s : string) : option number :=
  match parse_int s with
  | Some z => Some (NInt z)
  | None =>
      match parse_float s with
      | Some f => Some (NFloat f)
      | None => None
      end
  end.

Section CleanerVocabulary.

Variable numeric_text : string -> option number.

(** The cast of the year of a row, after the coercion. *)
Definition year_cast (r : FrameRow.t) : res cell :=
  astype_Int64 (to_numeric numeric_text (FrameRow.Year r)).

(** The cleaned form [r'] of a row [r]: the year cast, the value
    coerced, the other columns as they were. *)
Definition cleaned (r r' : FrameRow.t) : Prop :=
  exists y,
    year_cast r = Ok y /\
    r' = FrameRow.set_Value (to_numeric numeric_text (FrameRow.Value r))
           (FrameRow.set_Year y r).

(** The cast of the years raises on no row that [dropna] keeps. *)
Definition years_castable (df : DataFrame) : bool :=
  forallb (fun r => match year_cast r with Ok _ => true | Raise _ => false end)
    (dropna df).

(** Valid input: on every row that [dropna] keeps, the year converts to
    an integer. *)
Definition years_valid (df : DataFrame) : bool :=
  forallb (fun r => match year_cast r with
                    | Ok (CNum (NInt _)) => true
                    | _ => false
                    end)
    (dropna df).


(** A row as [clean_data] leaves it: complete, its year an integer and
    its value a number (nan for a missing one). *)
Definition tidy (r : FrameRow.t) : Prop :=
  complete r = true /\
  (exists z, FrameRow.Year r = CNum (NInt z)) /\
  (exists n, FrameRow.Value r = CNum n).

End CleanerVocabulary.

(* ====================================================================== *)
(** ** Example documents and worlds *)

(** A world whose every request is answered at once with one document. *)
Definition answering (v : pyval) : world :=
  {| net := fun _ _ => Json v; attempts := 0; slept := [] |}.

(** A world in which every request fails. *)
Definition offline : world :=
  {| net := fun _ _ => RequestException; attempts := 0; slept := [] |}.

(** [{"values":{"LUR":{"BRA":{"2019": 11.9, "2025": 8.0}}}}] *)
Definition lur_response : pyval :=
  PDict [("values",
          PDict [("LUR",
                  PDict [("BRA",
                          PDict [("2019", PFloat (to_float (decimal 119 (-1))));
                                 ("2025", PFloat (to_float (decimal 80 (-1))))
                                ])])])].

Definition lur_2019 : ObservationRecord :=
  {| Country_Code := "BRA";
     Country := "Brazil";
     Region := "Latin America";
     Year := 2019;
     Indicator_Name := "Unemployment Rate";
     Indicator_Code := "LUR";
     Value := Some (to_float (decimal 119 (-1)));
     Source := "IMF" |}.


(** [{"values":{"LUR":{"BRA":{"2019": "n/a", "2020": 12.5}}}}] *)
Definition lur_text_response : pyval :=
  PDict [("values",
          PDict [("LUR",
                  PDict [("BRA",
                          PDict [("2019", PStr "n/a");
                                 ("2020", PFloat (to_float (decimal 125 (-1))))
                                ])])])].

(** [[meta, [{"countryiso3code":"BRA","date":"2020","value":"5.2"}]]] *)
Definition wb_response (meta : pyval) : pyval :=
  PList [meta;
         PList [PDict [("countryiso3code", PStr "BRA");
                       ("date", PStr "2020");
                       ("value", PStr "5.2")]]].

(** The record of the development-bank example. *)
Definition wb_2020 (indicator_code : string) (indicator : indicator_info)
  : ObservationRecord :=
  {| Country_Code := "BRA";
     Country := "Brazil";
     Region := "Latin America";
     Year := 2020;
     Indicator_Name := indicator_name indicator;
     Indicator_Code := indicator_code;
     Value := Some (to_float (decimal 52 (-1)));
     Source := "World Bank" |}.

(** [[meta, [{"countryiso3code":"BRA","date":"2020","value":null},
             {"countryiso3code":"BRA","date":"2021","value":3}]]] *)
Definition wb_null_response : pyval :=
  PList [PDict [("page", PInt 1)];
         PList [PDict [("countryiso3code", PStr "BRA");
                       ("date", PStr "2020");
                       ("value", PNone)];
                PDict [("countryiso3code", PStr "BRA");
                       ("date", PStr "2021");
                       ("value", PInt 3)]]].

(* ====================================================================== *)
(** ** Example frames *)

Definition observation (country : option string) (year : cell)
  (value : cell) : FrameRow.t :=
  {| FrameRow.Country_Code := None;
     FrameRow.Country := country;
     FrameRow.Region := None;
     FrameRow.Year := year;
     FrameRow.Indicator_Name := Some "Unemployment Rate";
     FrameRow.Indicator_Code := Some "LUR";
     FrameRow.Value := value;
     FrameRow.Source := Some "IMF" |}.

(** Mexico 2020 with a text for its value, a row without a country, and
    Brazil with the year as a text. *)
Definition raw_frame : DataFrame :=
  [ observation (Some "Mexico") (CNum (NInt 2020)) (CStr "n/a");
    observation None (CNum (NInt 2019)) (CNum (NFloat (Finite (7 # 1))));
    observation (Some "Brazil") (CStr "2019")
      (CNum (NFloat (to_float (decimal 119 (-1))))) ].

Definition clean_frame : DataFrame :=
  [ observation (Some "Brazil") (CNum (NInt 2019))
      (CNum (NFloat (to_float (decimal 119 (-1)))));
    observation (Some "Mexico") (CNum (NInt 2020)) (CNum (NFloat NaN)) ].

(** One row whose year is a text that is no number. *)
Definition unreadable_year_frame : DataFrame :=
  [ observation (Some "Brazil") (CStr "n/a")
      (CNum (NFloat (to_float (decimal 119 (-1))))) ].

(* ====================================================================== *)
(** ** Vocabulary of the further properties *)

(** The pauses of [k] failed attempts that were each followed by one:
    [2^(k-1)], ..., 2, 1 seconds, latest first. *)
Definition backoff (k : nat) : list Z :=
  rev (map (fun attempt => 2 ^ Z.of_nat attempt) (seq 0 k)).

(** The world after [k] attempts and the pauses of the first [pauses]. *)
Definition after_attempts (k pauses : nat) (w : world) : world :=
  {| net := net w;
     attempts := attempts w + k;
     slept := backoff pauses ++ slept w |}.

(** Every exception [m] raises, from whatever state, is one of [E]. *)
Definition raises_only {St A} (E : list exn) (m : SE St A) : Prop :=
  forall s e, fst (m s) = Raise e -> In e E.

(** A world that answers every request at its third attempt. *)
Definition answering_third : world :=
  {| net := fun _ n => if (n <? 2)%nat then RequestException
                       else Json (PInt 7);
     attempts := 0;
     slept := [] |}.

(** [{"values":{"LUR":{"BRA": null}}}] *)
Definition lur_null_country : pyval :=
  PDict [("values", PDict [("LUR", PDict [("BRA", PNone)])])].

(** The field of a record of the development bank, as [record.get]
    returns it. *)
Definition field (d : list (string * pyval)) (key : string) (default : pyval)
  : pyval :=
  match assoc key d with Some v => v | None => default end.

(** The records the development-bank adapter takes from one record of the
    response: one when its country code is a key of [COUNTRIES], its date
    is truthy and reads as a year in the bounds, and its value is not null
    and converts; none otherwise. *)
Definition wb_records (indicator_code : string) (indicator : indicator_info)
  (record : pyval) : list ObservationRecord :=
  match record with
  | PDict d =>
      match field d "countryiso3code" (PStr "") with
      | PStr code =>
          match assoc code COUNTRIES with
          | Some country =>
              let year := field d "date" (PStr "") in
              let value := field d "value" PNone in
              if truthy year && negb (is_None value) then
                match py_int year, py_float value with
                | Ok year_int, Ok f =>
                    if in_bounds year_int then
                      [ {| Country_Code := code;
                           Country := name country;
                           Region := region country;
                           Year := year_int;
                           Indicator_Name := indicator_name indicator;
                           Indicator_Code := indicator_code;
                           Value := Some f;
                           Source := "World Bank" |} ]
                    else []
                | _, _ => []
                end
              else []
          | None => []
          end
      | _ => []
      end
  | _ => []
  end.

(** A record the adapter gets through without raising: a dict whose date
    is no infinity and whose value does not overflow [float()]. *)
Definition wb_safe (record : pyval) : bool :=
  match record with
  | PDict d =>
      match py_int (field d "date" (PStr "")) with
      | Raise OverflowError => false
      | _ => true
      end
      && no_overflow (field d "value" PNone)
  | _ => false
  end.

Definition is_dict (v : pyval) : bool :=
  match v with PDict _ => true | _ => false end.

(** What [for record in data] cannot run through. *)
Definition not_iterable (v : pyval) : bool :=
  match v with
  | PNone | PBool _ | PInt _ | PFloat _ => true
  | _ => false
  end.

(** [[meta, [BRA 2020 "5.2", an unknown country, BRA with a null value,
    BRA 2030, BRA 2021 "n/a", MEX 2021 3]]] *)
Definition wb_mixed_response : pyval :=
  PList [PDict [("page", PInt 1)];
         PList [PDict [("countryiso3code", PStr "BRA");
                       ("date", PStr "2020"); ("value", PStr "5.2")];
                PDict [("countryiso3code", PStr "USA");
                       ("date", PStr "2020"); ("value", PInt 1)];
                PDict [("countryiso3code", PStr "BRA");
                       ("date", PStr "2019"); ("value", PNone)];
                PDict [("countryiso3code", PStr "BRA");
                       ("date", PStr "2030"); ("value", PInt 1)];
                PDict [("countryiso3code", PStr "BRA");
                       ("date", PStr "2021"); ("value", PStr "n/a")];
                PDict [("countryiso3code", PStr "MEX");
                       ("date", PInt 2021); ("value", PInt 3)]]].

(** The dict a fund response holds at [values[indicator]], if it holds
    one. *)
Definition indicator_data (response : pyval) (indicator_code : string)
  : option (list (string * pyval)) :=
  match response with
  | PDict d =>
      match assoc "values" d with
      | Some (PDict values) =>
          match assoc indicator_code values with
          | Some (PDict data) => Some data
          | _ => None
          end
      | _ => None
      end
  | _ => None
  end.

(** [{"values":{"LUR":{"BRA":{"2019": 2, "2017": 9, "2018": ""},
                       "MEX":{"2020": 3}}}}] *)
Definition lur_two_countries : pyval :=
  PDict [("values",
          PDict [("LUR",
                  PDict [("BRA", PDict [("2019", PInt 2);
                                        ("2017", PInt 9);
                                        ("2018", PStr "")]);
                         ("MEX", PDict [("2020", PInt 3)])])])].

(** Every attempt of every request fails in the world. *)
Definition all_requests_fail (w : world) : Prop :=
  forall r n, net w r n = RequestException.

(** The seconds slept so far. *)
Definition seconds_slept (w : world) : Z := fold_right Z.add 0 (slept w).

(** A record as [main] collects them: a country of [COUNTRIES], a year
    in the bounds, and the tag and an indicator of its source. *)
Definition collected (source : string)
  (indicators : list (string * indicator_info)) (r : ObservationRecord)
  : Prop :=
  Source r = source /\
  has_key (Indicator_Code r) indicators = true /\
  known_country (Country_Code r) = true /\
  START_YEAR <= Year r <= END_YEAR.

(** What one call of an adapter costs: between one and three attempts,
    and at most three seconds of pauses. *)
Definition one_call (w w' : world) : Prop :=
  (attempts w + 1 <= attempts w' <= attempts w + 3)%nat /\
  seconds_slept w <= seconds_slept w' <= seconds_slept w + 3.

(* ====================================================================== *)
(** ** The export phase of [main] *)

(** The file system as the exporter sees it: the directories that exist
    and the files written, oldest first, each with the frame it holds
    (the text of a file is not modelled, and every write succeeds). *)
Record disk : Type :=
  { dirs : list string;
    files : list (string * DataFrame) }.

(** [os.makedirs(output_dir, exist_ok=True)]. *)
Definition os_makedirs (output_dir : string) (fs : disk) : disk :=
  {| dirs := if existsb (String.eqb output_dir) (dirs fs) then dirs fs
             else output_dir :: dirs fs;
     files := files fs |}.

Fixpoint endswith_sep (s : string) : bool :=
  match s with
  | EmptyString => false
  | String c EmptyString => Ascii.eqb c "/"
  | String _ rest => endswith_sep rest
  end.

(** [os.path.join(path, b)] of [posixpath]. *)
Definition os_path_join (path b : string) : string :=
  if String.prefix "/" b then b
  else if String.eqb path "" || endswith_sep path then path ++ b
  else path ++ "/" ++ b.

(** [df.to_csv(filepath, index=False, encoding="utf-8")]. *)
Definition to_csv (df : DataFrame) (filepath : string) (fs : disk) : disk :=
  {| dirs := dirs fs; files := (files fs ++ [(filepath, df)])%list |}.

Local Open Scope se_scope.

Definition export_to_csv (df : DataFrame) (filename output_dir : string)
  : SE disk unit :=
  modify (os_makedirs output_dir) ;;
  let filepath := os_path_join output_dir filename in
  modify (to_csv df filepath).

(** [df.empty]. *)
Definition empty (df : DataFrame) : bool :=
  match df with [] => true | _ => false end.

(** [df[df["Source"] == source]]: the rows whose source is the text, in
    the order of the frame. *)
Definition where_Source (source : string) (df : DataFrame) : DataFrame :=
  filter (fun r => match FrameRow.Source r with
                   | Some s => String.eqb s source
                   | None => false
                   end) df.

(** Lines 384 to 398 of [main]: the master file and one file for each
    source that has rows. [timestamp] is the text
    [datetime.now().strftime("%Y%m%d_%H%M%S")] gives. *)
Definition main_export (timestamp : string) (df_clean : DataFrame)
  : SE disk unit :=
  let master_filename := "economic_data_master_" ++ timestamp ++ ".csv" in
  export_to_csv df_clean master_filename "data" ;;
  let imf_df := where_Source "IMF" df_clean in
  let wb_df := where_Source "World Bank" df_clean in
  (if negb (empty imf_df)
   then export_to_csv imf_df ("imf_data_" ++ timestamp ++ ".csv") "data"
   else ret tt) ;;
  (if negb (empty wb_df)
   then export_to_csv wb_df ("world_bank_data_" ++ timestamp ++ ".csv") "data"
   else ret tt).

Local Close Scope se_scope.

(** The row of a record after cleaning: a missing value is nan. *)
Definition cleaned_row (r : ObservationRecord) : FrameRow.t :=
  FrameRow.set_Value
    match Value r with
    | Some f => CNum (NFloat f)
    | None => CNum (NFloat NaN)
    end (row_of_record r).

(** The files an export phase writes for a master frame. *)
Definition exported (timestamp : string) (df_clean : DataFrame)
  : list (string * DataFrame) :=
  [("data/economic_data_master_" ++ timestamp ++ ".csv", df_clean)]
  ++ match where_Source "IMF" df_clean with
     | [] => []
     | imf_df => [("data/imf_data_" ++ timestamp ++ ".csv", imf_df)]
     end
  ++ match where_Source "World Bank" df_clean with
     | [] => []
     | wb_df => [("data/world_bank_data_" ++ timestamp ++ ".csv", wb_df)]
     end.

(** A run that starts with an empty directory. *)
Definition no_files : disk := {| dirs := []; files := [] |}.

(* ====================================================================== *)
(** * Proofs *)

(** ** The model at work *)

(** [int()] and [float()] on texts. *)
Example parse_examples :
  parse_int "2019" = Some 2019 /\ parse_int " +2_019 " = Some 2019 /\
  parse_int "2019.0" = None /\ parse_int "" = None /\ parse_int "_1" = None /\
  parse_int "1__0" = None /\ parse_int "-007" = Some (-7) /\
  parse_float "5.2" = Some (Finite (26 # 5)) /\
  parse_float "5.20" = Some (Finite (26 # 5)) /\
  parse_float " -1_0.5e-1 " = Some (Finite (-21 # 20)) /\
  parse_float ".5" = Some (Finite (1 # 2)) /\
  parse_float "5." = Some (Finite (5 # 1)) /\
  parse_float "1e3" = Some (Finite (1000 # 1)) /\
  parse_float "." = None /\ parse_float "" = None /\ parse_float "e3" = None /\
  parse_float "1._5" = None /\ parse_float "n/a" = None /\
  parse_float "-Inf" = Some (Infinity true) /\ parse_float "NaN" = Some NaN /\
  parse_float "1e400" = Some (Infinity false) /\
  py_str 2018 = "2018".
Proof. vm_compute. repeat split. Qed.

(** What the conditions of a well-formed response keep out: a listed code
    that is no key of [COUNTRIES] ends the parse at its first entry (the
    [KeyError] reaches the outer handler), a country bound to something
    that is no dict and an integer too large for a float make the adapter
    raise, and two keys that read as one year give two records. *)
Example beyond_well_formed :
  fst (get_imf_data "LUR" ["XXX"; "BRA"]
         (answering
            (PDict [("values",
                     PDict [("LUR",
                             PDict [("XXX", PDict [("2019", PInt 1)]);
                                    ("BRA", PDict [("2019", PInt 2)])])])])))
  = Ok [] /\
  fst (get_imf_data "LUR" ["BRA"]
         (answering
            (PDict [("values", PDict [("LUR", PDict [("BRA", PNone)])])])))
  = Raise AttributeError /\
  fst (get_imf_data "LUR" ["BRA"]
         (answering
            (PDict [("values",
                     PDict [("LUR",
                             PDict [("BRA",
                                     PDict [("2019", PInt (10 ^ 400))])])])])))
  = Raise OverflowError /\
  length
    match fst (get_imf_data "LUR" ["BRA"]
                 (answering
                    (PDict [("values",
                             PDict [("LUR",
                                     PDict [("BRA",
                                             PDict [("2019", PInt 1);
                                                    (" 2019", PInt 2)])])])])))
    with
    | Ok out => filter (of_country_year "BRA" 2019) out
    | Raise _ => []
    end = 2%nat.
Proof. vm_compute. repeat split. Qed.

(** A development-bank response whose second element is null, or holds
    something that is no dict, makes the adapter raise. *)
Example development_bank_raises :
  fst (get_world_bank_data "SP.POP.TOTL" ["BRA"]
         (answering (PList [PDict [("total", PInt 0)]; PNone])))
  = Raise TypeError /\
  fst (get_world_bank_data "SP.POP.TOTL" ["BRA"]
         (answering (PList [PDict [("total", PInt 0)]; PList [PNone]])))
  = Raise AttributeError.
Proof. vm_compute. repeat split. Qed.

(* ====================================================================== *)
(** ** Invariants of the state in the monad *)

Section Invariant.

Context {St : Type} (P : St -> Prop).

Lemma preserves_ret {A} (a : A) : preserves P (ret a).
Proof. intros s Hs. exact Hs. Qed.

Lemma preserves_lift {A} (r : res A) : preserves P (lift r).
Proof. intros s Hs. exact Hs. Qed.

Lemma preserves_bind {A B} (m : SE St A) (k : A -> SE St B) :
  preserves P m -> (forall a, preserves P (k a)) -> preserves P (bind m k).
Proof.
  intros Hm Hk s Hs. unfold bind. specialize (Hm s Hs).
  destruct (m s) as [[a | e] s']; simpl in *.
  - apply Hk. exact Hm.
  - exact Hm.
Qed.

Lemma preserves_bind_lift {A B} (r : res A) (k : A -> SE St B) :
  (forall a, r = Ok a -> preserves P (k a)) -> preserves P (bind (lift r) k).
Proof.
  intros Hk s Hs. unfold bind, lift.
  destruct r as [a | e]; simpl.
  - apply (Hk a eq_refl). exact Hs.
  - exact Hs.
Qed.

Lemma preserves_try_except {A} handled (body handler : SE St A) :
  preserves P body -> preserves P handler ->
  preserves P (try_except handled body handler).
Proof.
  intros Hb Hh s Hs. unfold try_except. specialize (Hb s Hs).
  destruct (body s) as [[a | e] s']; simpl in *.
  - exact Hb.
  - destruct (existsb (exn_eqb e) handled); simpl.
    + apply Hh. exact Hb.
    + exact Hb.
Qed.

Lemma preserves_for_each {X} (xs : list X) (body : X -> SE St unit) :
  (forall x, In x xs -> preserves P (body x)) ->
  preserves P (for_each xs body).
Proof.
  induction xs as [| x rest IH]; intros Hbody; simpl.
  - apply preserves_ret.
  - apply preserves_bind.
    + apply Hbody. left. reflexivity.
    + intros _. apply IH. intros y Hy. apply Hbody. right. exact Hy.
Qed.

End Invariant.

Lemma preserves_append (good : ObservationRecord -> Prop) r :
  good r -> preserves (Forall good) (append r).
Proof.
  intros Hr s Hs. unfold append, modify. simpl.
  apply Forall_app. split; [exact Hs | constructor; [exact Hr | constructor]].
Qed.

(** What [collecting] returns satisfies every invariant of its block. *)
Lemma collecting_invariant {W} (good : ObservationRecord -> Prop)
  (block : SE (list ObservationRecord) unit) (w : W) out :
  preserves (Forall good) block ->
  fst (collecting block w) = Ok out -> Forall good out.
Proof.
  intros Hb. unfold collecting. specialize (Hb [] (Forall_nil _)).
  destruct (block []) as [[u | e] data_points]; simpl in *.
  - intros H. injection H as <-. exact Hb.
  - discriminate.
Qed.

Lemma getitem_Ok {V} (d : list (string * V)) k v :
  getitem d k = Ok v -> assoc k d = Some v.
Proof.
  unfold getitem. destruct (assoc k d); intros H; [injection H as <- | discriminate].
  reflexivity.
Qed.

Lemma py_getitem_Ok container key v :
  py_getitem container key = Ok v ->
  exists d, container = PDict d /\ assoc key d = Some v.
Proof.
  destruct container; simpl; try discriminate.
  intros H. exists d. split; [reflexivity | apply getitem_Ok, H].
Qed.

Lemma py_items_Ok obj items : py_items obj = Ok items -> obj = PDict items.
Proof.
  destruct obj; simpl; try discriminate. intros H. injection H as <-.
  reflexivity.
Qed.

Lemma py_int_str k y : py_int (PStr k) = Ok y -> parse_int k = Some y.
Proof.
  simpl. destruct (parse_int k); intros H; [injection H as <- | discriminate].
  reflexivity.
Qed.

(* ---------------------------------------------------------------------- *)
(** *** The fund adapter only emits records backed by the response *)

Lemma imf_point_sound response indicator_code country_code k v :
  In (k, v) (entries response indicator_code country_code) ->
  preserves (Forall (imf_sound response indicator_code))
    (imf_point indicator_code country_code k v).
Proof.
  intros Hin. unfold imf_point.
  apply preserves_bind_lift. intros year Hyear. apply py_int_str in Hyear.
  destruct ((START_YEAR <=? year) && (year <=? END_YEAR) && negb (is_None v))
    eqn:Hguard; [| apply preserves_ret].
  apply andb_prop in Hguard as [Hb Hnone].
  apply preserves_bind_lift. intros country Hc. apply getitem_Ok in Hc.
  apply preserves_bind_lift. intros indicator Hi. apply getitem_Ok in Hi.
  apply preserves_bind_lift. intros value Hv.
  apply preserves_append.
  exists country, indicator, k, v. simpl.
  repeat split; try assumption.
  - intros ->. discriminate.
  - destruct (ne_str v "") eqn:Hne.
    + right. split.
      * intros ->. discriminate.
      * destruct (py_float v) as [f | e]; simpl in Hv; [| discriminate].
        injection Hv as <-. exists f. split; reflexivity.
    + left. injection Hv as <-. split; [| reflexivity].
      destruct v; simpl in Hne; try discriminate.
      apply negb_false_iff, String.eqb_eq in Hne. subst. reflexivity.
Qed.

Lemma imf_country_sound response indicator_code indicator_data country_code :
  (forall items, assoc country_code indicator_data = Some (PDict items) ->
                 entries response indicator_code country_code = items) ->
  preserves (Forall (imf_sound response indicator_code))
    (imf_country indicator_code (PDict indicator_data) country_code).
Proof.
  intros Hentries. unfold imf_country.
  apply preserves_bind_lift. intros present _.
  destruct present; [| apply preserves_ret].
  apply preserves_bind_lift. intros country_data Hcd.
  apply py_getitem_Ok in Hcd as (d & Hd & Hcd). injection Hd as <-.
  apply preserves_bind_lift. intros items Hitems.
  apply py_items_Ok in Hitems. subst country_data.
  apply preserves_for_each. intros [k v] Hin.
  apply preserves_try_except; [| apply preserves_ret].
  apply imf_point_sound. rewrite (Hentries items Hcd). exact Hin.
Qed.

Lemma imf_parse_sound indicator_code country_codes response :
  preserves (Forall (imf_sound response indicator_code))
    (imf_parse indicator_code country_codes response).
Proof.
  unfold imf_parse.
  apply preserves_try_except; [| apply preserves_ret].
  apply preserves_bind_lift. intros has_values _.
  apply preserves_bind_lift. intros has_indicator _.
  destruct has_indicator; [| apply preserves_ret].
  apply preserves_bind_lift. intros values Hvalues.
  apply py_getitem_Ok in Hvalues as (d & -> & Hvalues).
  apply preserves_bind_lift. intros indicator_data Hdata.
  apply py_getitem_Ok in Hdata as (vs & -> & Hdata).
  apply preserves_for_each. intros country_code _.
  destruct indicator_data as [| | | | | l | indicator_data].
  1-6: unfold imf_country; apply preserves_bind_lift; intros present _;
       destruct present; [| apply preserves_ret];
       apply preserves_bind_lift; intros ? Hbad; discriminate Hbad.
  apply imf_country_sound. intros items Hitems.
  unfold entries. rewrite Hvalues, Hdata, Hitems. reflexivity.
Qed.

(** [make_request] never raises: it returns the fetched document. *)
Lemma make_request_eq (r : request) (w : world) :
  make_request (url r) (params r) default_max_retries w
  = (Ok (fetched r w), after_fetch r w).
Proof.
  destruct r as [u p]. unfold make_request, fetched, after_fetch.
  cbn [url params].
  destruct (make_request_loop _ _ _ w) as [v w']. reflexivity.
Qed.

Lemma get_imf_data_eq indicator_code country_codes w :
  get_imf_data indicator_code country_codes w =
  match getitem IMF_INDICATORS indicator_code with
  | Raise e => (Raise e, w)
  | Ok _ =>
      let r := imf_request indicator_code country_codes in
      if negb (truthy (fetched r w)) then (Ok [], after_fetch r w)
      else collecting
             (imf_parse indicator_code country_codes (fetched r w))
             (after_fetch r w)
  end.
Proof.
  unfold get_imf_data, bind, lift.
  destruct (getitem IMF_INDICATORS indicator_code); [| reflexivity].
  rewrite make_request_eq. cbv zeta.
  destruct (negb (truthy _)); reflexivity.
Qed.

Lemma get_imf_data_sound indicator_code country_codes w out :
  fst (get_imf_data indicator_code country_codes w) = Ok out ->
  Forall (imf_sound
            (fetched (imf_request indicator_code country_codes) w)
            indicator_code) out.
Proof.
  rewrite get_imf_data_eq.
  destruct (getitem IMF_INDICATORS indicator_code); [| discriminate].
  cbv zeta. destruct (negb (truthy _)).
  - intros H. injection H as <-. constructor.
  - apply collecting_invariant, imf_parse_sound.
Qed.

(* ---------------------------------------------------------------------- *)
(** *** The development-bank adapter *)

Lemma wb_point_sound indicator_code country_code year value :
  preserves (Forall (wb_sound indicator_code))
    (wb_point indicator_code country_code year value).
Proof.
  unfold wb_point.
  apply preserves_bind_lift. intros year_int _.
  destruct ((START_YEAR <=? year_int) && (year_int <=? END_YEAR))
    eqn:Hb; [| apply preserves_ret].
  apply preserves_bind_lift. intros country Hc. apply getitem_Ok in Hc.
  apply preserves_bind_lift. intros indicator Hi. apply getitem_Ok in Hi.
  apply preserves_bind_lift. intros f _.
  apply preserves_append.
  exists country, indicator, f. simpl. repeat split; assumption.
Qed.

Lemma wb_record_sound indicator_code record :
  preserves (Forall (wb_sound indicator_code))
    (wb_record indicator_code record).
Proof.
  unfold wb_record.
  apply preserves_try_except; [| apply preserves_ret].
  apply preserves_bind_lift. intros country_code _.
  destruct country_code; try apply preserves_ret; try apply preserves_lift.
  destruct (has_key s COUNTRIES); [| apply preserves_ret].
  apply preserves_bind_lift. intros year _.
  apply preserves_bind_lift. intros value _.
  destruct (truthy year && negb (is_None value)); [| apply preserves_ret].
  apply preserves_try_except; [| apply preserves_ret].
  apply wb_point_sound.
Qed.

Lemma get_world_bank_data_eq indicator_code country_codes w :
  get_world_bank_data indicator_code country_codes w =
  match getitem WB_INDICATORS indicator_code with
  | Raise e => (Raise e, w)
  | Ok _ =>
      let r := wb_request indicator_code country_codes in
      match fetched r w with
      | PList (_ :: data :: _) =>
          collecting
            (bind (lift (py_iter data))
               (fun records => for_each records (wb_record indicator_code)))
            (after_fetch r w)
      | _ => (Ok [], after_fetch r w)
      end
  end.
Proof.
  unfold get_world_bank_data, bind at 1 2, lift at 1.
  destruct (getitem WB_INDICATORS indicator_code); [| reflexivity].
  rewrite make_request_eq. cbv zeta.
  destruct (fetched _ w) as [| | | | | l |]; try reflexivity.
  destruct l as [| meta [| data rest]]; try reflexivity.
  replace (Z.of_nat (length (meta :: data :: rest)) <? 2) with false
    by (symmetry; apply Z.ltb_ge; cbn [length]; lia).
  reflexivity.
Qed.

Lemma get_world_bank_data_sound indicator_code country_codes w out :
  fst (get_world_bank_data indicator_code country_codes w) = Ok out ->
  Forall (wb_sound indicator_code) out.
Proof.
  rewrite get_world_bank_data_eq.
  destruct (getitem WB_INDICATORS indicator_code); [| discriminate].
  cbv zeta.
  destruct (fetched _ w) as [| | | | | l |];
    try (intros H; injection H as <-; constructor).
  destruct l as [| meta [| data rest]];
    try (intros H; injection H as <-; constructor).
  apply collecting_invariant.
  apply preserves_bind_lift. intros records _.
  apply preserves_for_each. intros record _. apply wb_record_sound.
Qed.

Lemma py_float_raises v e :
  py_float v = Raise e ->
  e = ValueError \/ e = TypeError \/ e = OverflowError.
Proof.
  destruct v as [| b | z | f | s | l | d]; simpl; try discriminate;
    try (intros H; injection H as <-; auto).
  - destruct (float_overflows (z # 1)); [| discriminate].
    intros H; injection H as <-; auto.
  - destruct (parse_float s); [discriminate |].
    intros H; injection H as <-; auto.
Qed.

Lemma imf_point_run indicator_code country_code country indicator k v dp :
  assoc country_code COUNTRIES = Some country ->
  assoc indicator_code IMF_INDICATORS = Some indicator ->
  no_overflow v = true ->
  try_except [ValueError; TypeError]
    (imf_point indicator_code country_code k v) (ret tt) dp
  = (Ok tt, dp ++ point_records indicator_code country_code country
                    indicator (k, v))%list.
Proof.
  intros Hc Hi Hv.
  unfold try_except, imf_point, point_records, bind, lift, getitem, in_bounds.
  cbn [fst snd py_int]. rewrite Hc, Hi.
  destruct (parse_int k) as [year |]; cbn [existsb exn_eqb orb];
    [| rewrite app_nil_r; reflexivity].
  destruct ((START_YEAR <=? year) && (year <=? END_YEAR) && negb (is_None v));
    [| rewrite app_nil_r; reflexivity].
  destruct (ne_str v ""); [| reflexivity].
  unfold no_overflow in Hv.
  destruct (py_float v) as [f | e] eqn:Hf; cbn [res_bind]; [reflexivity |].
  destruct (py_float_raises v e Hf) as [-> | [-> | ->]];
    try discriminate Hv; rewrite app_nil_r; reflexivity.
Qed.

Lemma imf_items_run indicator_code country_code country indicator items :
  assoc country_code COUNTRIES = Some country ->
  assoc indicator_code IMF_INDICATORS = Some indicator ->
  forallb (fun kv => no_overflow (snd kv)) items = true ->
  forall dp,
    for_each items (fun item =>
      try_except [ValueError; TypeError]
        (imf_point indicator_code country_code (fst item) (snd item))
        (ret tt)) dp
    = (Ok tt,
       dp ++ flat_map (point_records indicator_code country_code country
                         indicator) items)%list.
Proof.
  intros Hc Hi. induction items as [| [k v] rest IH]; intros Hsafe dp.
  - simpl. rewrite app_nil_r. reflexivity.
  - cbn [forallb snd] in Hsafe. apply andb_prop in Hsafe as [Hv Hrest].
    cbn [for_each flat_map fst snd]. unfold bind at 1.
    rewrite (imf_point_run _ _ country indicator k v dp Hc Hi Hv).
    rewrite (IH Hrest). rewrite <- app_assoc. reflexivity.
Qed.

Lemma imf_country_run indicator_code indicator indicator_data country_code dp :
  assoc indicator_code IMF_INDICATORS = Some indicator ->
  well_formed_country indicator_data country_code = true ->
  imf_country indicator_code (PDict indicator_data) country_code dp
  = (Ok tt, dp ++ country_records indicator_code indicator indicator_data
                    country_code)%list.
Proof.
  intros Hi Hwf.
  unfold well_formed_country, known_country, has_key in Hwf.
  unfold imf_country, country_records, bind at 1, lift at 1.
  cbn [py_contains]. unfold has_key.
  destruct (assoc country_code indicator_data) as [country_data |] eqn:Hcd;
    [| simpl; rewrite app_nil_r; reflexivity].
  unfold bind at 1, lift at 1. cbn [py_getitem]. unfold getitem. rewrite Hcd.
  destruct country_data as [| | | | | | items]; try discriminate Hwf.
  apply andb_prop in Hwf as [Hwf _]. apply andb_prop in Hwf as [Hknown Hsafe].
  destruct (assoc country_code COUNTRIES) as [country |] eqn:Hc;
    [| discriminate Hknown].
  unfold bind, lift. cbn [py_items].
  apply imf_items_run; assumption.
Qed.

Lemma imf_countries_run indicator_code indicator indicator_data country_codes :
  assoc indicator_code IMF_INDICATORS = Some indicator ->
  forallb (well_formed_country indicator_data) country_codes = true ->
  forall dp,
    for_each country_codes
      (imf_country indicator_code (PDict indicator_data)) dp
    = (Ok tt,
       dp ++ flat_map (country_records indicator_code indicator
                         indicator_data) country_codes)%list.
Proof.
  intros Hi. induction country_codes as [| c rest IH]; intros Hwf dp.
  - simpl. rewrite app_nil_r. reflexivity.
  - cbn [forallb] in Hwf. apply andb_prop in Hwf as [Hc Hrest].
    cbn [for_each flat_map]. unfold bind at 1.
    rewrite (imf_country_run _ indicator _ _ dp Hi Hc).
    rewrite (IH Hrest). rewrite <- app_assoc. reflexivity.
Qed.

(** On a well-formed response the adapter is a list comprehension. *)
Lemma get_imf_data_run indicator_code indicator country_codes w
  d values indicator_data :
  assoc indicator_code IMF_INDICATORS = Some indicator ->
  fetched (imf_request indicator_code country_codes) w = PDict d ->
  assoc "values" d = Some (PDict values) ->
  assoc indicator_code values = Some (PDict indicator_data) ->
  forallb (well_formed_country indicator_data) country_codes = true ->
  fst (get_imf_data indicator_code country_codes w)
  = Ok (flat_map (country_records indicator_code indicator indicator_data)
          country_codes).
Proof.
  intros Hi Hresp Hvalues Hdata Hwf.
  rewrite get_imf_data_eq. unfold getitem. rewrite Hi. cbv zeta.
  rewrite Hresp.
  assert (Htruthy : truthy (PDict d) = true).
  { destruct d; [discriminate Hvalues | reflexivity]. }
  rewrite Htruthy. cbn [negb].
  unfold collecting, imf_parse, try_except.
  unfold bind at 1, lift at 1. cbn [py_contains]. unfold has_key.
  rewrite Hvalues.
  unfold bind at 1, lift at 1. cbn [py_getitem res_bind]. unfold getitem at 1.
  rewrite Hvalues. cbn [res_bind py_contains]. unfold has_key. rewrite Hdata.
  unfold bind at 1, lift at 1. unfold getitem at 1. rewrite Hvalues.
  unfold bind at 1, lift at 1. cbn [py_getitem]. unfold getitem at 1.
  rewrite Hdata.
  rewrite (imf_countries_run _ indicator _ _ Hi Hwf []).
  reflexivity.
Qed.

(* ---------------------------------------------------------------------- *)
(** *** Counting the records of a country and a year *)

Lemma filter_none {A} (f : A -> bool) (l : list A) :
  (forall x, In x l -> f x = false) -> filter f l = [].
Proof.
  induction l as [| a l IH]; intros H; [reflexivity |].
  simpl. rewrite (H a (or_introl eq_refl)). apply IH.
  intros x Hx. apply H. right. exact Hx.
Qed.

Lemma distinct_cons x rest :
  distinct (x :: rest) = true -> ~ In x rest /\ distinct rest = true.
Proof.
  simpl. intros H. apply andb_prop in H as [Hx Hrest]. split; [| exact Hrest].
  intros Hin. apply negb_true_iff in Hx.
  assert (existsb (Z.eqb x) rest = true) as Hex.
  { apply existsb_exists. exists x. split; [exact Hin | apply Z.eqb_refl]. }
  congruence.
Qed.

Lemma years_of_In k v y items :
  In (k, v) items -> parse_int k = Some y -> In y (years_of items).
Proof.
  intros Hin Hk. unfold years_of. apply in_flat_map.
  exists (k, v). split; [exact Hin |]. simpl. rewrite Hk. left. reflexivity.
Qed.

Lemma point_records_In indicator_code c country indicator e r :
  In r (point_records indicator_code c country indicator e) ->
  Country_Code r = c /\ parse_int (fst e) = Some (Year r).
Proof.
  unfold point_records.
  destruct (parse_int (fst e)) as [year |]; [| intros []].
  destruct (in_bounds year && negb (is_None (snd e))); [| intros []].
  destruct (ne_str (snd e) "").
  - destruct (py_float (snd e)); [| intros []].
    intros [<- | []]. split; reflexivity.
  - intros [<- | []]. split; reflexivity.
Qed.

Lemma point_records_other_year indicator_code c country indicator items y :
  ~ In y (years_of items) ->
  filter (of_country_year c y)
    (flat_map (point_records indicator_code c country indicator) items) = [].
Proof.
  intros Hy. apply filter_none. intros r Hr.
  apply in_flat_map in Hr as ([k v] & Hin & Hr).
  apply point_records_In in Hr as [_ Hk]. simpl in Hk.
  unfold of_country_year. apply andb_false_iff. right.
  apply Z.eqb_neq. intros Heq. apply Hy. rewrite <- Heq.
  apply (years_of_In k v); assumption.
Qed.

Lemma point_records_converted indicator_code c country indicator k v y f :
  parse_int k = Some y -> in_bounds y = true -> py_float v = Ok f ->
  point_records indicator_code c country indicator (k, v)
  = [imf_record indicator_code c country indicator y (Some f)].
Proof.
  intros Hk Hb Hf. unfold point_records. cbn [fst snd]. rewrite Hk, Hb.
  destruct v as [| b | z | g | s | l | d]; try discriminate Hf;
    cbn [is_None negb andb ne_str]; try (rewrite Hf; reflexivity).
  destruct (String.eqb_spec s ""); [subst; discriminate Hf |].
  cbn [negb]. rewrite Hf. reflexivity.
Qed.

(** Among the entries of a country whose keys read as distinct years, the
    records of a year are those of the one entry that reads as it. *)
Lemma records_of_year indicator_code c country indicator k v y items :
  distinct (years_of items) = true ->
  In (k, v) items ->
  parse_int k = Some y ->
  filter (of_country_year c y)
    (flat_map (point_records indicator_code c country indicator) items)
  = filter (of_country_year c y)
      (point_records indicator_code c country indicator (k, v)).
Proof.
  intros Hd Hin Hk.
  induction items as [| [k0 v0] rest IH]; [destruct Hin |].
  cbn [flat_map]. rewrite filter_app.
  unfold years_of in Hd. cbn [flat_map fst] in Hd.
  destruct Hin as [Heq | Hin].
  - injection Heq as -> ->. rewrite Hk in Hd.
    apply distinct_cons in Hd as [Hy _].
    rewrite point_records_other_year by exact Hy. apply app_nil_r.
  - assert (Hy : In y (years_of rest)) by (apply (years_of_In k v); assumption).
    replace (filter (of_country_year c y)
               (point_records indicator_code c country indicator (k0, v0)))
      with (@nil ObservationRecord).
    + apply IH; [| exact Hin].
      destruct (parse_int k0); [| exact Hd].
      apply distinct_cons in Hd as [_ Hd]. exact Hd.
    + symmetry. apply filter_none. intros r Hr.
      apply point_records_In in Hr as [_ Hk0]. cbn [fst] in Hk0.
      rewrite Hk0 in Hd. apply distinct_cons in Hd as [Hnot _].
      unfold of_country_year. apply andb_false_iff. right.
      apply Z.eqb_neq. intros Heq. apply Hnot. rewrite Heq. exact Hy.
Qed.


Lemma country_records_code indicator_code indicator indicator_data c r :
  In r (country_records indicator_code indicator indicator_data c) ->
  Country_Code r = c.
Proof.
  unfold country_records.
  destruct (assoc c indicator_data) as [[| | | | | | items] |]; try (intros []).
  destruct (assoc c COUNTRIES) as [country |]; [| intros []].
  intros Hr. apply in_flat_map in Hr as (e & _ & Hr).
  apply point_records_In in Hr as [Hc _]. exact Hc.
Qed.

Lemma other_country_filtered indicator_code indicator indicator_data c c' y :
  c' <> c ->
  filter (of_country_year c y)
    (country_records indicator_code indicator indicator_data c') = [].
Proof.
  intros Hne. apply filter_none. intros r Hr.
  apply country_records_code in Hr.
  unfold of_country_year. apply andb_false_iff. left.
  apply String.eqb_neq. congruence.
Qed.

Lemma listed_once indicator_code indicator indicator_data c y country_codes :
  forall n, count_occ string_dec country_codes c = n ->
  filter (of_country_year c y)
    (flat_map (country_records indicator_code indicator indicator_data)
       country_codes)
  = concat (repeat (filter (of_country_year c y)
                      (country_records indicator_code indicator
                         indicator_data c)) n).
Proof.
  induction country_codes as [| c' rest IH]; intros n Hn; cbn [flat_map].
  - simpl in Hn. subst n. reflexivity.
  - rewrite filter_app. cbn [count_occ] in Hn.
    destruct (string_dec c' c) as [-> | Hne].
    + destruct n as [| n]; [discriminate Hn |]. injection Hn as Hn.
      cbn [repeat concat]. rewrite (IH n Hn). reflexivity.
    + rewrite other_country_filtered by exact Hne. apply IH. exact Hn.
Qed.

(** The records of a requested country and a year, on a well-formed
    response: those of the entry that reads as the year, once per
    occurrence of the country in the request. *)
Lemma get_imf_data_of_year indicator_code indicator country_codes w c k v y :
  assoc indicator_code IMF_INDICATORS = Some indicator ->
  well_formed indicator_code country_codes
    (fetched (imf_request indicator_code country_codes) w) = true ->
  In (k, v) (entries (fetched (imf_request indicator_code country_codes) w)
               indicator_code c) ->
  parse_int k = Some y ->
  exists out,
    fst (get_imf_data indicator_code country_codes w) = Ok out /\
    filter (of_country_year c y) out
    = concat (repeat (filter (of_country_year c y)
                        match assoc c COUNTRIES with
                        | Some country =>
                            point_records indicator_code c country indicator
                              (k, v)
                        | None => []
                        end)
                (count_occ string_dec country_codes c)).
Proof.
  intros Hi Hwf Hin Hk.
  unfold well_formed in Hwf. unfold entries in Hin.
  destruct (fetched _ w) as [| | | | | | d] eqn:Hresp; try discriminate Hwf.
  destruct (assoc "values" d) as [[| | | | | | values] |] eqn:Hvalues;
    try discriminate Hwf.
  destruct (assoc indicator_code values) as [[| | | | | | indicator_data] |]
    eqn:Hdata; try discriminate Hwf.
  destruct (assoc c indicator_data) as [[| | | | | | items] |] eqn:Hitems;
    try destruct Hin.
  eexists. split.
  - apply (get_imf_data_run _ indicator _ _ d values indicator_data);
      assumption.
  - rewrite (listed_once _ _ _ c y country_codes _ eq_refl).
    destruct (count_occ string_dec country_codes c) as [| n] eqn:Hn;
      [reflexivity |].
    assert (Hlisted : In c country_codes).
    { apply (count_occ_In string_dec). rewrite Hn. lia. }
    assert (Hwfc : well_formed_country indicator_data c = true).
    { rewrite forallb_forall in Hwf. apply Hwf. exact Hlisted. }
    unfold well_formed_country in Hwfc. rewrite Hitems in Hwfc.
    apply andb_prop in Hwfc as [_ Hd].
    unfold country_records. rewrite Hitems.
    destruct (assoc c COUNTRIES) as [country |]; [| reflexivity].
    rewrite (records_of_year _ _ _ _ k v y items Hd Hin Hk). reflexivity.
Qed.

Lemma lur_records country_codes w :
  fetched (imf_request "LUR" country_codes) w = lur_response ->
  fst (get_imf_data "LUR" country_codes w)
  = Ok (repeat lur_2019 (count_occ string_dec country_codes "BRA")).
Proof.
  intros Hresp.
  assert (Hrec : forall c,
    country_records "LUR"
      {| indicator_name := "Unemployment Rate";
         description := "Unemployment rate, percent" |}
      [("BRA", PDict [("2019", PFloat (to_float (decimal 119 (-1))));
                      ("2025", PFloat (to_float (decimal 80 (-1))))])] c
    = if string_dec c "BRA" then [lur_2019] else []).
  { intros c. destruct (string_dec c "BRA") as [-> | Hne]; [reflexivity |].
    unfold country_records. cbn [assoc].
    apply String.eqb_neq in Hne. rewrite Hne. reflexivity. }
  erewrite get_imf_data_run;
    [ | reflexivity | exact Hresp | reflexivity | reflexivity | ].
  - f_equal. clear Hresp.
    induction country_codes as [| c rest IH]; [reflexivity |].
    cbn [flat_map count_occ]. rewrite Hrec.
    destruct (string_dec c "BRA"); cbn [repeat app];
      [f_equal; exact IH | exact IH].
  - apply forallb_forall. intros c _. unfold well_formed_country.
    cbn [assoc]. destruct (String.eqb_spec c "BRA") as [-> | Hne];
      reflexivity.
Qed.

(* ====================================================================== *)
(** ** The claims about the adapters *)

(** C1, as amended. The fund adapter called for the indicator LUR on the
    response [{"values":{"LUR":{"BRA":{"2019": 11.9, "2025": 8.0}}}}], with
    a country list that holds BRA exactly once and the bounds 2018-2024,
    produces exactly one record, of year 2019 and value 11.9; the entry of
    2025 produces none. More generally, when the requested indicator is in
    [IMF_INDICATORS] and the response is well-formed for the request (the
    shape [values[indicator][country][year]], every listed country that is
    present a key of [COUNTRIES], its year keys reading as distinct years,
    no value overflowing [float()]), every entry of a country listed exactly
    once whose year lies in [START_YEAR, END_YEAR] and whose value converts
    to a float yields exactly one record of that country and year, holding
    the converted value. And no record the adapter returns, on any response
    and any country list, has a year outside the bounds. *)
Theorem fund_adapter_one_record_per_entry :
  (forall country_codes w,
     fetched (imf_request "LUR" country_codes) w = lur_response ->
     count_occ string_dec country_codes "BRA" = 1%nat ->
     fst (get_imf_data "LUR" country_codes w) = Ok [lur_2019]) /\
  (forall indicator_code indicator country_codes w c country k v y f,
     assoc indicator_code IMF_INDICATORS = Some indicator ->
     assoc c COUNTRIES = Some country ->
     well_formed indicator_code country_codes
       (fetched (imf_request indicator_code country_codes) w) = true ->
     count_occ string_dec country_codes c = 1%nat ->
     In (k, v) (entries (fetched (imf_request indicator_code country_codes) w)
                  indicator_code c) ->
     parse_int k = Some y ->
     START_YEAR <= y <= END_YEAR ->
     py_float v = Ok f ->
     exists out,
       fst (get_imf_data indicator_code country_codes w) = Ok out /\
       filter (of_country_year c y) out
       = [imf_record indicator_code c country indicator y (Some f)]) /\
  (forall indicator_code country_codes w out,
     fst (get_imf_data indicator_code country_codes w) = Ok out ->
     Forall (fun r => START_YEAR <= Year r <= END_YEAR) out).
Proof.
  split; [| split].
  - intros country_codes w Hresp Hcount.
    rewrite (lur_records country_codes w Hresp), Hcount. reflexivity.
  - intros indicator_code indicator country_codes w c country k v y f
      Hi Hc Hwf Hcount Hin Hk Hy Hf.
    destruct (get_imf_data_of_year _ indicator _ w c k v y Hi Hwf Hin Hk)
      as (out & Hout & Hfilter).
    exists out. split; [exact Hout |].
    rewrite Hfilter, Hcount, Hc.
    assert (Hb : in_bounds y = true).
    { unfold in_bounds. apply andb_true_intro. split; apply Z.leb_le; lia. }
    rewrite (point_records_converted _ _ _ _ k v y f Hk Hb Hf).
    cbn [repeat concat filter app]. unfold of_country_year.
    cbn [Country_Code Year imf_record].
    rewrite String.eqb_refl, Z.eqb_refl. reflexivity.
  - intros indicator_code country_codes w out Hout.
    apply get_imf_data_sound in Hout.
    eapply Forall_impl; [| exact Hout].
    intros r (country & indicator & k & v & _ & _ & _ & _ & Hb & _).
    unfold in_bounds in Hb. apply andb_prop in Hb as [Hlo Hhi].
    split; apply Z.leb_le; assumption.
Qed.

(** The three parts at work: the example with all 25 countries requested,
    an entry of 2020 beside an unreadable one, and the bounds. *)
Lemma fund_adapter_one_record_per_entry_witness :
  fst (get_imf_data "LUR" (map fst COUNTRIES) (answering lur_response))
  = Ok [lur_2019] /\
  (exists out,
     fst (get_imf_data "LUR" ["MEX"; "BRA"] (answering lur_text_response))
     = Ok out /\
     filter (of_country_year "BRA" 2020) out
     = [imf_record "LUR" "BRA"
          {| name := "Brazil"; region := "Latin America" |}
          {| indicator_name := "Unemployment Rate";
             description := "Unemployment rate, percent" |}
          2020 (Some (to_float (decimal 125 (-1))))]) /\
  Forall (fun r => START_YEAR <= Year r <= END_YEAR) [lur_2019].
Proof.
  destruct fund_adapter_one_record_per_entry as (Hone & Hall & Hbounds).
  split; [| split].
  - apply Hone; reflexivity.
  - apply (Hall "LUR" _ ["MEX"; "BRA"] (answering lur_text_response) "BRA" _
             "2020" (PFloat (to_float (decimal 125 (-1)))) 2020);
      try reflexivity.
    + right. left. reflexivity.
    + unfold START_YEAR, END_YEAR. lia.
  - apply (Hbounds "LUR" ["BRA"] (answering lur_response)). reflexivity.
Defined.

(** C1 fails as stated: a country list that holds BRA twice yields two
    records for the one entry of 2019. *)
Lemma fund_adapter_duplicate_request :
  In "BRA" ["BRA"; "BRA"] /\
  fetched (imf_request "LUR" ["BRA"; "BRA"]) (answering lur_response)
  = lur_response /\
  fst (get_imf_data "LUR" ["BRA"; "BRA"] (answering lur_response))
  = Ok [lur_2019; lur_2019].
Proof.
  split; [left; reflexivity |]. split; reflexivity.
Qed.




(** C3. Every record either adapter returns, whatever the response and
    the country list, has a country code that is a key of [COUNTRIES]. *)
Theorem adapters_emit_known_countries :
  forall indicator_code country_codes w out,
    fst (get_imf_data indicator_code country_codes w) = Ok out \/
    fst (get_world_bank_data indicator_code country_codes w) = Ok out ->
    Forall (fun r => known_country (Country_Code r) = true) out.
Proof.
  intros indicator_code country_codes w out [Hout | Hout].
  - apply get_imf_data_sound in Hout.
    eapply Forall_impl; [| exact Hout].
    intros r (country & indicator & k & v & Hc & _).
    unfold known_country, has_key. rewrite Hc. reflexivity.
  - apply get_world_bank_data_sound in Hout.
    eapply Forall_impl; [| exact Hout].
    intros r (country & indicator & f & Hc & _).
    unfold known_country, has_key. rewrite Hc. reflexivity.
Qed.

(** A request that lists an unknown code beside BRA. *)
Lemma adapters_emit_known_countries_witness :
  Forall (fun r => known_country (Country_Code r) = true) [lur_2019].
Proof.
  apply (adapters_emit_known_countries "LUR" ["BRA"; "XXX"]
           (answering lur_response)).
  left. reflexivity.
Defined.

(** C4. The development-bank adapter, called for one of its indicators
    on the response
    [[meta, [{"countryiso3code":"BRA","date":"2020","value":"5.2"}]]] with
    BRA in the country list (the bounds 2018-2024 contain 2020), returns
    exactly one record: Brazil, Latin America, 2020, the value 5.2 and the
    source World Bank. *)
Theorem development_bank_example :
  forall meta indicator_code indicator country_codes w,
    assoc indicator_code WB_INDICATORS = Some indicator ->
    In "BRA" country_codes ->
    fetched (wb_request indicator_code country_codes) w = wb_response meta ->
    fst (get_world_bank_data indicator_code country_codes w)
    = Ok [wb_2020 indicator_code indicator] /\
    START_YEAR <= 2020 <= END_YEAR.
Proof.
  intros meta indicator_code indicator country_codes w Hi _ Hresp.
  split; [| unfold START_YEAR, END_YEAR; lia].
  rewrite get_world_bank_data_eq. unfold getitem at 1. rewrite Hi.
  cbv zeta. rewrite Hresp. unfold wb_response.
  unfold collecting, bind, lift, wb_record, wb_point, try_except, getitem.
  cbn [py_iter for_each]. unfold bind, lift.
  rewrite Hi. reflexivity.
Qed.

(** The example for the indicator SP.POP.TOTL and all 25 countries. *)
Lemma development_bank_example_witness :
  fst (get_world_bank_data "SP.POP.TOTL" (map fst COUNTRIES)
         (answering (wb_response (PDict [("page", PInt 1)]))))
  = Ok [wb_2020 "SP.POP.TOTL"
          {| indicator_name := "Population";
             description := "Population, total" |}] /\
  START_YEAR <= 2020 <= END_YEAR.
Proof.
  apply (development_bank_example (PDict [("page", PInt 1)])).
  - reflexivity.
  - left. reflexivity.
  - reflexivity.
Defined.

Lemma three_failures_fetch r w :
  three_failures r w ->
  fetched r w = PNone /\ after_fetch r w = exhausted w.
Proof.
  intros (H0 & H1 & H2).
  assert (Hloop :
    make_request_loop r (Z.of_nat default_max_retries)
      (seq 0 default_max_retries) w = (PNone, exhausted w)).
  { unfold default_max_retries. cbn [seq make_request_loop].
    unfold requests_get, time_sleep. cbn [net attempts slept].
    rewrite H0. change (Z.of_nat 0 <? Z.of_nat 3 - 1) with true. cbv iota.
    rewrite H1. change (Z.of_nat 1 <? Z.of_nat 3 - 1) with true. cbv iota.
    rewrite H2. change (Z.of_nat 2 <? Z.of_nat 3 - 1) with false. cbv iota.
    reflexivity. }
  unfold fetched, after_fetch. rewrite Hloop. split; reflexivity.
Qed.

(** C8. When the three attempts of a request all fail with a transport or
    status error, [make_request] returns [None] and does not raise; the
    adapter that made the call (for one of its indicators) then returns no
    record, and the loop of [main] over the indicators goes on with the
    next indicator after its one-second pause. *)
Theorem exhausted_retries_give_no_records :
  forall r w,
    three_failures r w ->
    make_request (url r) (params r) default_max_retries w
    = (Ok PNone, exhausted w) /\
    (forall indicator_code country_codes rest all_data,
       r = imf_request indicator_code country_codes ->
       has_key indicator_code IMF_INDICATORS = true ->
       get_imf_data indicator_code country_codes w = (Ok [], exhausted w) /\
       fetch_loop get_imf_data (indicator_code :: rest) country_codes
         all_data w
       = fetch_loop get_imf_data rest country_codes all_data
           (time_sleep 1 (exhausted w))) /\
    (forall indicator_code country_codes rest all_data,
       r = wb_request indicator_code country_codes ->
       has_key indicator_code WB_INDICATORS = true ->
       get_world_bank_data indicator_code country_codes w
       = (Ok [], exhausted w) /\
       fetch_loop get_world_bank_data (indicator_code :: rest) country_codes
         all_data w
       = fetch_loop get_world_bank_data rest country_codes all_data
           (time_sleep 1 (exhausted w))).
Proof.
  intros r w Hfail.
  destruct (three_failures_fetch r w Hfail) as [Hdoc Hworld].
  split; [| split].
  - rewrite make_request_eq, Hdoc, Hworld. reflexivity.
  - intros indicator_code country_codes rest all_data -> Hknown.
    assert (Hcall :
      get_imf_data indicator_code country_codes w = (Ok [], exhausted w)).
    { rewrite get_imf_data_eq. unfold getitem. unfold has_key in Hknown.
      destruct (assoc indicator_code IMF_INDICATORS); [| discriminate].
      cbv zeta. rewrite Hdoc, Hworld. reflexivity. }
    split; [exact Hcall |].
    cbn [fetch_loop]. unfold bind at 1. rewrite Hcall.
    unfold bind at 1, modify. rewrite app_nil_r. reflexivity.
  - intros indicator_code country_codes rest all_data -> Hknown.
    assert (Hcall :
      get_world_bank_data indicator_code country_codes w
      = (Ok [], exhausted w)).
    { rewrite get_world_bank_data_eq. unfold getitem.
      unfold has_key in Hknown.
      destruct (assoc indicator_code WB_INDICATORS); [| discriminate].
      cbv zeta. rewrite Hdoc, Hworld. reflexivity. }
    split; [exact Hcall |].
    cbn [fetch_loop]. unfold bind at 1. rewrite Hcall.
    unfold bind at 1, modify. rewrite app_nil_r. reflexivity.
Qed.

(** Both adapters in the world in which every request fails. *)
Lemma exhausted_retries_give_no_records_witness :
  make_request (url (imf_request "LUR" ["BRA"]))
    (params (imf_request "LUR" ["BRA"])) default_max_retries offline
  = (Ok PNone, {| net := net offline; attempts := 3; slept := [2; 1] |}) /\
  get_imf_data "LUR" ["BRA"] offline
  = (Ok [], {| net := net offline; attempts := 3; slept := [2; 1] |}) /\
  get_world_bank_data "SP.POP.TOTL" ["BRA"] offline
  = (Ok [], {| net := net offline; attempts := 3; slept := [2; 1] |}).
Proof.
  destruct (exhausted_retries_give_no_records
              (imf_request "LUR" ["BRA"]) offline) as (Hnone & Himf & _);
    [repeat split |].
  destruct (exhausted_retries_give_no_records
              (wb_request "SP.POP.TOTL" ["BRA"]) offline) as (_ & _ & Hwb);
    [repeat split |].
  split; [exact Hnone | split].
  - apply (Himf "LUR" ["BRA"] [] []); reflexivity.
  - apply (Hwb "SP.POP.TOTL" ["BRA"] [] []); reflexivity.
Defined.

(** C9. For every call of the development-bank adapter (for one of its
    indicators) whose response is absent, not a list, or a list of fewer
    than two elements, the adapter returns zero records and does not
    raise. *)
Theorem development_bank_unusable_response :
  forall indicator_code country_codes w,
    has_key indicator_code WB_INDICATORS = true ->
    unusable (fetched (wb_request indicator_code country_codes) w) ->
    fst (get_world_bank_data indicator_code country_codes w) = Ok [].
Proof.
  intros indicator_code country_codes w Hknown Hbad.
  rewrite get_world_bank_data_eq. unfold getitem. unfold has_key in Hknown.
  destruct (assoc indicator_code WB_INDICATORS); [| discriminate].
  cbv zeta.
  destruct (fetched _ w) as [| | | | | l |]; try reflexivity.
  destruct l as [| meta [| data rest]]; try reflexivity.
  exfalso. destruct Hbad as [H | [H | (l & H & Hlen)]].
  - discriminate H.
  - apply (H _ eq_refl).
  - injection H as <-. cbn [length] in Hlen. lia.
Qed.

(** No document, a dict, and a list of one element. *)
Lemma development_bank_unusable_response_witness :
  fst (get_world_bank_data "SP.POP.TOTL" ["BRA"] offline) = Ok [] /\
  fst (get_world_bank_data "SP.POP.TOTL" ["BRA"]
         (answering (PDict [("message", PStr "error")]))) = Ok [] /\
  fst (get_world_bank_data "SP.POP.TOTL" ["BRA"]
         (answering (PList [PDict [("message", PStr "error")]]))) = Ok [].
Proof.
  split; [| split]; apply development_bank_unusable_response;
    try reflexivity.
  - left. reflexivity.
  - right. left. intros l. discriminate.
  - right. right. eexists. split; [reflexivity |]. cbn [length]. lia.
Defined.

(** C10. Every record the development-bank adapter returns, whatever the
    response, holds a value that is a float and not [None]: a record
    whose value field is null is skipped. *)
Theorem development_bank_values_present :
  forall indicator_code country_codes w out,
    fst (get_world_bank_data indicator_code country_codes w) = Ok out ->
    Forall (fun r => exists f, Value r = Some f) out.
Proof.
  intros indicator_code country_codes w out Hout.
  apply get_world_bank_data_sound in Hout.
  eapply Forall_impl; [| exact Hout].
  intros r (country & indicator & f & _ & _ & _ & Hv & _).
  exists f. exact Hv.
Qed.

(** A response with a null value beside an integer one. *)
Lemma development_bank_values_present_witness :
  Forall (fun r => exists f, Value r = Some f)
    [ {| Country_Code := "BRA";
         Country := "Brazil";
         Region := "Latin America";
         Year := 2021;
         Indicator_Name := "Population";
         Indicator_Code := "SP.POP.TOTL";
         Value := Some (Finite (3 # 1));
         Source := "World Bank" |} ].
Proof.
  apply (development_bank_values_present "SP.POP.TOTL" ["BRA"]
           (answering wb_null_response)).
  reflexivity.
Defined.

(* ====================================================================== *)
(** ** The order of [sort_values] *)

Lemma lex_opp c1 c2 : CompOpp (lex c1 c2) = lex (CompOpp c1) (CompOpp c2).
Proof. destruct c1; reflexivity. Qed.

Lemma na_last_antisym {A} (cmp : A -> A -> comparison) :
  (forall x y, cmp y x = CompOpp (cmp x y)) ->
  forall a b, na_last cmp b a = CompOpp (na_last cmp a b).
Proof. intros H [x |] [y |]; simpl; auto. Qed.

Lemma key_compare_antisym r1 r2 :
  key_compare r2 r1 = CompOpp (key_compare r1 r2).
Proof.
  unfold key_compare. rewrite !lex_opp.
  rewrite <- !(na_last_antisym String.compare)
    by (intros x y; apply String.compare_antisym).
  rewrite <- (na_last_antisym Z.compare)
    by (intros x y; apply Z.compare_antisym).
  reflexivity.
Qed.

Lemma key_leb_total r1 r2 : key_leb r1 r2 = false -> key_leb r2 r1 = true.
Proof.
  unfold key_leb. rewrite (key_compare_antisym r1 r2).
  destruct (key_compare r1 r2); simpl; congruence.
Qed.

Lemma insert_In r r' df : In r' (insert r df) <-> r' = r \/ In r' df.
Proof.
  induction df as [| a df IH]; simpl.
  - intuition.
  - destruct (key_leb r a); simpl; [intuition |].
    rewrite IH. intuition.
Qed.

Lemma insert_HdRel a r df :
  key_le a r -> HdRel key_le a df -> HdRel key_le a (insert r df).
Proof.
  intros Har Hhd. destruct df as [| b df]; simpl.
  - constructor. exact Har.
  - destruct (key_leb r b); constructor; [exact Har |].
    inversion Hhd; assumption.
Qed.

Lemma insert_Sorted r df :
  Sorted key_le df -> Sorted key_le (insert r df).
Proof.
  induction df as [| a df IH]; intros Hs; simpl.
  - repeat constructor.
  - inversion Hs as [| ? ? Hs' Hhd]; subst.
    destruct (key_leb r a) eqn:Hra.
    + constructor; [exact Hs | constructor; exact Hra].
    + constructor; [apply IH; exact Hs' |].
      apply insert_HdRel; [apply key_leb_total; exact Hra | exact Hhd].
Qed.

Lemma sort_values_Sorted df : Sorted key_le (sort_values df).
Proof.
  induction df as [| r df IH]; simpl; [constructor |].
  apply insert_Sorted. exact IH.
Qed.

Lemma insert_Permutation r df : Permutation (insert r df) (r :: df).
Proof.
  induction df as [| a df IH]; simpl; [reflexivity |].
  destruct (key_leb r a); [reflexivity |].
  rewrite IH. apply perm_swap.
Qed.

Lemma sort_values_Permutation df : Permutation (sort_values df) df.
Proof.
  induction df as [| r df IH]; simpl; [reflexivity |].
  rewrite insert_Permutation. constructor. exact IH.
Qed.

(** Sorting leaves a sorted frame as it is. *)
Lemma sort_values_sorted df :
  Sorted key_le df -> sort_values df = df.
Proof.
  induction df as [| r df IH]; intros Hs; [reflexivity |].
  inversion Hs as [| ? ? Hs' Hhd]; subst.
  simpl. rewrite (IH Hs').
  destruct Hhd as [| b df' Hrb]; simpl; [reflexivity |].
  unfold key_le in Hrb. rewrite Hrb. reflexivity.
Qed.

(** In a sorted frame each row is below the one that follows it. *)
Lemma Sorted_consecutive df :
  Sorted key_le df ->
  forall l1 r1 r2 l2, df = (l1 ++ r1 :: r2 :: l2)%list -> key_le r1 r2.
Proof.
  intros Hs l1. revert df Hs.
  induction l1 as [| a l1 IH]; intros df Hs r1 r2 l2 ->.
  - inversion Hs as [| ? ? _ Hhd]; subst. inversion Hhd; assumption.
  - inversion Hs as [| ? ? Hs' _]; subst. apply (IH _ Hs' r1 r2 l2 eq_refl).
Qed.

Lemma key_le_tuple_le r1 r2 c1 i1 c2 i2 :
  FrameRow.Country r1 = Some c1 -> FrameRow.Indicator_Name r1 = Some i1 ->
  FrameRow.Country r2 = Some c2 -> FrameRow.Indicator_Name r2 = Some i2 ->
  key_le r1 r2 -> tuple_le r1 r2.
Proof.
  intros Hc1 Hi1 Hc2 Hi2 Hle.
  exists c1, i1, c2, i2. repeat (split; [assumption |]).
  unfold key_le, key_leb, key_compare in Hle.
  rewrite Hc1, Hc2, Hi1, Hi2 in Hle. cbn [na_last] in Hle.
  unfold text_lt.
  destruct (String.compare c1 c2) eqn:Hc; cbn [lex] in Hle;
    [| left; reflexivity | discriminate Hle].
  apply String.compare_eq_iff in Hc. right. split; [exact Hc |].
  destruct (int64 (FrameRow.Year r1)) as [y1 |], (int64 (FrameRow.Year r2)) as [y2 |];
    cbn [na_last] in Hle; cbn [year_lt].
  - destruct (Z.compare y1 y2) eqn:Hy; cbn [lex] in Hle.
    + apply Z.compare_eq in Hy. subst y2. right. split; [reflexivity |].
      destruct (String.compare i1 i2) eqn:Hi;
        [right; apply String.compare_eq_iff; exact Hi
        | left; reflexivity | discriminate Hle].
    + left. apply Z.compare_lt_iff. exact Hy.
    + discriminate Hle.
  - left. exact I.
  - discriminate Hle.
  - right. split; [reflexivity |]. cbn [lex] in Hle.
    destruct (String.compare i1 i2) eqn:Hi;
      [right; apply String.compare_eq_iff; exact Hi
      | left; reflexivity | discriminate Hle].
Qed.

Section CleanerFacts.

Variable numeric_text : string -> option number.

Lemma coerce_Year_Ok df df' :
  coerce_Year numeric_text df = Ok df' ->
  Forall2 (fun r r' => exists y, year_cast numeric_text r = Ok y /\ r' = FrameRow.set_Year y r)
    df df'.
Proof.
  revert df'. induction df as [| r df IH]; intros df' H; simpl in H.
  - injection H as <-. constructor.
  - unfold year_cast.
    destruct (astype_Int64 (to_numeric numeric_text (FrameRow.Year r)))
      as [y | e] eqn:Hy; simpl in H; [| discriminate].
    destruct (coerce_Year numeric_text df) as [rest |]; simpl in H;
      [| discriminate].
    injection H as <-. constructor.
    + exists y. split; [exact Hy | reflexivity].
    + apply IH. reflexivity.
Qed.

Lemma coerce_Year_returns df :
  forallb (fun r => match year_cast numeric_text r with Ok _ => true | Raise _ => false end)
    df = true ->
  exists df', coerce_Year numeric_text df = Ok df'.
Proof.
  induction df as [| r df IH]; intros H; simpl.
  - exists []. reflexivity.
  - simpl in H. apply andb_prop in H as [Hr Hdf].
    unfold year_cast in Hr.
    destruct (astype_Int64 (to_numeric numeric_text (FrameRow.Year r)));
      [| discriminate].
    destruct (IH Hdf) as [rest ->]. simpl. eexists. reflexivity.
Qed.

Lemma coerce_Value_Forall2 df :
  Forall2 (fun r r' =>
             r' = FrameRow.set_Value (to_numeric numeric_text (FrameRow.Value r)) r)
    df (coerce_Value numeric_text df).
Proof. induction df; simpl; constructor; auto. Qed.

(** What [clean_data] returns: the cleaned forms of the rows [dropna]
    keeps, in sorted order. *)
Lemma clean_data_Ok df out :
  clean_data numeric_text df = Ok out ->
  exists l, Forall2 (cleaned numeric_text) (dropna df) l /\
            Permutation out l /\ Sorted key_le out.
Proof.
  unfold clean_data.
  destruct (coerce_Year numeric_text (dropna df)) as [df1 |] eqn:H1;
    simpl; [| discriminate].
  intros H. injection H as <-.
  exists (coerce_Value numeric_text df1). split; [| split].
  - apply coerce_Year_Ok in H1. revert H1.
    generalize (dropna df) as kept. intros kept H1.
    induction H1 as [| r r1 kept kept1 (y & Hy & ->) _ IH]; simpl;
      constructor; [| exact IH].
    exists y. split; [exact Hy | reflexivity].
  - apply sort_values_Permutation.
  - apply sort_values_Sorted.
Qed.

Lemma clean_data_returns df :
  years_castable numeric_text df = true -> exists out, clean_data numeric_text df = Ok out.
Proof.
  intros H. unfold clean_data.
  destruct (coerce_Year_returns _ H) as [df1 ->]. simpl.
  eexists. reflexivity.
Qed.


Lemma Forall2_In_r {A B} (R : A -> B -> Prop) l l' y :
  Forall2 R l l' -> In y l' -> exists x, In x l /\ R x y.
Proof.
  induction 1 as [| a b l l' Hab _ IH]; intros Hin; [destruct Hin |].
  destruct Hin as [<- | Hin].
  - exists a. split; [left; reflexivity | exact Hab].
  - destruct (IH Hin) as (x & Hx & Hxy). exists x. split; [right |]; auto.
Qed.

(** Every row of the output is the cleaned form of a complete row of
    the input. *)
Lemma clean_data_origin df out r' :
  clean_data numeric_text df = Ok out -> In r' out ->
  exists r, In r df /\ complete r = true /\ cleaned numeric_text r r'.
Proof.
  intros Hclean Hin.
  destruct (clean_data_Ok _ _ Hclean) as (l & Hl & Hperm & _).
  apply (Permutation_in _ Hperm) in Hin.
  destruct (Forall2_In_r _ _ _ _ Hl Hin) as (r & Hr & Hrr').
  apply filter_In in Hr as [Hr Hc]. exists r. auto.
Qed.

Lemma cleaned_keys r r' :
  cleaned numeric_text r r' ->
  FrameRow.Country r' = FrameRow.Country r /\
  FrameRow.Indicator_Name r' = FrameRow.Indicator_Name r.
Proof. intros (y & _ & ->). split; reflexivity. Qed.

Lemma complete_keys r :
  complete r = true ->
  exists c i, FrameRow.Country r = Some c /\ FrameRow.Indicator_Name r = Some i.
Proof.
  unfold complete. intros H.
  apply andb_prop in H as [H Hi]. apply andb_prop in H as [Hc _].
  destruct (FrameRow.Country r) as [c |]; [| discriminate Hc].
  destruct (FrameRow.Indicator_Name r) as [i |]; [| discriminate Hi].
  exists c, i. split; reflexivity.
Qed.

(** C6. For every input frame, [clean_data] returns unless the cast of
    a year raises, and the rows it returns are non-decreasing in the
    tuple (country, year, indicator name): each row is lexicographically
    below or equal to the row after it (a year that is missing after
    the coercion counts as greater than every year). *)
Theorem clean_data_sorted :
  forall df,
    (years_castable numeric_text df = true ->
     exists out, clean_data numeric_text df = Ok out) /\
    (forall out l1 r1 r2 l2,
       clean_data numeric_text df = Ok out ->
       out = (l1 ++ r1 :: r2 :: l2)%list ->
       tuple_le r1 r2).
Proof.
  intros df. split; [apply clean_data_returns |].
  intros out l1 r1 r2 l2 Hclean Hout.
  destruct (clean_data_Ok _ _ Hclean) as (l & _ & _ & Hsorted).
  assert (Hle : key_le r1 r2)
    by (apply (Sorted_consecutive _ Hsorted l1 r1 r2 l2 Hout)).
  assert (Hin1 : In r1 out) by (subst out; apply in_elt).
  assert (Hin2 : In r2 out)
    by (subst out; apply in_or_app; right; right; left; reflexivity).
  destruct (clean_data_origin _ _ _ Hclean Hin1) as (a1 & _ & Hc1 & Hcl1).
  destruct (clean_data_origin _ _ _ Hclean Hin2) as (a2 & _ & Hc2 & Hcl2).
  destruct (complete_keys _ Hc1) as (c1 & i1 & Hk1 & Hn1).
  destruct (complete_keys _ Hc2) as (c2 & i2 & Hk2 & Hn2).
  destruct (cleaned_keys _ _ Hcl1) as [E1 F1].
  destruct (cleaned_keys _ _ Hcl2) as [E2 F2].
  apply (key_le_tuple_le r1 r2 c1 i1 c2 i2); congruence.
Qed.


Lemma to_numeric_number c : exists n, to_numeric numeric_text c = CNum n.
Proof.
  destruct c as [| n | s]; simpl; eauto.
  destruct (numeric_text s); eauto.
Qed.

Lemma dropna_tidy df : Forall tidy df -> dropna df = df.
Proof.
  unfold dropna. induction 1 as [| r df (Hc & _) _ IH]; [reflexivity |].
  simpl. rewrite Hc, IH. reflexivity.
Qed.

Lemma coerce_Year_tidy df :
  Forall tidy df -> coerce_Year numeric_text df = Ok df.
Proof.
  induction 1 as [| r df (_ & (z & Hz) & _) _ IH]; [reflexivity |].
  simpl. rewrite Hz. cbn [to_numeric astype_Int64 res_bind]. rewrite IH.
  cbn [res_bind]. rewrite <- Hz. destruct r. reflexivity.
Qed.

Lemma coerce_Value_tidy df :
  Forall tidy df -> coerce_Value numeric_text df = df.
Proof.
  induction 1 as [| r df (_ & _ & (n & Hn)) _ IH]; [reflexivity |].
  simpl. rewrite Hn. cbn [to_numeric]. rewrite IH.
  rewrite <- Hn. destruct r. reflexivity.
Qed.

(** Cleaning a sorted frame of tidy rows changes nothing. *)
Lemma clean_data_tidy df :
  Forall tidy df -> Sorted key_le df -> clean_data numeric_text df = Ok df.
Proof.
  intros Htidy Hsorted. unfold clean_data.
  rewrite (dropna_tidy _ Htidy), (coerce_Year_tidy _ Htidy).
  cbn [res_bind].
  rewrite (coerce_Value_tidy _ Htidy), (sort_values_sorted _ Hsorted).
  reflexivity.
Qed.

(** C5, as amended. On valid input, a frame in which the year of every
    row that has country, year and indicator name converts to an
    integer, the cleaner returns and is idempotent: cleaning its output
    again returns the same rows, in the same order, with every field
    unchanged. *)
Theorem clean_data_idempotent :
  forall df,
    years_valid numeric_text df = true ->
    exists out,
      clean_data numeric_text df = Ok out /\
      clean_data numeric_text out = Ok out.
Proof.
  intros df Hvalid.
  assert (Hcast : years_castable numeric_text df = true).
  { unfold years_castable, years_valid in *.
    rewrite forallb_forall in *. intros r Hr. specialize (Hvalid r Hr).
    destruct (year_cast numeric_text r); [reflexivity | discriminate]. }
  destruct (clean_data_returns _ Hcast) as [out Hout].
  exists out. split; [exact Hout |].
  destruct (clean_data_Ok _ _ Hout) as (l & Hl & Hperm & Hsorted).
  apply clean_data_tidy; [| exact Hsorted].
  apply Forall_forall. intros r' Hr'.
  apply (Permutation_in _ Hperm) in Hr'.
  destruct (Forall2_In_r _ _ _ _ Hl Hr') as (r & Hr & y & Hy & ->).
  unfold years_valid in Hvalid. rewrite forallb_forall in Hvalid.
  specialize (Hvalid r Hr). rewrite Hy in Hvalid.
  destruct y as [| [z | f] |]; try discriminate Hvalid.
  apply filter_In in Hr as [_ Hc].
  split; [| split].
  - unfold complete in *. cbn [FrameRow.Country FrameRow.Year FrameRow.Indicator_Name
                                FrameRow.set_Value FrameRow.set_Year isna].
    apply andb_prop in Hc as [Hc Hi]. apply andb_prop in Hc as [Hc _].
    rewrite Hc, Hi. reflexivity.
  - exists z. reflexivity.
  - apply to_numeric_number.
Qed.

(** Frames built from adapter records are valid input. *)
Lemma pd_DataFrame_valid all_data :
  years_valid numeric_text (pd_DataFrame all_data) = true.
Proof.
  unfold years_valid. apply forallb_forall. intros r Hr.
  apply filter_In in Hr as [Hr _].
  apply in_map_iff in Hr as (a & <- & _). reflexivity.
Qed.

End CleanerFacts.

(** The cleaned example frame: Brazil 2019 before Mexico 2020. *)
Lemma clean_data_sorted_witness :
  (exists out, clean_data python_numeric_text raw_frame = Ok out) /\
  tuple_le
    (observation (Some "Brazil") (CNum (NInt 2019))
       (CNum (NFloat (to_float (decimal 119 (-1))))))
    (observation (Some "Mexico") (CNum (NInt 2020)) (CNum (NFloat NaN))).
Proof.
  destruct (clean_data_sorted python_numeric_text raw_frame)
    as [Hreturns Hsorted].
  split.
  - apply Hreturns. reflexivity.
  - apply (Hsorted clean_frame [] _ _ []); reflexivity.
Defined.


(** The example frame is valid input: the year "2019" reads as 2019. *)
Lemma clean_data_idempotent_witness :
  exists out,
    clean_data python_numeric_text raw_frame = Ok out /\
    clean_data python_numeric_text out = Ok out.
Proof.
  apply (clean_data_idempotent python_numeric_text raw_frame). reflexivity.
Defined.

(** C5 fails as stated: a year that is a text and no number passes
    [dropna], becomes [<NA>] in the cast, and the row is dropped when the
    output is cleaned again. *)
Lemma clean_data_not_idempotent :
  clean_data python_numeric_text unreadable_year_frame
  = Ok [ observation (Some "Brazil") CNone
           (CNum (NFloat (to_float (decimal 119 (-1))))) ] /\
  clean_data python_numeric_text
    [ observation (Some "Brazil") CNone
        (CNum (NFloat (to_float (decimal 119 (-1))))) ]
  = Ok [].
Proof. split; reflexivity. Qed.

(* ====================================================================== *)
(** * Further properties of the code *)

(** ** [make_request] *)

Lemma backoff_S k : backoff (S k) = 2 ^ Z.of_nat k :: backoff k.
Proof.
  unfold backoff. rewrite seq_S, map_app, rev_app_distr. reflexivity.
Qed.

Lemma after_attempts_0 w : after_attempts 0 0 w = w.
Proof.
  destruct w as [n a s]. unfold after_attempts. cbn [net attempts slept].
  rewrite Nat.add_0_r. reflexivity.
Qed.

(** One failed attempt and its pause, [a] attempts into the call. *)
Lemma failed_attempt r w a :
  net w r (attempts w + a) = RequestException ->
  requests_get r (after_attempts a a w)
  = (RequestException, after_attempts (S a) a w) /\
  time_sleep (2 ^ Z.of_nat a) (after_attempts (S a) a w)
  = after_attempts (S a) (S a) w.
Proof.
  intros H. unfold requests_get, time_sleep, after_attempts.
  cbn [net attempts slept]. rewrite H, backoff_S, Nat.add_succ_r.
  split; reflexivity.
Qed.

(** The loop from attempt [a] on, after [a] failures: it stops at some
    attempt [k], with only the earlier ones followed by a pause. *)
Lemma make_request_loop_stops r n w :
  forall m a,
    (a + m = n)%nat -> (1 <= m)%nat ->
    exists k v,
      (a < k <= n)%nat /\
      make_request_loop r (Z.of_nat n) (seq a m) (after_attempts a a w)
      = (v, after_attempts k (k - 1) w).
Proof.
  induction m as [| m IH]; intros a Ham Hm; [lia |].
  cbn [seq make_request_loop].
  destruct (net w r (attempts w + a)) as [| v] eqn:Hnet.
  - destruct (failed_attempt r w a Hnet) as [Hget Hsleep]. rewrite Hget.
    destruct (Z.ltb_spec (Z.of_nat a) (Z.of_nat n - 1)) as [Hlt | Hge].
    + rewrite Hsleep.
      destruct (IH (S a) ltac:(lia) ltac:(lia)) as (k & v & Hk & Hloop).
      exists k, v. split; [lia | exact Hloop].
    + exists (S a), PNone. split; [lia |].
      replace (S a - 1)%nat with a by lia. reflexivity.
  - exists (S a), v. split; [lia |].
    replace (S a - 1)%nat with a by lia.
    unfold requests_get, after_attempts. cbn [net attempts slept].
    rewrite Hnet, Nat.add_succ_r. reflexivity.
Qed.


(** The loop when the attempts from [a] up to [k] fail and attempt [k]
    is answered. *)
Lemma make_request_loop_first_answer r n w k v :
  (k < n)%nat ->
  net w r (attempts w + k) = Json v ->
  forall m a,
    (a + m = n)%nat -> (a <= k)%nat ->
    (forall j, (a <= j < k)%nat ->
               net w r (attempts w + j) = RequestException) ->
    make_request_loop r (Z.of_nat n) (seq a m) (after_attempts a a w)
    = (v, after_attempts (S k) k w).
Proof.
  intros Hk Hanswer. induction m as [| m IH]; intros a Ham Hak Hfail; [lia |].
  cbn [seq make_request_loop].
  destruct (Nat.eq_dec a k) as [-> | Hne].
  - unfold requests_get, after_attempts. cbn [net attempts slept].
    rewrite Hanswer, Nat.add_succ_r. reflexivity.
  - destruct (failed_attempt r w a (Hfail a ltac:(lia))) as [Hget Hsleep].
    rewrite Hget.
    destruct (Z.ltb_spec (Z.of_nat a) (Z.of_nat n - 1)) as [_ | Hge]; [| lia].
    rewrite Hsleep. apply IH; [lia | lia |].
    intros j Hj. apply Hfail. lia.
Qed.

(** The loop when every attempt from [a] on fails. *)
Lemma make_request_loop_all_fail r n w :
  forall m a,
    (a + m = n)%nat -> (1 <= m)%nat ->
    (forall j, (a <= j < n)%nat ->
               net w r (attempts w + j) = RequestException) ->
    make_request_loop r (Z.of_nat n) (seq a m) (after_attempts a a w)
    = (PNone, after_attempts n (n - 1) w).
Proof.
  induction m as [| m IH]; intros a Ham Hm Hfail; [lia |].
  cbn [seq make_request_loop].
  destruct (failed_attempt r w a (Hfail a ltac:(lia))) as [Hget Hsleep].
  rewrite Hget.
  destruct (Z.ltb_spec (Z.of_nat a) (Z.of_nat n - 1)) as [Hlt | Hge].
  - rewrite Hsleep. apply IH; [lia | lia |].
    intros j Hj. apply Hfail. lia.
  - replace n with (S a) by lia. replace (S a - 1)%nat with a by lia.
    reflexivity.
Qed.

(** X2. [make_request] returns the first document it is answered with:
    when the first [k] attempts fail and attempt [k], one of the
    [max_retries], is answered, the call returns that document after
    [k + 1] attempts and the [k] pauses 1, ..., [2^(k-1)]; when all
    [max_retries] attempts fail it returns [None] after [max_retries]
    attempts and [max_retries - 1] pauses. *)
Theorem make_request_first_answer :
  forall url params max_retries w,
    (forall k v,
       (k < max_retries)%nat ->
       (forall j, (j < k)%nat ->
          net w {| url := url; params := params |} (attempts w + j)
          = RequestException) ->
       net w {| url := url; params := params |} (attempts w + k) = Json v ->
       make_request url params max_retries w
       = (Ok v, after_attempts (S k) k w)) /\
    ((forall j, (j < max_retries)%nat ->
        net w {| url := url; params := params |} (attempts w + j)
        = RequestException) ->
     make_request url params max_retries w
     = (Ok PNone, after_attempts max_retries (max_retries - 1) w)).
Proof.
  intros u p n w. unfold make_request. split.
  - intros k v Hk Hfail Hanswer.
    pose proof (make_request_loop_first_answer {| url := u; params := p |}
                  n w k v Hk Hanswer n 0%nat eq_refl ltac:(lia)) as Hloop.
    rewrite after_attempts_0 in Hloop. rewrite Hloop; [reflexivity |].
    intros j Hj. apply Hfail. lia.
  - intros Hfail. destruct n as [| n].
    + cbn [seq make_request_loop]. rewrite <- (after_attempts_0 w) at 1.
      reflexivity.
    + pose proof (make_request_loop_all_fail {| url := u; params := p |}
                    (S n) w (S n) 0%nat eq_refl ltac:(lia)) as Hloop.
      rewrite after_attempts_0 in Hloop. rewrite Hloop; [reflexivity |].
      intros j Hj. apply Hfail. lia.
Qed.

(** The third attempt answered, and two attempts that both fail. *)
Lemma make_request_first_answer_witness :
  make_request "u" [] 3 answering_third
  = (Ok (PInt 7),
     {| net := net answering_third; attempts := 3; slept := [2; 1] |}) /\
  make_request "u" [] 2 offline
  = (Ok PNone, {| net := net offline; attempts := 2; slept := [1] |}).
Proof.
  split.
  - refine (proj1 (make_request_first_answer "u" [] 3 answering_third)
              2%nat (PInt 7) _ _ eq_refl).
    + lia.
    + intros [| [| j]] Hj; [reflexivity | reflexivity | lia].
  - refine (proj2 (make_request_first_answer "u" [] 2 offline) _).
    intros j _. reflexivity.
Defined.

(* ====================================================================== *)
(** ** The exceptions that leave the adapters *)

Section Raises.

Context {St : Type}.

Lemma raises_only_ret {A} E (a : A) : raises_only E (@ret St A a).
Proof. intros s e H. discriminate H. Qed.

Lemma raises_only_modify E (f : St -> St) : raises_only E (modify f).
Proof. intros s e H. discriminate H. Qed.

Lemma raises_only_lift {A} E (r : res A) :
  (forall e, r = Raise e -> In e E) -> raises_only E (@lift St A r).
Proof. intros Hr s e H. apply Hr. exact H. Qed.

Lemma raises_only_bind {A B} E (m : SE St A) (k : A -> SE St B) :
  raises_only E m -> (forall a, raises_only E (k a)) ->
  raises_only E (bind m k).
Proof.
  intros Hm Hk s e. unfold bind. specialize (Hm s).
  destruct (m s) as [[a | e'] s']; simpl in *.
  - apply Hk.
  - intros H. injection H as <-. apply Hm. reflexivity.
Qed.

Lemma raises_only_try_except {A} E E' handled (body handler : SE St A) :
  raises_only E' body ->
  (forall e, In e E' -> existsb (exn_eqb e) handled = false -> In e E) ->
  raises_only E handler ->
  raises_only E (try_except handled body handler).
Proof.
  intros Hb Hsub Hh s e. unfold try_except. specialize (Hb s).
  destruct (body s) as [[a | e'] s']; simpl in *; [discriminate |].
  destruct (existsb (exn_eqb e') handled) eqn:Hcaught.
  - apply Hh.
  - simpl. intros H. injection H as <-. apply Hsub; [| exact Hcaught].
    apply Hb. reflexivity.
Qed.

Lemma raises_only_for_each {X} E (xs : list X) (body : X -> SE St unit) :
  (forall x, raises_only E (body x)) -> raises_only E (for_each xs body).
Proof.
  intros Hbody. induction xs as [| x rest IH]; simpl.
  - apply raises_only_ret.
  - apply raises_only_bind; [apply Hbody | intros _; exact IH].
Qed.

End Raises.

Lemma py_int_raises v e :
  py_int v = Raise e -> In e [ValueError; TypeError; OverflowError].
Proof.
  destruct v as [| b | z | [q | n |] | s | l | d]; simpl; try discriminate;
    try (intros H; injection H as <-; simpl; tauto).
  destruct (parse_int s); [discriminate |].
  intros H; injection H as <-; simpl; tauto.
Qed.

Lemma py_float_raises_in v e :
  py_float v = Raise e -> In e [ValueError; TypeError; OverflowError].
Proof.
  intros H. destruct (py_float_raises v e H) as [-> | [-> | ->]];
    simpl; tauto.
Qed.

Lemma getitem_raises {V} (d : list (string * V)) k e :
  getitem d k = Raise e -> e = KeyError.
Proof.
  unfold getitem. destruct (assoc k d); [discriminate |].
  intros H. injection H as <-. reflexivity.
Qed.

Lemma py_contains_raises key container e :
  py_contains key container = Raise e -> e = TypeError.
Proof.
  destruct container; simpl; try discriminate;
    intros H; injection H as <-; reflexivity.
Qed.

Lemma py_getitem_raises container key e :
  py_getitem container key = Raise e -> e = KeyError \/ e = TypeError.
Proof.
  destruct container; simpl;
    try (intros H; injection H as <-; right; reflexivity).
  intros H. left. apply (getitem_raises _ _ _ H).
Qed.

Lemma py_items_raises obj e : py_items obj = Raise e -> e = AttributeError.
Proof.
  destruct obj; simpl; try discriminate;
    intros H; injection H as <-; reflexivity.
Qed.

Lemma py_get_raises obj key default e :
  py_get obj key default = Raise e -> e = AttributeError.
Proof.
  destruct obj; simpl; try discriminate;
    intros H; injection H as <-; reflexivity.
Qed.

Lemma py_iter_raises obj e : py_iter obj = Raise e -> e = TypeError.
Proof.
  destruct obj; simpl; try discriminate;
    intros H; injection H as <-; reflexivity.
Qed.

Ltac one_of := simpl; tauto.

Lemma imf_point_raises indicator_code country_code k v :
  raises_only [ValueError; TypeError; KeyError; OverflowError]
    (imf_point indicator_code country_code k v).
Proof.
  unfold imf_point.
  apply raises_only_bind.
  { apply raises_only_lift. intros e H. apply py_int_raises in H.
    simpl in *. tauto. }
  intros year.
  destruct ((START_YEAR <=? year) && (year <=? END_YEAR) && negb (is_None v));
    [| apply raises_only_ret].
  apply raises_only_bind.
  { apply raises_only_lift. intros e H. apply getitem_raises in H. subst.
    one_of. }
  intros country. apply raises_only_bind.
  { apply raises_only_lift. intros e H. apply getitem_raises in H. subst.
    one_of. }
  intros indicator. apply raises_only_bind; [| intros; apply raises_only_modify].
  apply raises_only_lift. intros e H.
  destruct (ne_str v ""); [| discriminate H].
  destruct (py_float v) as [f | e'] eqn:Hf; [discriminate H |].
  simpl in H. injection H as <-. apply py_float_raises_in in Hf.
  simpl in *. tauto.
Qed.

Lemma imf_country_raises indicator_code indicator_data country_code :
  raises_only [TypeError; KeyError; AttributeError; OverflowError]
    (imf_country indicator_code indicator_data country_code).
Proof.
  unfold imf_country.
  apply raises_only_bind.
  { apply raises_only_lift. intros e H. apply py_contains_raises in H.
    subst. one_of. }
  intros present. destruct present; [| apply raises_only_ret].
  apply raises_only_bind.
  { apply raises_only_lift. intros e H. apply py_getitem_raises in H.
    destruct H; subst; one_of. }
  intros country_data. apply raises_only_bind.
  { apply raises_only_lift. intros e H. apply py_items_raises in H.
    subst. one_of. }
  intros items. apply raises_only_for_each. intros item.
  eapply raises_only_try_except;
    [apply imf_point_raises | | apply raises_only_ret].
  intros e He Hcaught. simpl in He.
  destruct He as [<- | [<- | [<- | [<- | []]]]];
    try discriminate Hcaught; one_of.
Qed.

Lemma imf_parse_raises indicator_code country_codes response :
  raises_only [AttributeError; OverflowError]
    (imf_parse indicator_code country_codes response).
Proof.
  unfold imf_parse.
  eapply (raises_only_try_except _
            [TypeError; KeyError; AttributeError; OverflowError]);
    [| | apply raises_only_ret].
  - apply raises_only_bind.
    { apply raises_only_lift. intros e H. apply py_contains_raises in H.
      subst. one_of. }
    intros has_values. apply raises_only_bind.
    { apply raises_only_lift. intros e H.
      destruct has_values; [| discriminate H].
      destruct (py_getitem response "values") as [values | e'] eqn:Hv;
        simpl in H.
      - apply py_contains_raises in H. subst. one_of.
      - injection H as <-. apply py_getitem_raises in Hv.
        destruct Hv; subst; one_of. }
    intros has_indicator. destruct has_indicator; [| apply raises_only_ret].
    apply raises_only_bind.
    { apply raises_only_lift. intros e H. apply py_getitem_raises in H.
      destruct H; subst; one_of. }
    intros values. apply raises_only_bind.
    { apply raises_only_lift. intros e H. apply py_getitem_raises in H.
      destruct H; subst; one_of. }
    intros indicator_data. apply raises_only_for_each. intros c.
    apply imf_country_raises.
  - intros e He Hcaught. simpl in He.
    destruct He as [<- | [<- | [<- | [<- | []]]]];
      try discriminate Hcaught; one_of.
Qed.

Lemma collecting_raises {W} E (block : SE (list ObservationRecord) unit)
  (w : W) e :
  raises_only E block -> fst (collecting block w) = Raise e -> In e E.
Proof.
  intros Hb. unfold collecting. specialize (Hb []).
  destruct (block []) as [[u | e'] dp]; simpl in *; [discriminate |].
  intros H. injection H as <-. apply Hb. reflexivity.
Qed.

(** X3. The fund adapter, called with a code that is not in
    [IMF_INDICATORS], raises [KeyError] before it makes any request;
    called with one of its indicators it raises nothing but
    [AttributeError] and [OverflowError], whatever the response: every
    [KeyError], [TypeError] and [ValueError] of the parse is caught, and
    its failed requests never raise. *)
Theorem get_imf_data_exceptions :
  forall indicator_code country_codes w,
    (has_key indicator_code IMF_INDICATORS = false ->
     get_imf_data indicator_code country_codes w = (Raise KeyError, w)) /\
    (forall e,
       has_key indicator_code IMF_INDICATORS = true ->
       fst (get_imf_data indicator_code country_codes w) = Raise e ->
       e = AttributeError \/ e = OverflowError).
Proof.
  intros indicator_code country_codes w.
  rewrite get_imf_data_eq. unfold getitem, has_key.
  destruct (assoc indicator_code IMF_INDICATORS) as [info |].
  - split; [discriminate |]. intros e _. cbv zeta.
    destruct (negb (truthy _)); [discriminate |].
    intros H.
    apply (collecting_raises _ _ _ _ (imf_parse_raises _ _ _)) in H.
    destruct H as [<- | [<- | []]]; auto.
  - split; [reflexivity | discriminate].
Qed.

(** An unknown code, and a country bound to null. *)
Lemma get_imf_data_exceptions_witness :
  get_imf_data "XYZ" ["BRA"] offline = (Raise KeyError, offline) /\
  fst (get_imf_data "LUR" ["BRA"] (answering lur_null_country))
  = Raise AttributeError /\
  (AttributeError = AttributeError \/ AttributeError = OverflowError).
Proof.
  split; [| split].
  - apply (proj1 (get_imf_data_exceptions "XYZ" ["BRA"] offline)).
    reflexivity.
  - reflexivity.
  - apply (proj2 (get_imf_data_exceptions "LUR" ["BRA"]
                    (answering lur_null_country)) AttributeError);
      reflexivity.
Defined.

Lemma wb_point_raises indicator_code country_code year value :
  raises_only [ValueError; TypeError; KeyError; OverflowError]
    (wb_point indicator_code country_code year value).
Proof.
  unfold wb_point.
  apply raises_only_bind.
  { apply raises_only_lift. intros e H. apply py_int_raises in H.
    simpl in *. tauto. }
  intros year_int.
  destruct ((START_YEAR <=? year_int) && (year_int <=? END_YEAR));
    [| apply raises_only_ret].
  apply raises_only_bind.
  { apply raises_only_lift. intros e H. apply getitem_raises in H. subst.
    one_of. }
  intros country. apply raises_only_bind.
  { apply raises_only_lift. intros e H. apply getitem_raises in H. subst.
    one_of. }
  intros indicator. apply raises_only_bind; [| intros; apply raises_only_modify].
  apply raises_only_lift. intros e H. apply py_float_raises_in in H.
  simpl in *. tauto.
Qed.

Lemma wb_record_raises indicator_code record :
  raises_only [AttributeError; OverflowError]
    (wb_record indicator_code record).
Proof.
  unfold wb_record.
  eapply (raises_only_try_except _
            [TypeError; KeyError; AttributeError; OverflowError]);
    [| | apply raises_only_ret].
  - apply raises_only_bind.
    { apply raises_only_lift. intros e H. apply py_get_raises in H.
      subst. one_of. }
    intros country_code.
    destruct country_code; try apply raises_only_ret;
      try (apply raises_only_lift; intros e H; injection H as <-; one_of).
    destruct (has_key s COUNTRIES); [| apply raises_only_ret].
    apply raises_only_bind.
    { apply raises_only_lift. intros e H. apply py_get_raises in H.
      subst. one_of. }
    intros year. apply raises_only_bind.
    { apply raises_only_lift. intros e H. apply py_get_raises in H.
      subst. one_of. }
    intros value.
    destruct (truthy year && negb (is_None value)); [| apply raises_only_ret].
    eapply raises_only_try_except;
      [apply wb_point_raises | | apply raises_only_ret].
    intros e He Hcaught. simpl in He.
    destruct He as [<- | [<- | [<- | [<- | []]]]];
      try discriminate Hcaught; one_of.
  - intros e He Hcaught. simpl in He.
    destruct He as [<- | [<- | [<- | [<- | []]]]];
      try discriminate Hcaught; one_of.
Qed.

(** X4. The development-bank adapter, called with a code that is not in
    [WB_INDICATORS], raises [KeyError] before it makes any request; called
    with one of its indicators it raises nothing but [TypeError] (the
    second element of the response cannot be iterated), [AttributeError]
    (a record is no dict) and [OverflowError], whatever the response. *)
Theorem get_world_bank_data_exceptions :
  forall indicator_code country_codes w,
    (has_key indicator_code WB_INDICATORS = false ->
     get_world_bank_data indicator_code country_codes w
     = (Raise KeyError, w)) /\
    (forall e,
       has_key indicator_code WB_INDICATORS = true ->
       fst (get_world_bank_data indicator_code country_codes w) = Raise e ->
       e = TypeError \/ e = AttributeError \/ e = OverflowError).
Proof.
  intros indicator_code country_codes w.
  rewrite get_world_bank_data_eq. unfold getitem, has_key.
  destruct (assoc indicator_code WB_INDICATORS) as [info |].
  - split; [discriminate |]. intros e _. cbv zeta.
    destruct (fetched _ w) as [| | | | | l |]; try discriminate.
    destruct l as [| meta [| data rest]]; try discriminate.
    intros H.
    apply (collecting_raises [TypeError; AttributeError; OverflowError]) in H.
    + destruct H as [<- | [<- | [<- | []]]]; auto.
    + apply raises_only_bind.
      * apply raises_only_lift. intros e' He. apply py_iter_raises in He.
        subst. one_of.
      * intros records. apply raises_only_for_each. intros record.
        intros s e' He. apply wb_record_raises in He.
        destruct He as [<- | [<- | []]]; one_of.
  - split; [reflexivity | discriminate].
Qed.

(** An unknown code, and the response [[meta, null]]. *)
Lemma get_world_bank_data_exceptions_witness :
  get_world_bank_data "XYZ" ["BRA"] offline = (Raise KeyError, offline) /\
  fst (get_world_bank_data "SP.POP.TOTL" ["BRA"]
         (answering (PList [PDict [("total", PInt 0)]; PNone])))
  = Raise TypeError /\
  (TypeError = TypeError \/ TypeError = AttributeError
   \/ TypeError = OverflowError).
Proof.
  split; [| split].
  - apply (proj1 (get_world_bank_data_exceptions "XYZ" ["BRA"] offline)).
    reflexivity.
  - reflexivity.
  - apply (proj2 (get_world_bank_data_exceptions "SP.POP.TOTL" ["BRA"]
                    (answering (PList [PDict [("total", PInt 0)]; PNone])))
             TypeError); reflexivity.
Defined.

(* ====================================================================== *)
(** ** The development-bank adapter, record by record *)

Lemma wb_record_run indicator_code indicator record dp :
  assoc indicator_code WB_INDICATORS = Some indicator ->
  wb_safe record = true ->
  wb_record indicator_code record dp
  = (Ok tt, dp ++ wb_records indicator_code indicator record)%list.
Proof.
  intros Hi Hsafe.
  destruct record as [| | | | | | d]; try discriminate Hsafe.
  unfold wb_safe in Hsafe. apply andb_prop in Hsafe as [Hy Hv].
  unfold no_overflow in Hv.
  unfold wb_record, wb_records, try_except, bind, lift, py_get, has_key.
  fold (field d "countryiso3code" (PStr "")).
  fold (field d "date" (PStr "")). fold (field d "value" PNone).
  set (year := field d "date" (PStr "")) in *.
  set (value := field d "value" PNone) in *.
  destruct (field d "countryiso3code" (PStr "")) as [| | | | code | |];
    try (simpl; rewrite app_nil_r; reflexivity).
  destruct (assoc code COUNTRIES) as [country |] eqn:Hc;
    [| simpl; rewrite app_nil_r; reflexivity].
  destruct (truthy year && negb (is_None value));
    [| simpl; rewrite app_nil_r; reflexivity].
  unfold wb_point, bind, lift, getitem, in_bounds. rewrite Hc, Hi.
  destruct (py_int year) as [year_int | e] eqn:Hyear.
  - destruct ((START_YEAR <=? year_int) && (year_int <=? END_YEAR)).
    + destruct (py_float value) as [f | e] eqn:Hf; [reflexivity |].
      destruct (py_float_raises value e Hf) as [-> | [-> | ->]];
        try discriminate Hv; simpl; rewrite app_nil_r; reflexivity.
    + destruct (py_float value); simpl; rewrite app_nil_r; reflexivity.
  - apply py_int_raises in Hyear.
    destruct Hyear as [<- | [<- | [<- | []]]];
      try discriminate Hy; simpl; rewrite app_nil_r; reflexivity.
Qed.

Lemma wb_records_run indicator_code indicator data :
  assoc indicator_code WB_INDICATORS = Some indicator ->
  forallb wb_safe data = true ->
  forall dp,
    for_each data (wb_record indicator_code) dp
    = (Ok tt, dp ++ flat_map (wb_records indicator_code indicator) data)%list.
Proof.
  intros Hi. induction data as [| record rest IH]; intros Hsafe dp.
  - simpl. rewrite app_nil_r. reflexivity.
  - cbn [forallb] in Hsafe. apply andb_prop in Hsafe as [Hrecord Hrest].
    cbn [for_each flat_map]. unfold bind at 1.
    rewrite (wb_record_run _ indicator _ dp Hi Hrecord).
    rewrite (IH Hrest). rewrite <- app_assoc. reflexivity.
Qed.

Lemma for_each_app {St X} (xs ys : list X) (body : X -> SE St unit) s :
  for_each (xs ++ ys) body s
  = match for_each xs body s with
    | (Ok _, s') => for_each ys body s'
    | (Raise e, s') => (Raise e, s')
    end.
Proof.
  revert s. induction xs as [| x xs IH]; intros s; [reflexivity |].
  cbn [app for_each]. unfold bind.
  destruct (body x s) as [[u | e] s']; [apply IH | reflexivity].
Qed.

Lemma wb_records_at_most_one indicator_code indicator record :
  (length (wb_records indicator_code indicator record) <= 1)%nat.
Proof.
  unfold wb_records.
  repeat match goal with
         | |- context [match ?x with _ => _ end] => destruct x
         | |- context [if ?x then _ else _] => destruct x
         end; simpl; lia.
Qed.

(** X5. On a response whose second element is a list of safe records
    (dicts whose date is no infinity and whose value does not overflow),
    the development-bank adapter is a list comprehension: it returns, in
    the order of the response, the record of every response record whose
    country code is a key of [COUNTRIES], whose date is truthy and reads
    as a year in the bounds and whose value is not null and converts, and
    it skips every other record; so it never returns more records than
    the response holds. *)
Theorem get_world_bank_data_comprehension :
  forall indicator_code indicator country_codes w meta data rest,
    assoc indicator_code WB_INDICATORS = Some indicator ->
    fetched (wb_request indicator_code country_codes) w
    = PList (meta :: PList data :: rest) ->
    forallb wb_safe data = true ->
    fst (get_world_bank_data indicator_code country_codes w)
    = Ok (flat_map (wb_records indicator_code indicator) data) /\
    (length (flat_map (wb_records indicator_code indicator) data)
     <= length data)%nat.
Proof.
  intros indicator_code indicator country_codes w meta data rest
    Hi Hresp Hsafe.
  split.
  - rewrite get_world_bank_data_eq. unfold getitem. rewrite Hi. cbv zeta.
    rewrite Hresp. unfold collecting, bind at 1, lift. cbn [py_iter].
    rewrite (wb_records_run _ indicator data Hi Hsafe []). reflexivity.
  - clear. induction data as [| record data IH]; [simpl; lia |].
    cbn [flat_map length]. rewrite length_app.
    pose proof (wb_records_at_most_one indicator_code indicator record).
    lia.
Qed.


(** Six records of which two qualify, with no country requested. *)
Lemma get_world_bank_data_comprehension_witness :
  fst (get_world_bank_data "SP.POP.TOTL" [] (answering wb_mixed_response))
  = Ok [ wb_2020 "SP.POP.TOTL"
           {| indicator_name := "Population";
              description := "Population, total" |};
         {| Country_Code := "MEX";
            Country := "Mexico";
            Region := "Latin America";
            Year := 2021;
            Indicator_Name := "Population";
            Indicator_Code := "SP.POP.TOTL";
            Value := Some (Finite (3 # 1));
            Source := "World Bank" |} ] /\
  (2 <= 6)%nat.
Proof.
  exact (get_world_bank_data_comprehension "SP.POP.TOTL"
           {| indicator_name := "Population";
              description := "Population, total" |}
           [] (answering wb_mixed_response) _ _ _ eq_refl eq_refl eq_refl).
Defined.

(** X6. The development-bank adapter does not survive every response of
    two elements: when the second element cannot be iterated (null, a
    number, a boolean) the adapter raises [TypeError], and when the
    records before some record are safe and that record is no dict, the
    adapter raises [AttributeError]; neither is caught, and the records
    read so far are lost. *)
Theorem get_world_bank_data_raises :
  forall indicator_code country_codes w meta data rest,
    has_key indicator_code WB_INDICATORS = true ->
    fetched (wb_request indicator_code country_codes) w
    = PList (meta :: data :: rest) ->
    (not_iterable data = true ->
     fst (get_world_bank_data indicator_code country_codes w)
     = Raise TypeError) /\
    (forall before record after,
       py_iter data = Ok (before ++ record :: after)%list ->
       forallb wb_safe before = true ->
       is_dict record = false ->
       fst (get_world_bank_data indicator_code country_codes w)
       = Raise AttributeError).
Proof.
  intros indicator_code country_codes w meta data rest Hknown Hresp.
  rewrite get_world_bank_data_eq. unfold getitem. unfold has_key in Hknown.
  destruct (assoc indicator_code WB_INDICATORS) as [indicator |] eqn:Hi;
    [| discriminate].
  cbv zeta. rewrite Hresp. unfold collecting, bind at 1, lift. split.
  - intros Hdata. destruct data; try discriminate Hdata; reflexivity.
  - intros before record after Hiter Hsafe Hdict. rewrite Hiter.
    unfold bind at 1. cbv beta iota. rewrite for_each_app.
    rewrite (wb_records_run _ indicator before Hi Hsafe []).
    cbn [for_each]. unfold bind, wb_record, try_except, lift.
    destruct record; try discriminate Hdict; reflexivity.
Qed.

(** The response [[meta, null]], and a null among the records. *)
Lemma get_world_bank_data_raises_witness :
  fst (get_world_bank_data "SP.POP.TOTL" ["BRA"]
         (answering (PList [PDict [("total", PInt 0)]; PNone])))
  = Raise TypeError /\
  fst (get_world_bank_data "SP.POP.TOTL" ["BRA"]
         (answering
            (PList [PDict [("total", PInt 1)];
                    PList [PDict [("countryiso3code", PStr "BRA");
                                  ("date", PStr "2020");
                                  ("value", PStr "5.2")];
                           PNone]])))
  = Raise AttributeError.
Proof.
  split.
  - refine (proj1 (get_world_bank_data_raises "SP.POP.TOTL" ["BRA"]
                     (answering (PList [PDict [("total", PInt 0)]; PNone]))
                     _ _ _ eq_refl eq_refl) eq_refl).
  - refine (proj2 (get_world_bank_data_raises "SP.POP.TOTL" ["BRA"]
                     (answering
                        (PList [PDict [("total", PInt 1)];
                                PList [PDict [("countryiso3code", PStr "BRA");
                                              ("date", PStr "2020");
                                              ("value", PStr "5.2")];
                                       PNone]]))
                     _ _ _ eq_refl eq_refl)
              [PDict [("countryiso3code", PStr "BRA");
                      ("date", PStr "2020");
                      ("value", PStr "5.2")]] PNone [] eq_refl eq_refl eq_refl).
Defined.

(** X7. The development-bank adapter uses the requested country list for
    the request only: two calls that are handed the same document return
    the same records, whatever countries each asked for. A known country
    of the response is returned even when it was not requested. *)
Theorem get_world_bank_data_ignores_request :
  forall indicator_code country_codes country_codes' w w',
    fetched (wb_request indicator_code country_codes) w
    = fetched (wb_request indicator_code country_codes') w' ->
    fst (get_world_bank_data indicator_code country_codes w)
    = fst (get_world_bank_data indicator_code country_codes' w').
Proof.
  intros indicator_code country_codes country_codes' w w' Hsame.
  rewrite !get_world_bank_data_eq.
  destruct (getitem WB_INDICATORS indicator_code); [| reflexivity].
  cbv zeta. rewrite Hsame.
  destruct (fetched _ w') as [| | | | | l |]; try reflexivity.
  destruct l as [| meta [| data rest]]; try reflexivity.
  unfold collecting.
  destruct (bind _ _ []) as [[u | e] dp]; reflexivity.
Qed.

(** The example response, asked for Brazil and asked for Mexico only. *)
Lemma get_world_bank_data_ignores_request_witness :
  fst (get_world_bank_data "SP.POP.TOTL" ["BRA"]
         (answering (wb_response PNone)))
  = fst (get_world_bank_data "SP.POP.TOTL" ["MEX"]
           (answering (wb_response PNone))).
Proof.
  apply get_world_bank_data_ignores_request. reflexivity.
Defined.

(** X8. Every record the development-bank adapter returns carries the
    requested indicator code with its name in [WB_INDICATORS], the source
    tag World Bank, the name and the region [COUNTRIES] gives its country
    code, and a year within [START_YEAR, END_YEAR]. *)
Theorem get_world_bank_data_fields :
  forall indicator_code country_codes w out,
    fst (get_world_bank_data indicator_code country_codes w) = Ok out ->
    Forall
      (fun r =>
         Indicator_Code r = indicator_code /\
         Source r = "World Bank" /\
         START_YEAR <= Year r <= END_YEAR /\
         (exists indicator,
            assoc indicator_code WB_INDICATORS = Some indicator /\
            Indicator_Name r = indicator_name indicator) /\
         (exists country,
            assoc (Country_Code r) COUNTRIES = Some country /\
            Country r = name country /\ Region r = region country))
      out.
Proof.
  intros indicator_code country_codes w out Hout.
  apply get_world_bank_data_sound in Hout.
  eapply Forall_impl; [| exact Hout].
  intros r (country & indicator & f & Hc & Hi & Hb & _ & Hr).
  unfold in_bounds in Hb. apply andb_prop in Hb as [Hlo Hhi].
  apply Z.leb_le in Hlo, Hhi.
  rewrite Hr. cbn [Indicator_Code Source Year Indicator_Name Country Region
                   Country_Code].
  repeat split; try assumption.
  - exists indicator. split; [exact Hi | reflexivity].
  - exists country. rewrite Hr in Hc. cbn [Country_Code] in Hc.
    split; [exact Hc | split; reflexivity].
Qed.

(** A record of Brazil for the indicator SP.POP.TOTL. *)
Lemma get_world_bank_data_fields_witness :
  Forall
    (fun r =>
       Indicator_Code r = "SP.POP.TOTL" /\
       Source r = "World Bank" /\
       START_YEAR <= Year r <= END_YEAR /\
       (exists indicator,
          assoc "SP.POP.TOTL" WB_INDICATORS = Some indicator /\
          Indicator_Name r = indicator_name indicator) /\
       (exists country,
          assoc (Country_Code r) COUNTRIES = Some country /\
          Country r = name country /\ Region r = region country))
    [wb_2020 "SP.POP.TOTL"
       {| indicator_name := "Population";
          description := "Population, total" |}].
Proof.
  apply (get_world_bank_data_fields "SP.POP.TOTL" ["BRA"]
           (answering (wb_response PNone))).
  reflexivity.
Defined.

(* ====================================================================== *)
(** ** The fund adapter on responses of another shape *)

Lemma imf_country_not_dict indicator_code v c dp :
  is_dict v = false ->
  imf_country indicator_code v c dp = (Ok tt, dp) \/
  imf_country indicator_code v c dp = (Raise TypeError, dp).
Proof.
  intros Hv. unfold imf_country, bind, lift.
  destruct v as [| b | z | f | s | l | d]; try discriminate Hv;
    cbn [py_contains py_getitem]; auto.
  - destruct (is_substring c s); auto.
  - destruct (existsb _ l); auto.
Qed.

Lemma imf_countries_not_dict indicator_code v country_codes dp :
  is_dict v = false ->
  for_each country_codes (imf_country indicator_code v) dp = (Ok tt, dp) \/
  for_each country_codes (imf_country indicator_code v) dp
  = (Raise TypeError, dp).
Proof.
  intros Hv. induction country_codes as [| c rest IH]; [left; reflexivity |].
  cbn [for_each]. unfold bind.
  destruct (imf_country_not_dict indicator_code v c dp Hv) as [-> | ->];
    [exact IH | right; reflexivity].
Qed.

Lemma imf_parse_degrades indicator_code country_codes response :
  indicator_data response indicator_code = None ->
  imf_parse indicator_code country_codes response [] = (Ok tt, []).
Proof.
  intros Hshape. unfold imf_parse, try_except.
  destruct response as [| b | z | f | s | l | d]; try reflexivity.
  - unfold bind at 1, lift at 1. cbn [py_contains].
    destruct (is_substring "values" s); reflexivity.
  - unfold bind at 1, lift at 1. cbn [py_contains].
    destruct (existsb _ l); reflexivity.
  - unfold bind at 1, lift at 1. cbn [py_contains]. unfold has_key.
    cbn [indicator_data] in Hshape. cbn [py_getitem]. unfold getitem at 1 2.
    destruct (assoc "values" d) as [values |]; [| reflexivity].
    cbn [res_bind].
    destruct values as [| b | z | f | s | l | values];
      try reflexivity.
    + unfold bind at 1, lift at 1. cbn [py_contains].
      destruct (is_substring indicator_code s); reflexivity.
    + unfold bind at 1, lift at 1. cbn [py_contains].
      destruct (existsb _ l); reflexivity.
    + unfold bind at 1, lift at 1. cbn [py_contains]. unfold has_key.
      destruct (assoc indicator_code values) as [indicator_data |] eqn:Hdata;
        [| reflexivity].
      unfold bind at 1, lift at 1. unfold bind at 1, lift at 1.
      cbn [py_getitem]. unfold getitem. rewrite Hdata.
      assert (Hnot : is_dict indicator_data = false)
        by (destruct indicator_data; try reflexivity; discriminate Hshape).
      destruct (imf_countries_not_dict indicator_code indicator_data
                  country_codes [] Hnot) as [-> | ->]; reflexivity.
Qed.

(** X9. Whatever else the fund adapter is handed, a response without a
    dict at [values[indicator]] gives zero records and no exception: no
    document at all, a document that is no dict, one without [values] or
    without the indicator, or one that holds something else than a dict
    there. *)
Theorem get_imf_data_degrades :
  forall indicator_code country_codes w,
    has_key indicator_code IMF_INDICATORS = true ->
    indicator_data (fetched (imf_request indicator_code country_codes) w)
      indicator_code = None ->
    fst (get_imf_data indicator_code country_codes w) = Ok [].
Proof.
  intros indicator_code country_codes w Hknown Hshape.
  rewrite get_imf_data_eq. unfold getitem. unfold has_key in Hknown.
  destruct (assoc indicator_code IMF_INDICATORS); [| discriminate].
  cbv zeta. destruct (negb (truthy _)); [reflexivity |].
  unfold collecting. rewrite (imf_parse_degrades _ _ _ Hshape). reflexivity.
Qed.

(** A list, a text that contains "values", and a dict whose [values] is
    a list that contains the code. *)
Lemma get_imf_data_degrades_witness :
  fst (get_imf_data "LUR" ["BRA"] (answering (PList [PStr "values"])))
  = Ok [] /\
  fst (get_imf_data "LUR" ["BRA"] (answering (PStr "no values today")))
  = Ok [] /\
  fst (get_imf_data "LUR" ["BRA"]
         (answering (PDict [("values", PList [PStr "LUR"])])))
  = Ok [].
Proof.
  split; [| split]; apply get_imf_data_degrades; reflexivity.
Defined.

Lemma indicator_data_Some response indicator_code data :
  indicator_data response indicator_code = Some data ->
  exists d values,
    response = PDict d /\ assoc "values" d = Some (PDict values) /\
    assoc indicator_code values = Some (PDict data).
Proof.
  unfold indicator_data.
  destruct response as [| | | | | | d]; try discriminate.
  destruct (assoc "values" d) as [[| | | | | | values] |] eqn:Hv;
    try discriminate.
  destruct (assoc indicator_code values) as [[| | | | | | data'] |] eqn:Hd;
    try discriminate.
  intros H. injection H as <-. exists d, values. auto.
Qed.

(** The parse once it has reached the indicator's dict. *)
Lemma imf_parse_reaches indicator_code country_codes response data dp :
  indicator_data response indicator_code = Some data ->
  imf_parse indicator_code country_codes response dp
  = try_except [KeyError; TypeError]
      (for_each country_codes (imf_country indicator_code (PDict data)))
      (ret tt) dp.
Proof.
  intros H. apply indicator_data_Some in H as (d & values & -> & Hv & Hd).
  unfold imf_parse, try_except.
  unfold bind at 1, lift at 1. cbn [py_contains]. unfold has_key.
  rewrite Hv.
  unfold bind at 1, lift at 1. cbn [py_getitem res_bind]. unfold getitem at 1.
  rewrite Hv. cbn [res_bind py_contains]. unfold has_key. rewrite Hd.
  unfold bind at 1, lift at 1. unfold getitem at 1. rewrite Hv.
  unfold bind at 1, lift at 1. cbn [py_getitem]. unfold getitem at 1.
  rewrite Hd. reflexivity.
Qed.

Lemma indicator_data_truthy response indicator_code data :
  indicator_data response indicator_code = Some data ->
  truthy response = true.
Proof.
  intros H. apply indicator_data_Some in H as (d & values & -> & Hv & _).
  destruct d; [discriminate Hv | reflexivity].
Qed.

(** X10. The fund adapter does not survive a country whose data is no
    dict: when the indicator's dict binds a requested country to
    something else (null, a list, a number, a text), and the countries
    requested before it are well-formed there, the adapter raises
    [AttributeError]; the exception is not caught and the records read so
    far are lost. *)
Theorem get_imf_data_raises :
  forall indicator_code country_codes w data before c after v,
    has_key indicator_code IMF_INDICATORS = true ->
    indicator_data (fetched (imf_request indicator_code country_codes) w)
      indicator_code = Some data ->
    country_codes = (before ++ c :: after)%list ->
    forallb (well_formed_country data) before = true ->
    assoc c data = Some v ->
    is_dict v = false ->
    fst (get_imf_data indicator_code country_codes w) = Raise AttributeError.
Proof.
  intros indicator_code country_codes w data before c after v
    Hknown Hdata -> Hbefore Hc Hv.
  rewrite get_imf_data_eq. unfold getitem. unfold has_key in Hknown.
  destruct (assoc indicator_code IMF_INDICATORS) as [indicator |] eqn:Hi;
    [| discriminate].
  cbv zeta. rewrite (indicator_data_truthy _ _ _ Hdata). cbn [negb].
  unfold collecting. rewrite (imf_parse_reaches _ _ _ _ [] Hdata).
  unfold try_except. rewrite for_each_app.
  rewrite (imf_countries_run _ indicator _ before Hi Hbefore []).
  cbn [for_each]. unfold bind at 1, imf_country.
  unfold bind at 1, lift at 1. cbn [py_contains]. unfold has_key. rewrite Hc.
  unfold bind at 1, lift at 1. cbn [py_getitem]. unfold getitem. rewrite Hc.
  unfold bind at 1, lift at 1.
  destruct v; try discriminate Hv; reflexivity.
Qed.

(** Brazil bound to null, after a Mexico that is fine. *)
Lemma get_imf_data_raises_witness :
  fst (get_imf_data "LUR" ["MEX"; "BRA"]
         (answering
            (PDict [("values",
                     PDict [("LUR",
                             PDict [("MEX", PDict [("2019", PInt 3)]);
                                    ("BRA", PNone)])])])))
  = Raise AttributeError.
Proof.
  apply (get_imf_data_raises "LUR" ["MEX"; "BRA"] _
           [("MEX", PDict [("2019", PInt 3)]); ("BRA", PNone)]
           ["MEX"] "BRA" [] PNone); reflexivity.
Defined.

(* ====================================================================== *)
(** ** The records of the fund adapter *)

Lemma imf_point_of_country (good : ObservationRecord -> Prop)
  indicator_code country_code k v :
  (forall r, Country_Code r = country_code -> good r) ->
  preserves (Forall good) (imf_point indicator_code country_code k v).
Proof.
  intros Hgood. unfold imf_point.
  apply preserves_bind_lift. intros year _.
  destruct ((START_YEAR <=? year) && (year <=? END_YEAR) && negb (is_None v));
    [| apply preserves_ret].
  apply preserves_bind_lift. intros country _.
  apply preserves_bind_lift. intros indicator _.
  apply preserves_bind_lift. intros value _.
  apply preserves_append. apply Hgood. reflexivity.
Qed.

Lemma imf_parse_requested indicator_code country_codes response :
  preserves (Forall (fun r => In (Country_Code r) country_codes))
    (imf_parse indicator_code country_codes response).
Proof.
  unfold imf_parse.
  apply preserves_try_except; [| apply preserves_ret].
  apply preserves_bind_lift. intros has_values _.
  apply preserves_bind_lift. intros has_indicator _.
  destruct has_indicator; [| apply preserves_ret].
  apply preserves_bind_lift. intros values _.
  apply preserves_bind_lift. intros data _.
  apply preserves_for_each. intros c Hc. unfold imf_country.
  apply preserves_bind_lift. intros present _.
  destruct present; [| apply preserves_ret].
  apply preserves_bind_lift. intros country_data _.
  apply preserves_bind_lift. intros items _.
  apply preserves_for_each. intros item _.
  apply preserves_try_except; [| apply preserves_ret].
  apply imf_point_of_country. intros r ->. exact Hc.
Qed.

(** X11. Every record the fund adapter returns is the record of a
    requested country and carries the requested indicator code with its
    name in [IMF_INDICATORS], the source tag IMF, and the name and the
    region [COUNTRIES] gives its country code; so a call with an empty
    country list returns no record. *)
Theorem get_imf_data_fields :
  forall indicator_code country_codes w out,
    fst (get_imf_data indicator_code country_codes w) = Ok out ->
    Forall
      (fun r =>
         In (Country_Code r) country_codes /\
         Indicator_Code r = indicator_code /\
         Source r = "IMF" /\
         (exists indicator,
            assoc indicator_code IMF_INDICATORS = Some indicator /\
            Indicator_Name r = indicator_name indicator) /\
         (exists country,
            assoc (Country_Code r) COUNTRIES = Some country /\
            Country r = name country /\ Region r = region country))
      out /\
    (country_codes = [] -> out = []).
Proof.
  intros indicator_code country_codes w out Hout.
  assert (Hreq : Forall (fun r => In (Country_Code r) country_codes) out).
  { revert Hout. rewrite get_imf_data_eq.
    destruct (getitem IMF_INDICATORS indicator_code); [| discriminate].
    cbv zeta. destruct (negb (truthy _)).
    - intros H. injection H as <-. constructor.
    - apply collecting_invariant, imf_parse_requested. }
  split.
  - apply get_imf_data_sound in Hout.
    rewrite Forall_forall in *. intros r Hr.
    specialize (Hreq r Hr).
    destruct (Hout r Hr)
      as (country & indicator & k & v & Hc & Hi & _ & _ & _ & _ & _ & Heq).
    split; [exact Hreq |]. rewrite Heq.
    cbn [Indicator_Code Source Indicator_Name Country Region Country_Code
         imf_record].
    repeat split.
    + exists indicator. split; [exact Hi | reflexivity].
    + exists country. split; [exact Hc | split; reflexivity].
  - intros ->. destruct out as [| r out]; [reflexivity |].
    inversion Hreq as [| ? ? Hr _]. destruct Hr.
Qed.

(** The example response asked for Brazil and an unknown code. *)
Lemma get_imf_data_fields_witness :
  Forall
    (fun r =>
       In (Country_Code r) ["BRA"; "XXX"] /\
       Indicator_Code r = "LUR" /\
       Source r = "IMF" /\
       (exists indicator,
          assoc "LUR" IMF_INDICATORS = Some indicator /\
          Indicator_Name r = indicator_name indicator) /\
       (exists country,
          assoc (Country_Code r) COUNTRIES = Some country /\
          Country r = name country /\ Region r = region country))
    [lur_2019].
Proof.
  apply (get_imf_data_fields "LUR" ["BRA"; "XXX"] (answering lur_response)).
  reflexivity.
Defined.

(** X12. On a response that is well-formed for the request, the fund
    adapter is a list comprehension: it returns, country by country in
    the order of the request and entry by entry in the order of the
    response, the record of every entry whose key reads as a year in the
    bounds and whose value is not null and is the empty string or
    converts; every other entry is skipped. *)
Theorem get_imf_data_comprehension :
  forall indicator_code indicator country_codes w,
    assoc indicator_code IMF_INDICATORS = Some indicator ->
    well_formed indicator_code country_codes
      (fetched (imf_request indicator_code country_codes) w) = true ->
    fst (get_imf_data indicator_code country_codes w)
    = Ok (flat_map
            (fun c =>
               match assoc c COUNTRIES with
               | Some country =>
                   flat_map
                     (point_records indicator_code c country indicator)
                     (entries
                        (fetched (imf_request indicator_code country_codes) w)
                        indicator_code c)
               | None => []
               end)
            country_codes).
Proof.
  intros indicator_code indicator country_codes w Hi Hwf.
  unfold well_formed in Hwf. unfold entries.
  destruct (fetched _ w) as [| | | | | | d] eqn:Hresp; try discriminate Hwf.
  destruct (assoc "values" d) as [[| | | | | | values] |] eqn:Hvalues;
    try discriminate Hwf.
  destruct (assoc indicator_code values) as [[| | | | | | data] |]
    eqn:Hdata; try discriminate Hwf.
  rewrite (get_imf_data_run _ indicator _ w d values data
             Hi Hresp Hvalues Hdata Hwf).
  f_equal. apply flat_map_ext. intros c. unfold country_records.
  destruct (assoc c data) as [[| | | | | | items] |];
    destruct (assoc c COUNTRIES); reflexivity.
Qed.

(** Two countries, the second one first in the request. *)
Lemma get_imf_data_comprehension_witness :
  fst (get_imf_data "LUR" ["MEX"; "BRA"] (answering lur_two_countries))
  = Ok [ imf_record "LUR" "MEX"
           {| name := "Mexico"; region := "Latin America" |}
           {| indicator_name := "Unemployment Rate";
              description := "Unemployment rate, percent" |}
           2020 (Some (Finite (3 # 1)));
         imf_record "LUR" "BRA"
           {| name := "Brazil"; region := "Latin America" |}
           {| indicator_name := "Unemployment Rate";
              description := "Unemployment rate, percent" |}
           2019 (Some (Finite (2 # 1)));
         imf_record "LUR" "BRA"
           {| name := "Brazil"; region := "Latin America" |}
           {| indicator_name := "Unemployment Rate";
              description := "Unemployment rate, percent" |}
           2018 None ].
Proof.
  exact (get_imf_data_comprehension "LUR"
           {| indicator_name := "Unemployment Rate";
              description := "Unemployment rate, percent" |}
           ["MEX"; "BRA"] (answering lur_two_countries) eq_refl eq_refl).
Defined.

(* ====================================================================== *)
(** ** More on the cleaner *)

Section CleanerMore.

Variable numeric_text : string -> option number.

Lemma astype_Int64_Ok c y :
  astype_Int64 c = Ok y -> y = CNone \/ exists z, y = CNum (NInt z).
Proof.
  destruct c as [| [z | [q | n |]] | s]; simpl; try discriminate;
    try (intros H; injection H as <-; eauto).
  destruct (Qnum q mod Z.pos (Qden q) =? 0); [| discriminate].
  intros H; injection H as <-; eauto.
Qed.

(** X13. After cleaning, the two coerced columns hold no text any more:
    in every row [clean_data] returns the year is an integer or [<NA>]
    and the value is a number (nan for a missing one); the country and
    the indicator name are present. *)
Theorem clean_data_types :
  forall df out,
    clean_data numeric_text df = Ok out ->
    Forall
      (fun r =>
         (FrameRow.Year r = CNone \/ exists z, FrameRow.Year r = CNum (NInt z)) /\
         (exists n, FrameRow.Value r = CNum n) /\
         (exists c, FrameRow.Country r = Some c) /\
         (exists i, FrameRow.Indicator_Name r = Some i))
      out.
Proof.
  intros df out Hclean. apply Forall_forall. intros r' Hr'.
  destruct (clean_data_origin numeric_text df out r' Hclean Hr')
    as (r & _ & Hc & y & Hy & ->).
  destruct (complete_keys r Hc) as (c & i & Hcountry & Hname).
  cbn [FrameRow.Year FrameRow.Value FrameRow.Country FrameRow.Indicator_Name
       FrameRow.set_Value FrameRow.set_Year].
  split; [| split; [| split]].
  - apply (astype_Int64_Ok _ _ Hy).
  - apply to_numeric_number.
  - exists c. exact Hcountry.
  - exists i. exact Hname.
Qed.

Lemma coerce_Year_Permutation df df' out :
  Permutation df df' ->
  coerce_Year numeric_text df = Ok out ->
  exists out',
    coerce_Year numeric_text df' = Ok out' /\ Permutation out out'.
Proof.
  intros Hperm. revert out.
  induction Hperm as [| r l l' _ IH | r1 r2 l | l l' l'' _ IH1 _ IH2];
    intros out Hout.
  - exists out. split; [exact Hout | reflexivity].
  - cbn [coerce_Year] in *.
    destruct (astype_Int64 (to_numeric numeric_text (FrameRow.Year r))) as [y |];
      [| discriminate].
    cbn [res_bind] in *.
    destruct (coerce_Year numeric_text l) as [rest |] eqn:Hl;
      [| discriminate].
    destruct (IH rest eq_refl) as (rest' & -> & Hrest).
    cbn [res_bind] in *. injection Hout as <-.
    eexists. split; [reflexivity |]. constructor. exact Hrest.
  - cbn [coerce_Year] in *.
    destruct (astype_Int64 (to_numeric numeric_text (FrameRow.Year r1))) as [y1 |];
      destruct (astype_Int64 (to_numeric numeric_text (FrameRow.Year r2)))
        as [y2 |]; try discriminate;
      cbn [res_bind] in *; try discriminate.
    destruct (coerce_Year numeric_text l) as [rest |]; [| discriminate].
    cbn [res_bind] in *. injection Hout as <-.
    eexists. split; [reflexivity |]. apply perm_swap.
  - destruct (IH1 out Hout) as (out1 & H1 & P1).
    destruct (IH2 out1 H1) as (out2 & H2 & P2).
    exists out2. split; [exact H2 |]. exact (Permutation_trans P1 P2).
Qed.

Lemma filter_Permutation {A} (f : A -> bool) l l' :
  Permutation l l' -> Permutation (filter f l) (filter f l').
Proof.
  induction 1 as [| x l l' _ IH | x y l | l l' l'' _ IH1 _ IH2]; simpl.
  - reflexivity.
  - destruct (f x); [constructor |]; exact IH.
  - destruct (f x), (f y); try reflexivity. apply perm_swap.
  - exact (Permutation_trans IH1 IH2).
Qed.

(** X14. The cleaner does not depend on the order of its input: for two
    frames that hold the same rows in another order, [clean_data] returns
    for both or for neither, and what it returns holds the same rows. *)
Theorem clean_data_order_independent :
  forall df df' out,
    Permutation df df' ->
    clean_data numeric_text df = Ok out ->
    exists out',
      clean_data numeric_text df' = Ok out' /\ Permutation out out'.
Proof.
  intros df df' out Hperm. unfold clean_data.
  destruct (coerce_Year numeric_text (dropna df)) as [years |] eqn:Hyears;
    [| discriminate].
  cbn [res_bind]. intros H. injection H as <-.
  destruct (coerce_Year_Permutation (dropna df) (dropna df') years
              (filter_Permutation complete df df' Hperm) Hyears)
    as (years' & -> & Hp).
  cbn [res_bind]. eexists. split; [reflexivity |].
  rewrite !sort_values_Permutation. unfold coerce_Value.
  apply Permutation_map. exact Hp.
Qed.

Lemma dropna_records all_data :
  dropna (pd_DataFrame all_data) = pd_DataFrame all_data.
Proof.
  unfold dropna, pd_DataFrame.
  induction all_data as [| r rest IH]; [reflexivity |].
  cbn [map filter]. rewrite IH. reflexivity.
Qed.

(** The row of a record once cleaned: a missing value is nan. *)
Lemma cleaned_record r r' :
  cleaned numeric_text (row_of_record r) r' ->
  r' = FrameRow.set_Value
         match Value r with
         | Some f => CNum (NFloat f)
         | None => CNum (NFloat NaN)
         end (row_of_record r).
Proof.
  intros (y & Hy & ->). unfold year_cast in Hy.
  cbn [row_of_record FrameRow.Year to_numeric astype_Int64] in Hy.
  injection Hy as <-.
  destruct r as [code country reg year iname icode [f |] source];
    reflexivity.
Qed.

(** The frame of adapter records, cleaned: no raise, the rows of all the
    records in sorted order. *)
Lemma clean_data_of_records all_data :
  exists out,
    clean_data numeric_text (pd_DataFrame all_data) = Ok out /\
    Permutation out
      (map (fun r =>
              FrameRow.set_Value
                match Value r with
                | Some f => CNum (NFloat f)
                | None => CNum (NFloat NaN)
                end (row_of_record r))
         all_data) /\
    Sorted key_le out.
Proof.
  pose proof (pd_DataFrame_valid numeric_text all_data) as Hvalid.
  assert (Hcast : years_castable numeric_text (pd_DataFrame all_data) = true).
  { unfold years_castable, years_valid in *.
    rewrite forallb_forall in *. intros r Hr. specialize (Hvalid r Hr).
    destruct (year_cast numeric_text r); [reflexivity | discriminate]. }
  destruct (clean_data_returns numeric_text _ Hcast) as [out Hout].
  exists out. split; [exact Hout |].
  destruct (clean_data_Ok numeric_text _ _ Hout) as (l & Hl & Hperm & Hsorted).
  rewrite dropna_records in Hl.
  assert (Hrows :
    l = map (fun r =>
               FrameRow.set_Value
                 match Value r with
                 | Some f => CNum (NFloat f)
                 | None => CNum (NFloat NaN)
                 end (row_of_record r)) all_data).
  { clear - Hl. unfold pd_DataFrame in Hl. revert l Hl.
    induction all_data as [| r rest IH]; intros l Hl;
      inversion Hl as [| ? r' ? l' Hr Hrest]; subst; [reflexivity |].
    cbn [map]. f_equal; [apply cleaned_record; exact Hr | apply IH, Hrest]. }
  split; [rewrite <- Hrows; exact Hperm | exact Hsorted].
Qed.


End CleanerMore.

(** A frame with a text for a year, and a frame and its reverse. *)
Lemma clean_data_types_witness :
  Forall
    (fun r =>
       (FrameRow.Year r = CNone \/ exists z, FrameRow.Year r = CNum (NInt z)) /\
       (exists n, FrameRow.Value r = CNum n) /\
       (exists c, FrameRow.Country r = Some c) /\
       (exists i, FrameRow.Indicator_Name r = Some i))
    [ observation (Some "Brazil") CNone
        (CNum (NFloat (to_float (decimal 119 (-1))))) ].
Proof.
  apply (clean_data_types python_numeric_text unreadable_year_frame).
  reflexivity.
Defined.

Lemma clean_data_order_independent_witness :
  exists out',
    clean_data python_numeric_text (rev raw_frame) = Ok out' /\
    Permutation clean_frame out'.
Proof.
  apply (clean_data_order_independent python_numeric_text raw_frame).
  - apply Permutation_rev.
  - reflexivity.
Defined.

(* ====================================================================== *)
(** ** The fetch phase *)

Lemma adapters_offline indicator_code country_codes w :
  all_requests_fail w ->
  (has_key indicator_code IMF_INDICATORS = true ->
   get_imf_data indicator_code country_codes w = (Ok [], exhausted w)) /\
  (has_key indicator_code WB_INDICATORS = true ->
   get_world_bank_data indicator_code country_codes w
   = (Ok [], exhausted w)).
Proof.
  intros Hfail. split; intros Hknown; unfold has_key in Hknown.
  - destruct (three_failures_fetch (imf_request indicator_code country_codes)
                w) as [Hdoc Hworld]; [repeat split; apply Hfail |].
    rewrite get_imf_data_eq. unfold getitem.
    destruct (assoc indicator_code IMF_INDICATORS); [| discriminate].
    cbv zeta. rewrite Hdoc, Hworld. reflexivity.
  - destruct (three_failures_fetch (wb_request indicator_code country_codes)
                w) as [Hdoc Hworld]; [repeat split; apply Hfail |].
    rewrite get_world_bank_data_eq. unfold getitem.
    destruct (assoc indicator_code WB_INDICATORS); [| discriminate].
    cbv zeta. rewrite Hdoc, Hworld. reflexivity.
Qed.

Lemma fetch_loop_offline adapter codes country_codes :
  (forall code w,
     In code codes -> all_requests_fail w ->
     adapter code country_codes w = (Ok [], exhausted w)) ->
  forall all_data w,
    all_requests_fail w ->
    exists w',
      fetch_loop adapter codes country_codes all_data w = (Ok all_data, w') /\
      all_requests_fail w' /\
      attempts w' = (attempts w + 3 * length codes)%nat /\
      seconds_slept w' = seconds_slept w + 4 * Z.of_nat (length codes).
Proof.
  intros Hadapter. induction codes as [| code rest IH]; intros all_data w Hw.
  - exists w. cbn [fetch_loop length]. repeat split; [exact Hw | lia | lia].
  - cbn [fetch_loop]. unfold bind at 1.
    rewrite (Hadapter code w (or_introl eq_refl) Hw).
    unfold bind at 1, modify. rewrite app_nil_r.
    destruct (IH (fun c w' Hc => Hadapter c w' (or_intror Hc)) all_data
                (time_sleep 1 (exhausted w)))
      as (w' & Hloop & Hw' & Hattempts & Hslept).
    { intros r n. apply Hw. }
    exists w'. split; [exact Hloop |]. split; [exact Hw' |].
    rewrite Hattempts, Hslept. unfold seconds_slept.
    cbn [time_sleep exhausted attempts slept fold_right length].
    split; lia.
Qed.

(** X16. When every request fails, a run ends without data and without
    an exception: [main] collects nothing and stops before the cleaning
    and the export, after 3 attempts for each of the 13 indicators, 39
    in all, and 52 seconds of pauses (1 and 2 seconds between the
    attempts, 1 second after each indicator). *)
Theorem main_offline :
  forall numeric_text w,
    all_requests_fail w ->
    exists w',
      main numeric_text w = (Ok None, w') /\
      attempts w' = (attempts w + 39)%nat /\
      seconds_slept w' = seconds_slept w + 52.
Proof.
  intros numeric_text w Hw. unfold main, fetch_all.
  destruct (fetch_loop_offline get_imf_data (map fst IMF_INDICATORS)
              (map fst COUNTRIES)) with (all_data := @nil ObservationRecord)
    (w := w) as (w1 & H1 & Hw1 & Ha1 & Hs1); [| exact Hw |].
  { intros code w0 Hcode Hw0.
    apply (adapters_offline code _ w0 Hw0).
    simpl in Hcode. repeat destruct Hcode as [<- | Hcode]; try reflexivity.
    destruct Hcode. }
  destruct (fetch_loop_offline get_world_bank_data (map fst WB_INDICATORS)
              (map fst COUNTRIES)) with (all_data := @nil ObservationRecord)
    (w := w1) as (w2 & H2 & Hw2 & Ha2 & Hs2); [| exact Hw1 |].
  { intros code w0 Hcode Hw0.
    apply (adapters_offline code _ w0 Hw0).
    simpl in Hcode. repeat destruct Hcode as [<- | Hcode]; try reflexivity.
    destruct Hcode. }
  exists w2. unfold bind at 1. unfold bind at 1. rewrite H1, H2.
  split; [reflexivity |].
  rewrite Ha2, Ha1, Hs2, Hs1. cbn [length map IMF_INDICATORS WB_INDICATORS].
  split; lia.
Qed.

Lemma main_offline_witness :
  exists w',
    main python_numeric_text offline = (Ok None, w') /\
    attempts w' = (attempts offline + 39)%nat /\
    seconds_slept w' = seconds_slept offline + 52.
Proof.
  apply main_offline. intros r n. reflexivity.
Defined.

Lemma after_fetch_one_call r w : one_call w (after_fetch r w).
Proof.
  unfold after_fetch, default_max_retries.
  destruct (make_request_loop_stops r 3 w 3 0%nat eq_refl ltac:(lia))
    as (k & v & Hk & Hloop).
  rewrite after_attempts_0 in Hloop. rewrite Hloop. cbn [snd].
  unfold one_call, seconds_slept, after_attempts. cbn [attempts slept].
  rewrite fold_right_app.
  assert (Hcases : k = 1%nat \/ k = 2%nat \/ k = 3%nat) by lia.
  destruct Hcases as [-> | [-> | ->]];
    cbn [Nat.sub backoff seq map rev app fold_right Z.of_nat];
    generalize (fold_right Z.add 0 (slept w)); intros total;
    change (2 ^ 0) with 1; change (2 ^ Z.of_nat 1) with 2; lia.
Qed.

Lemma collecting_world {W} (block : SE (list ObservationRecord) unit)
  (w : W) :
  snd (collecting block w) = w.
Proof.
  unfold collecting. destruct (block []) as [[u | e] dp]; reflexivity.
Qed.

Lemma get_imf_data_one_call indicator_code country_codes w :
  has_key indicator_code IMF_INDICATORS = true ->
  one_call w (snd (get_imf_data indicator_code country_codes w)).
Proof.
  rewrite get_imf_data_eq. unfold getitem, has_key.
  destruct (assoc indicator_code IMF_INDICATORS); [| discriminate].
  intros _. cbv zeta. destruct (negb (truthy _)).
  - apply after_fetch_one_call.
  - rewrite collecting_world. apply after_fetch_one_call.
Qed.

Lemma get_world_bank_data_one_call indicator_code country_codes w :
  has_key indicator_code WB_INDICATORS = true ->
  one_call w (snd (get_world_bank_data indicator_code country_codes w)).
Proof.
  rewrite get_world_bank_data_eq. unfold getitem, has_key.
  destruct (assoc indicator_code WB_INDICATORS); [| discriminate].
  intros _. cbv zeta.
  destruct (fetched _ w) as [| | | | | l |]; try apply after_fetch_one_call.
  destruct l as [| meta [| data rest]]; try apply after_fetch_one_call.
  rewrite collecting_world. apply after_fetch_one_call.
Qed.

Lemma fetch_loop_cons adapter code rest country_codes all_data w :
  fetch_loop adapter (code :: rest) country_codes all_data w
  = match adapter code country_codes w with
    | (Ok data, w1) =>
        fetch_loop adapter rest country_codes (all_data ++ data)%list
          (time_sleep 1 w1)
    | (Raise e, w1) => (Raise e, w1)
    end.
Proof. reflexivity. Qed.

(** The loop over the indicators: at most three attempts and four seconds
    for each, and when it ends normally at least one attempt and one
    second for each. *)
Lemma fetch_loop_calls adapter codes country_codes :
  (forall code w,
     In code codes -> one_call w (snd (adapter code country_codes w))) ->
  forall all_data w,
    (attempts (snd (fetch_loop adapter codes country_codes all_data w))
     <= attempts w + 3 * length codes)%nat /\
    seconds_slept (snd (fetch_loop adapter codes country_codes all_data w))
    <= seconds_slept w + 4 * Z.of_nat (length codes) /\
    (attempts w
     <= attempts (snd (fetch_loop adapter codes country_codes all_data w)))%nat
    /\
    seconds_slept w
    <= seconds_slept (snd (fetch_loop adapter codes country_codes all_data w))
    /\
    (forall out,
       fst (fetch_loop adapter codes country_codes all_data w) = Ok out ->
       (attempts w + length codes
        <= attempts (snd (fetch_loop adapter codes country_codes all_data w)))
       %nat /\
       seconds_slept w + Z.of_nat (length codes)
       <= seconds_slept
            (snd (fetch_loop adapter codes country_codes all_data w))).
Proof.
  intros Hadapter. induction codes as [| code rest IH]; intros all_data w.
  - cbn [fetch_loop length ret snd fst]. repeat split; lia.
  - rewrite fetch_loop_cons.
    pose proof (Hadapter code w (or_introl eq_refl)) as [Ha Hs].
    destruct (adapter code country_codes w) as [[data | e] w1].
    + cbn [snd] in Ha, Hs.
      destruct (IH (fun c w' Hc => Hadapter c w' (or_intror Hc))
                  (all_data ++ data)%list (time_sleep 1 w1))
        as (Hamax & Hsmax & Hamono & Hsmono & Hok).
      revert Hamax Hsmax Hamono Hsmono Hok.
      generalize (fetch_loop adapter rest country_codes
                    (all_data ++ data)%list (time_sleep 1 w1)).
      intros [result w2]. cbn [fst snd].
      unfold seconds_slept in *.
      cbn [time_sleep attempts slept fold_right length].
      intros Hamax Hsmax Hamono Hsmono Hok.
      split; [lia |]. split; [lia |]. split; [lia |]. split; [lia |].
      intros out Hout. destruct (Hok out Hout) as [Hamin Hsmin].
      split; lia.
    + cbn [snd fst] in *. cbn [length]. unfold seconds_slept in *.
      split; [lia |]. split; [lia |]. split; [lia |]. split; [lia |].
      discriminate.
Qed.

(** The records the loop adds to [all_data]. *)
Lemma fetch_loop_records (good : ObservationRecord -> Prop) adapter codes
  country_codes :
  (forall code w out,
     In code codes -> fst (adapter code country_codes w) = Ok out ->
     Forall good out) ->
  forall all_data w out,
    fst (fetch_loop adapter codes country_codes all_data w) = Ok out ->
    exists new, out = (all_data ++ new)%list /\ Forall good new.
Proof.
  intros Hadapter. induction codes as [| code rest IH]; intros all_data w out.
  - cbn [fetch_loop ret fst]. intros H. injection H as <-.
    exists []. rewrite app_nil_r. split; [reflexivity | constructor].
  - rewrite fetch_loop_cons.
    pose proof (Hadapter code w) as Hcode.
    destruct (adapter code country_codes w) as [[data | e] w1];
      [| discriminate].
    intros H.
    apply (IH (fun c w' o Hc => Hadapter c w' o (or_intror Hc))) in H
      as (new & -> & Hnew).
    exists (data ++ new)%list. rewrite app_assoc. split; [reflexivity |].
    apply Forall_app. split; [| exact Hnew].
    apply (Hcode data (or_introl eq_refl) eq_refl).
Qed.

Lemma fetch_loop_raises E adapter codes country_codes :
  (forall code, In code codes -> raises_only E (adapter code country_codes)) ->
  forall all_data,
    raises_only E (fetch_loop adapter codes country_codes all_data).
Proof.
  intros Hadapter. induction codes as [| code rest IH]; intros all_data.
  - apply raises_only_ret.
  - cbn [fetch_loop]. apply raises_only_bind.
    + apply Hadapter. left. reflexivity.
    + intros data. apply raises_only_bind; [apply raises_only_modify |].
      intros _. apply IH. intros c Hc. apply Hadapter. right. exact Hc.
Qed.

Lemma get_imf_data_raises_only indicator_code country_codes :
  has_key indicator_code IMF_INDICATORS = true ->
  raises_only [TypeError; AttributeError; OverflowError]
    (get_imf_data indicator_code country_codes).
Proof.
  intros Hknown w e. rewrite get_imf_data_eq. unfold getitem.
  unfold has_key in Hknown.
  destruct (assoc indicator_code IMF_INDICATORS); [| discriminate].
  cbv zeta. destruct (negb (truthy _)); [discriminate |].
  intros H.
  apply (collecting_raises _ _ _ _ (imf_parse_raises _ _ _)) in H.
  destruct H as [<- | [<- | []]]; one_of.
Qed.

Lemma get_world_bank_data_raises_only indicator_code country_codes :
  has_key indicator_code WB_INDICATORS = true ->
  raises_only [TypeError; AttributeError; OverflowError]
    (get_world_bank_data indicator_code country_codes).
Proof.
  intros Hknown w e. rewrite get_world_bank_data_eq. unfold getitem.
  unfold has_key in Hknown.
  destruct (assoc indicator_code WB_INDICATORS); [| discriminate].
  cbv zeta.
  destruct (fetched _ w) as [| | | | | l |]; try discriminate.
  destruct l as [| meta [| data rest]]; try discriminate.
  apply (collecting_raises [TypeError; AttributeError; OverflowError]).
  apply raises_only_bind.
  - apply raises_only_lift. intros e' He. apply py_iter_raises in He.
    subst. one_of.
  - intros records. apply raises_only_for_each. intros record.
    intros s e' He. apply wb_record_raises in He.
    destruct He as [<- | [<- | []]]; one_of.
Qed.

Lemma in_keys {V} code (d : list (string * V)) :
  In code (map fst d) -> has_key code d = true.
Proof.
  unfold has_key. induction d as [| [k v] d IH]; [intros [] |].
  cbn [map fst In assoc]. intros [-> | Hin].
  - rewrite String.eqb_refl. reflexivity.
  - destruct (String.eqb code k); [reflexivity | apply IH, Hin].
Qed.

Lemma imf_sound_collected response indicator_code r :
  imf_sound response indicator_code r -> collected "IMF" IMF_INDICATORS r.
Proof.
  intros (country & indicator & k & v & Hc & Hi & _ & _ & Hb & _ & _ & Hr).
  assert (Hsource : Source r = "IMF") by (rewrite Hr; reflexivity).
  assert (Hcode : Indicator_Code r = indicator_code)
    by (rewrite Hr; reflexivity).
  unfold collected, known_country, has_key. rewrite Hsource, Hcode, Hc, Hi.
  unfold in_bounds in Hb. apply andb_true_iff in Hb as [H1 H2].
  apply Z.leb_le in H1, H2. repeat split; assumption.
Qed.

Lemma wb_sound_collected indicator_code r :
  wb_sound indicator_code r ->
  collected "World Bank" WB_INDICATORS r /\ Value r <> None.
Proof.
  intros (country & indicator & f & Hc & Hi & Hb & Hv & Hr).
  assert (Hsource : Source r = "World Bank") by (rewrite Hr; reflexivity).
  assert (Hcode : Indicator_Code r = indicator_code)
    by (rewrite Hr; reflexivity).
  unfold collected, known_country, has_key.
  rewrite Hsource, Hcode, Hc, Hi, Hv.
  unfold in_bounds in Hb. apply andb_true_iff in Hb as [H1 H2].
  apply Z.leb_le in H1, H2. repeat split; try assumption. discriminate.
Qed.

(** The fetch phase in two steps. *)
Lemma fetch_all_eq w :
  fetch_all w
  = match fetch_loop get_imf_data (map fst IMF_INDICATORS)
            (map fst COUNTRIES) [] w with
    | (Ok all_data, w1) =>
        fetch_loop get_world_bank_data (map fst WB_INDICATORS)
          (map fst COUNTRIES) all_data w1
    | (Raise e, w1) => (Raise e, w1)
    end.
Proof. reflexivity. Qed.

Lemma fetch_all_Ok w all_data :
  fst (fetch_all w) = Ok all_data ->
  exists imf wb,
    all_data = (imf ++ wb)%list /\
    Forall (collected "IMF" IMF_INDICATORS) imf /\
    Forall (fun r => collected "World Bank" WB_INDICATORS r /\
                     Value r <> None) wb.
Proof.
  rewrite fetch_all_eq.
  destruct (fetch_loop get_imf_data _ _ [] w) as [[imf | e] w1] eqn:Himf;
    [| discriminate].
  intros Hwb.
  apply (f_equal fst) in Himf. cbn [fst] in Himf.
  apply (fetch_loop_records (collected "IMF" IMF_INDICATORS)) in Himf
    as (new & -> & Hnew).
  2:{ intros code w0 out _ Hout. apply get_imf_data_sound in Hout.
      eapply Forall_impl; [| exact Hout].
      intros r. apply imf_sound_collected. }
  apply (fetch_loop_records
           (fun r => collected "World Bank" WB_INDICATORS r /\
                     Value r <> None)) in Hwb as (wb & -> & Hwb).
  2:{ intros code w0 out _ Hout. apply get_world_bank_data_sound in Hout.
      eapply Forall_impl; [| exact Hout].
      intros r. apply wb_sound_collected. }
  exists new, wb. split; [reflexivity |]. split; assumption.
Qed.

Lemma fetch_all_raises_only :
  raises_only [TypeError; AttributeError; OverflowError] fetch_all.
Proof.
  unfold fetch_all. cbv zeta. apply raises_only_bind.
  - apply fetch_loop_raises. intros code Hcode.
    apply get_imf_data_raises_only, in_keys, Hcode.
  - intros all_data. apply fetch_loop_raises. intros code Hcode.
    apply get_world_bank_data_raises_only, in_keys, Hcode.
Qed.

(** X17. The fetch phase of [main] never makes more than 39 attempts (3
    for each of the 13 indicators) and never pauses for more than 52
    seconds, whatever the network does and also when an adapter raises;
    when it ends normally it has made at least 13 attempts, one for each
    indicator, and has paused for at least 13 seconds: the one second
    after each indicator is slept whether the call gave data or not. *)
Theorem fetch_all_requests :
  forall w,
    (attempts (snd (fetch_all w)) <= attempts w + 39)%nat /\
    seconds_slept (snd (fetch_all w)) <= seconds_slept w + 52 /\
    (forall all_data,
       fst (fetch_all w) = Ok all_data ->
       (attempts w + 13 <= attempts (snd (fetch_all w)))%nat /\
       seconds_slept w + 13 <= seconds_slept (snd (fetch_all w))).
Proof.
  intros w. rewrite fetch_all_eq.
  destruct (fetch_loop_calls get_imf_data (map fst IMF_INDICATORS)
              (map fst COUNTRIES)) with (all_data := @nil ObservationRecord)
    (w := w) as (Ha1 & Hs1 & Ham1 & Hsm1 & Hok1).
  { intros code w0 Hcode. apply get_imf_data_one_call, in_keys, Hcode. }
  destruct (fetch_loop get_imf_data _ _ [] w) as [[imf | e] w1].
  - destruct (fetch_loop_calls get_world_bank_data (map fst WB_INDICATORS)
                (map fst COUNTRIES)) with (all_data := imf) (w := w1)
      as (Ha2 & Hs2 & Ham2 & Hsm2 & Hok2).
    { intros code w0 Hcode.
      apply get_world_bank_data_one_call, in_keys, Hcode. }
    destruct (Hok1 imf eq_refl) as [Hamin1 Hsmin1].
    change (length (map fst IMF_INDICATORS)) with 8%nat in *.
    change (length (map fst WB_INDICATORS)) with 5%nat in *.
    cbn [snd fst] in *.
    split; [lia |]. split; [lia |].
    intros all_data Hall. destruct (Hok2 all_data Hall). split; lia.
  - change (length (map fst IMF_INDICATORS)) with 8%nat in *.
    cbn [snd fst] in *.
    split; [lia |]. split; [lia |]. discriminate.
Qed.

(** X18. Whatever the two services answer, the records the fetch phase
    collects are the fund records followed by the development-bank
    records; each has a country of [COUNTRIES], a year from 2018 to 2024,
    an indicator of its own source's table and that source's tag, and
    every development-bank record has a value. *)
Theorem fetch_all_records :
  forall w all_data,
    fst (fetch_all w) = Ok all_data ->
    exists imf wb,
      all_data = (imf ++ wb)%list /\
      Forall (collected "IMF" IMF_INDICATORS) imf /\
      Forall (fun r => collected "World Bank" WB_INDICATORS r /\
                       Value r <> None) wb.
Proof.
  intros w all_data. apply fetch_all_Ok.
Qed.

(** Every request answered with the fund document of the example. *)
Lemma fetch_all_records_witness :
  exists imf wb,
    [lur_2019] = (imf ++ wb)%list /\
    Forall (collected "IMF" IMF_INDICATORS) imf /\
    Forall (fun r => collected "World Bank" WB_INDICATORS r /\
                     Value r <> None) wb.
Proof.
  apply (fetch_all_records (answering lur_response) [lur_2019]).
  vm_compute. reflexivity.
Defined.

Lemma main_eq numeric_text w :
  main numeric_text w
  = match fetch_all w with
    | (Ok all_data, w') =>
        match pd_DataFrame all_data with
        | [] => (Ok None, w')
        | df =>
            (res_bind (clean_data numeric_text df)
               (fun df_clean => Ok (Some df_clean)), w')
        end
    | (Raise e, w') => (Raise e, w')
    end.
Proof.
  unfold main, bind. destruct (fetch_all w) as [[all_data | e] w'];
    [| reflexivity].
  destruct (pd_DataFrame all_data); reflexivity.
Qed.

(** A run that retrieved data: the cleaned frame. *)
Lemma main_Some numeric_text w df_clean :
  fst (main numeric_text w) = Ok (Some df_clean) ->
  exists all_data,
    fst (fetch_all w) = Ok all_data /\
    all_data <> [] /\
    Permutation df_clean (map cleaned_row all_data) /\
    Sorted key_le df_clean.
Proof.
  rewrite main_eq.
  destruct (fetch_all w) as [[all_data | e] w']; [| discriminate].
  destruct all_data as [| r rest]; [discriminate |].
  destruct (clean_data_of_records numeric_text (r :: rest))
    as (out & Hout & Hperm & Hsorted).
  change (pd_DataFrame (r :: rest))
    with (row_of_record r :: pd_DataFrame rest) in Hout |- *.
  cbv iota. rewrite Hout. cbn [res_bind fst].
  intros H. injection H as <-.
  exists (r :: rest). split; [reflexivity |]. split; [discriminate |].
  split; [exact Hperm | exact Hsorted].
Qed.

(** X19. The three ways a run can end, whatever the network answers.
    [main] returns early exactly when the fetch phase collected no
    record; otherwise it reaches the export with a sorted frame that
    holds one row for each collected record (the cleaner drops nothing
    and never raises there); and an exception that ends the run is a
    [TypeError], an [AttributeError] or an [OverflowError] raised by an
    adapter. The cleaning makes no request. *)
Theorem main_outcomes :
  forall numeric_text w,
    match fst (main numeric_text w) with
    | Ok None => fst (fetch_all w) = Ok []
    | Ok (Some df_clean) =>
        exists all_data,
          fst (fetch_all w) = Ok all_data /\
          all_data <> [] /\
          Permutation df_clean (map cleaned_row all_data) /\
          Sorted key_le df_clean
    | Raise e =>
        fst (fetch_all w) = Raise e /\
        (e = TypeError \/ e = AttributeError \/ e = OverflowError)
    end /\
    snd (main numeric_text w) = snd (fetch_all w).
Proof.
  intros numeric_text w.
  destruct (fst (main numeric_text w)) as [[df_clean |] | e] eqn:Hmain.
  - split; [apply (main_Some numeric_text w df_clean Hmain) |].
    rewrite main_eq. destruct (fetch_all w) as [[all_data | e] w'];
      [| reflexivity].
    destruct (pd_DataFrame all_data); reflexivity.
  - rewrite main_eq in *.
    destruct (fetch_all w) as [[all_data | e] w']; [| discriminate].
    destruct all_data as [| r rest]; [split; reflexivity |].
    exfalso.
    destruct (clean_data_of_records numeric_text (r :: rest))
      as (out & Hout & _).
    change (pd_DataFrame (r :: rest))
      with (row_of_record r :: pd_DataFrame rest) in Hout, Hmain.
    cbv iota in Hmain. rewrite Hout in Hmain. discriminate.
  - rewrite main_eq in *.
    pose proof (fetch_all_raises_only w) as Hraises.
    destruct (fetch_all w) as [[all_data | e'] w'].
    + exfalso. destruct all_data as [| r rest]; [discriminate |].
      destruct (clean_data_of_records numeric_text (r :: rest))
        as (out & Hout & _).
      change (pd_DataFrame (r :: rest))
        with (row_of_record r :: pd_DataFrame rest) in Hout, Hmain.
      cbv iota in Hmain. rewrite Hout in Hmain. discriminate.
    + cbn [fst snd] in *. injection Hmain as ->.
      split; [| reflexivity]. split; [reflexivity |].
      destruct (Hraises e eq_refl) as [<- | [<- | [<- | []]]]; auto.
Qed.

(* ====================================================================== *)
(** ** The export phase *)

Lemma String_compare_trans x y z :
  String.compare x y = Lt -> String.compare y z = Lt ->
  String.compare x z = Lt.
Proof.
  intros H1 H2.
  apply OrderedTypeEx.String_as_OT.cmp_lt in H1.
  apply OrderedTypeEx.String_as_OT.cmp_lt in H2.
  apply OrderedTypeEx.String_as_OT.cmp_lt.
  exact (OrderedTypeEx.String_as_OT.lt_trans _ _ _ H1 H2).
Qed.

Lemma Z_compare_trans x y z :
  Z.compare x y = Lt -> Z.compare y z = Lt -> Z.compare x z = Lt.
Proof.
  rewrite !Z.compare_lt_iff. apply Z.lt_trans.
Qed.

Section Lexicographic.

Context {A : Type} (cmp : A -> A -> comparison).
Hypothesis cmp_eq : forall x y, cmp x y = Eq -> x = y.
Hypothesis cmp_trans :
  forall x y z, cmp x y = Lt -> cmp y z = Lt -> cmp x z = Lt.

Lemma na_last_eq a b : na_last cmp a b = Eq -> a = b.
Proof.
  destruct a, b; simpl; intros H; try discriminate; [| reflexivity].
  f_equal. apply cmp_eq, H.
Qed.

Lemma na_last_trans a b c :
  na_last cmp a b = Lt -> na_last cmp b c = Lt -> na_last cmp a c = Lt.
Proof.
  destruct a, b, c; simpl; try discriminate; try reflexivity.
  apply cmp_trans.
Qed.

End Lexicographic.

(** Below-or-equal composes, one column after the other. *)
Lemma lex_le_trans (a12 a23 a13 b12 b23 b13 : comparison) :
  (a12 = Eq -> a13 = a23) ->
  (a23 = Eq -> a13 = a12) ->
  (a12 = Lt -> a23 = Lt -> a13 = Lt) ->
  (b12 <> Gt -> b23 <> Gt -> b13 <> Gt) ->
  lex a12 b12 <> Gt -> lex a23 b23 <> Gt -> lex a13 b13 <> Gt.
Proof.
  intros Heq1 Heq2 Hlt Hb.
  destruct a12, a23; simpl; intros H1 H2;
    try (exfalso; apply H1; reflexivity);
    try (exfalso; apply H2; reflexivity).
  - rewrite (Heq1 eq_refl). simpl. apply Hb; assumption.
  - rewrite (Heq1 eq_refl). simpl. discriminate.
  - rewrite (Heq2 eq_refl). simpl. discriminate.
  - rewrite (Hlt eq_refl eq_refl). simpl. discriminate.
Qed.

Lemma key_le_trans r1 r2 r3 : key_le r1 r2 -> key_le r2 r3 -> key_le r1 r3.
Proof.
  assert (Hne : forall r r', key_le r r' <-> key_compare r r' <> Gt).
  { intros r r'. unfold key_le, key_leb.
    destruct (key_compare r r'); split; intros H; try reflexivity;
      try discriminate. exfalso. apply H. reflexivity. }
  rewrite !Hne. unfold key_compare.
  apply lex_le_trans.
  - intros H. apply (na_last_eq _ String.compare_eq_iff) in H.
    rewrite H. reflexivity.
  - intros H. apply (na_last_eq _ String.compare_eq_iff) in H.
    rewrite H. reflexivity.
  - apply na_last_trans, String_compare_trans.
  - apply lex_le_trans.
    + intros H. apply (na_last_eq _ Z.compare_eq) in H.
      rewrite H. reflexivity.
    + intros H. apply (na_last_eq _ Z.compare_eq) in H.
      rewrite H. reflexivity.
    + apply na_last_trans, Z_compare_trans.
    + intros H1 H2.
      destruct (na_last String.compare (FrameRow.Indicator_Name r1)
                  (FrameRow.Indicator_Name r2)) eqn:E12;
        [| | exfalso; apply H1; reflexivity].
      * apply (na_last_eq _ String.compare_eq_iff) in E12.
        rewrite E12. exact H2.
      * destruct (na_last String.compare (FrameRow.Indicator_Name r2)
                    (FrameRow.Indicator_Name r3)) eqn:E23;
          [| | exfalso; apply H2; reflexivity].
        -- apply (na_last_eq _ String.compare_eq_iff) in E23.
           rewrite <- E23, E12. discriminate.
        -- rewrite (na_last_trans _ String_compare_trans _ _ _ E12 E23).
           discriminate.
Qed.

(** The rows picked from a sorted frame are sorted. *)
Lemma filter_Sorted (keep : FrameRow.t -> bool) df :
  Sorted key_le df -> Sorted key_le (filter keep df).
Proof.
  intros Hs. apply StronglySorted_Sorted.
  apply Sorted_StronglySorted in Hs; [| exact key_le_trans].
  induction Hs as [| r df Hs IH Hall]; cbn [filter]; [constructor |].
  destruct (keep r); [| exact IH].
  constructor; [exact IH |].
  apply Forall_forall. intros r' Hr'. apply filter_In in Hr' as [Hr' _].
  rewrite Forall_forall in Hall. apply Hall, Hr'.
Qed.

(** A frame whose rows all carry one of the two tags splits in two. *)
Lemma where_Source_partition df :
  Forall (fun r => FrameRow.Source r = Some "IMF" \/
                   FrameRow.Source r = Some "World Bank") df ->
  Permutation (where_Source "IMF" df ++ where_Source "World Bank" df) df.
Proof.
  unfold where_Source.
  induction 1 as [| r df [Hr | Hr] _ IH]; cbn [filter]; [constructor | |];
    rewrite Hr; cbn [String.eqb Ascii.eqb Bool.eqb]; cbv iota.
  - cbn [app]. constructor. exact IH.
  - rewrite <- Permutation_middle. constructor. exact IH.
Qed.

Lemma os_makedirs_twice d fs written :
  dirs (os_makedirs d {| dirs := dirs (os_makedirs d fs); files := written |})
  = dirs (os_makedirs d fs).
Proof.
  unfold os_makedirs. cbn [dirs files].
  destruct (existsb (String.eqb d) (dirs fs)) eqn:Hd.
  - rewrite Hd. reflexivity.
  - cbn [existsb]. rewrite String.eqb_refl. reflexivity.
Qed.

(** One export into [data] of a file whose name is no absolute path. *)
Lemma export_to_csv_eq df filename fs :
  String.prefix "/" filename = false ->
  export_to_csv df filename "data" fs
  = (Ok tt, {| dirs := dirs (os_makedirs "data" fs);
               files := (files fs ++ [(("data/" ++ filename)%string, df)])%list |}).
Proof.
  intros Hname. unfold export_to_csv, bind, modify, to_csv, os_path_join.
  rewrite Hname. reflexivity.
Qed.

(** The export phase, for any frame: the files of [exported], appended
    in that order, in the directory [data]. *)
Lemma main_export_eq timestamp df_clean fs :
  main_export timestamp df_clean fs
  = (Ok tt, {| dirs := dirs (os_makedirs "data" fs);
               files := (files fs ++ exported timestamp df_clean)%list |}).
Proof.
  unfold main_export, exported, empty. cbv zeta. unfold bind at 1.
  rewrite export_to_csv_eq by reflexivity.
  destruct (where_Source "IMF" df_clean) as [| i imf_df];
    destruct (where_Source "World Bank" df_clean) as [| b wb_df];
    cbn [negb]; unfold bind, ret;
    rewrite ?export_to_csv_eq by reflexivity; cbn [dirs files];
    rewrite ?os_makedirs_twice, <- ?app_assoc; reflexivity.
Qed.

(** X20. When a run reaches the export, it writes into [data] the master
    file with the whole cleaned frame and then one file for each source
    that has rows, never an empty one: two or three files in all. The
    two per-source frames split the master, every row of it being of one
    source or of the other, and each is sorted as the master is. *)
Theorem main_export_by_source :
  forall numeric_text w df_clean timestamp fs,
    fst (main numeric_text w) = Ok (Some df_clean) ->
    main_export timestamp df_clean fs
    = (Ok tt, {| dirs := dirs (os_makedirs "data" fs);
                 files := (files fs ++ exported timestamp df_clean)%list |})
    /\
    (2 <= length (exported timestamp df_clean) <= 3)%nat /\
    Forall (fun file => snd file <> []) (exported timestamp df_clean) /\
    Permutation
      (where_Source "IMF" df_clean ++ where_Source "World Bank" df_clean)
      df_clean /\
    Sorted key_le (where_Source "IMF" df_clean) /\
    Sorted key_le (where_Source "World Bank" df_clean).
Proof.
  intros numeric_text w df_clean timestamp fs Hmain.
  destruct (main_Some _ _ _ Hmain) as (all_data & Hfetch & Hne & Hperm & Hs).
  destruct (fetch_all_Ok _ _ Hfetch) as (imf & wb & -> & Himf & Hwb).
  assert (Hsources :
    Forall (fun r => FrameRow.Source r = Some "IMF" \/
                     FrameRow.Source r = Some "World Bank") df_clean).
  { apply Forall_forall. intros r' Hr'.
    apply (Permutation_in _ Hperm) in Hr'.
    apply in_map_iff in Hr' as (r & <- & Hr).
    rewrite Forall_forall in Himf, Hwb.
    apply in_app_or in Hr as [Hr | Hr].
    - left. destruct (Himf r Hr) as [Hsource _].
      unfold cleaned_row, FrameRow.set_Value, row_of_record. cbn [FrameRow.Source].
      rewrite Hsource. reflexivity.
    - right. destruct (Hwb r Hr) as [[Hsource _] _].
      unfold cleaned_row, FrameRow.set_Value, row_of_record. cbn [FrameRow.Source].
      rewrite Hsource. reflexivity. }
  pose proof (where_Source_partition df_clean Hsources) as Hsplit.
  assert (Hrows : df_clean <> []).
  { intros ->. apply Permutation_nil in Hperm.
    apply map_eq_nil in Hperm. contradiction. }
  split; [apply main_export_eq |].
  split; [| split; [| split; [exact Hsplit |
                              split; apply filter_Sorted, Hs]]].
  - unfold exported.
    destruct (where_Source "IMF" df_clean) as [| i imf_df];
      destruct (where_Source "World Bank" df_clean) as [| b wb_df];
      cbn [length app]; try lia.
    apply Permutation_nil in Hsplit. contradiction.
  - unfold exported.
    destruct (where_Source "IMF" df_clean) as [| i imf_df];
      destruct (where_Source "World Bank" df_clean) as [| b wb_df];
      cbn [app]; repeat constructor; cbn [snd];
      try discriminate; exact Hrows.
Qed.

(** Every request answered with the fund document of the example: the
    master file and the fund file, both with the one row. *)
Lemma main_export_by_source_witness :
  main_export "20240101_120000" [cleaned_row lur_2019] no_files
  = (Ok tt,
     {| dirs := dirs (os_makedirs "data" no_files);
        files := (files no_files
                  ++ exported "20240101_120000" [cleaned_row lur_2019])%list
     |}) /\
  (2 <= length (exported "20240101_120000" [cleaned_row lur_2019]) <= 3)%nat
  /\
  Forall (fun file => snd file <> [])
    (exported "20240101_120000" [cleaned_row lur_2019]) /\
  Permutation
    (where_Source "IMF" [cleaned_row lur_2019]
     ++ where_Source "World Bank" [cleaned_row lur_2019])
    [cleaned_row lur_2019] /\
  Sorted key_le (where_Source "IMF" [cleaned_row lur_2019]) /\
  Sorted key_le (where_Source "World Bank" [cleaned_row lur_2019]).
Proof.
  apply (main_export_by_source python_numeric_text (answering lur_response)).
  vm_compute. reflexivity.
Defined.
